(** * Hybrid XBRL validation pipeline: a shallow embedding and its properties

    The development follows the Python sources under [src/python]:
    - [hybrid_validation_engine.py]: architecture detection, concept
      resolution statistics, facts by namespace, result synthesis;
    - [dmp_concept_resolver.py]: the cached resolution cascade;
    - [dmp_queries.py]: discovery of the table names;
    - [validation_logic.py]: reconciliation of the external validator's
      missing concepts with the dictionary, version compatibility;
    - [rule_parser.py], [rule_evaluator.py], [rule_engine.py]: rule
      classification, applicability and evaluation;
    - [arelle_runner.py]: the external validator adapter.

    Python [str] is modelled by [string] (ASCII case mapping), a [dict]
    whose order matters by an association list with Python's update
    semantics, the resolver cache by a [gmap], [float] by the kernel's
    binary64 numbers, and [try]/[except] by an explicit result type.
    The accuracy of the binary64 operations is stated over the real
    numbers. *)

From Stdlib Require Import ZArith String Ascii List Bool Lia.
From Stdlib Require Import Floats.PrimFloat Floats.FloatOps Floats.SpecFloat.
From Stdlib Require Import Floats.FloatAxioms.
From Stdlib Require Import Uint63.
From Stdlib Require Import Reals Lra.
From stdpp Require Import gmap strings list.
Import ListNotations.

Local Open Scope string_scope.
Local Open Scope list_scope.

(** ** Python strings *)

Module PyStr.

Definition is_upper (c : ascii) : bool :=
  let n := nat_of_ascii c in (65 <=? n)%nat && (n <=? 90)%nat.

Definition is_lower (c : ascii) : bool :=
  let n := nat_of_ascii c in (97 <=? n)%nat && (n <=? 122)%nat.

Definition lower_char (c : ascii) : ascii :=
  if is_upper c then ascii_of_nat (nat_of_ascii c + 32) else c.

Definition upper_char (c : ascii) : ascii :=
  if is_lower c then ascii_of_nat (nat_of_ascii c - 32) else c.

(** [s.lower()] and [s.upper()] *)
Fixpoint lower (s : string) : string :=
  match s with
  | EmptyString => EmptyString
  | String c s' => String (lower_char c) (lower s')
  end.

Fixpoint upper (s : string) : string :=
  match s with
  | EmptyString => EmptyString
  | String c s' => String (upper_char c) (upper s')
  end.

(** [s.startswith(p)] *)
Fixpoint startswith (p s : string) : bool :=
  match p, s with
  | EmptyString, _ => true
  | String _ _, EmptyString => false
  | String a p', String b s' => Ascii.eqb a b && startswith p' s'
  end.

(** [sub in s] *)
Fixpoint contains (sub s : string) : bool :=
  startswith sub s ||
  match s with
  | EmptyString => false
  | String _ s' => contains sub s'
  end.

(** [any(p in s for p in patterns)] *)
Definition any_in (patterns : list string) (s : string) : bool :=
  existsb (fun p => contains p s) patterns.

(** [s.replace(old, new)] for a non-empty [old]: occurrences are replaced
    from left to right without overlap.  [skip] counts the characters of
    a matched occurrence still to be dropped. *)
Fixpoint replace_from (old new : string) (skip : nat) (s : string) : string :=
  match s with
  | EmptyString => EmptyString
  | String c s' =>
      match skip with
      | S k => replace_from old new k s'
      | O =>
          if startswith old s
          then new ++ replace_from old new (String.length old - 1) s'
          else String c (replace_from old new 0 s')
      end
  end.

Definition replace (old new s : string) : string := replace_from old new 0 s.

(** The text after the last ['/'] ([os.path.basename], POSIX flavour). *)
Fixpoint basename_from (acc s : string) : string :=
  match s with
  | EmptyString => acc
  | String c s' =>
      if Ascii.eqb c "/"%char then basename_from s' s' else basename_from acc s'
  end.

Definition basename (path : string) : string := basename_from path path.

(** [s.split(':', 1)]: [None] when there is no colon, otherwise the text
    before and after the first colon. *)
Fixpoint split_colon_once (s : string) : option (string * string) :=
  match s with
  | EmptyString => None
  | String c s' =>
      if Ascii.eqb c ":"%char then Some (EmptyString, s')
      else match split_colon_once s' with
           | Some (a, b) => Some (String c a, b)
           | None => None
           end
  end.

(** [s.split(':')[-1]] *)
Fixpoint after_last_colon_from (acc s : string) : string :=
  match s with
  | EmptyString => acc
  | String c s' =>
      if Ascii.eqb c ":"%char then after_last_colon_from s' s'
      else after_last_colon_from acc s'
  end.

Definition after_last_colon (s : string) : string := after_last_colon_from s s.

(** [', '.join(l)] and friends *)
Fixpoint join (sep : string) (l : list string) : string :=
  match l with
  | [] => EmptyString
  | [x] => x
  | x :: rest => x ++ sep ++ join sep rest
  end.

End PyStr.

(** ** Exceptions and [try]/[except] *)

Inductive exn : Type :=
  | AttributeError (msg : string)
  | TypeError (msg : string)
  | ValueError (msg : string)
  | ParseError (msg : string)
  | FileNotFoundError (msg : string)
  | DatabaseError (msg : string)
  | TimeoutExpired (msg : string)
  | OSError (msg : string).

(** [str(e)] *)
Definition exn_str (e : exn) : string :=
  match e with
  | AttributeError m | TypeError m | ValueError m | ParseError m
  | FileNotFoundError m | DatabaseError m | TimeoutExpired m | OSError m => m
  end.

Inductive result (A : Type) : Type :=
  | Ok (a : A)
  | Raise (e : exn).
Arguments Ok {A} a.
Arguments Raise {A} e.

Definition bind {A B : Type} (r : result A) (k : A -> result B) : result B :=
  match r with
  | Ok a => k a
  | Raise e => Raise e
  end.

(** [try: body  except Exception as e: handler(e)] *)
Definition try_except {A : Type} (body : result A) (handler : exn -> result A)
  : result A :=
  match body with
  | Ok a => Ok a
  | Raise e => handler e
  end.

Declare Scope py_scope.
Delimit Scope py_scope with py.
Notation "'let!' x ':=' c 'in' k" := (bind c (fun x => k))
  (at level 10, x name, c at level 100, k at level 200) : py_scope.

(** ** Insertion-ordered dictionaries with string keys *)

Module Dict.

Section WithValue.
Context {V : Type}.

Definition t := list (string * V).

Fixpoint get (k : string) (d : list (string * V)) : option V :=
  match d with
  | [] => None
  | (k', v) :: rest => if String.eqb k k' then Some v else get k rest
  end.

(** [d[k] = v]: an existing key keeps its position. *)
Fixpoint set (k : string) (v : V) (d : list (string * V)) : list (string * V) :=
  match d with
  | [] => [(k, v)]
  | (k', v') :: rest =>
      if String.eqb k k' then (k', v) :: rest else (k', v') :: set k v rest
  end.

Definition keys (d : list (string * V)) : list string := map fst d.
Definition values (d : list (string * V)) : list V := map snd d.
Definition mem (k : string) (d : list (string * V)) : bool :=
  match get k d with Some _ => true | None => false end.
End WithValue.

End Dict.

(** ** Architecture detector ([hybrid_validation_engine.py]) *)

Module Arch.

(** An element as [xml.etree] exposes it to the detector: its attributes. *)
Definition Attrib := list (string * string).

(** A parsed document: the root's attributes and those of its descendants
    in document order ([root.iter()] yields the root first). *)
Record Document := {
  root_attrib : Attrib;
  descendants : list Attrib
}.

Definition iter (doc : Document) : list Attrib :=
  root_attrib doc :: descendants doc.

(** [ARCHITECTURES[...]['namespaces']] *)
Definition ARCHITECTURES_arch_1_0_namespaces : list string :=
  ["xbrl/crr/dict/dpm/3.0"; "eba.europa.eu/eu/cr/3.0"].

Definition ARCHITECTURES_arch_2_0_namespaces : list string :=
  ["xbrl/dpm/4.0"; "eba.europa.eu/eu/cr/4.0"].

Definition arch_1_0_filename_patterns : list string :=
  ["finrep020400"; "finrep9indgaap"; "gb_finrep"; "_2021-06-30_"; "_2020";
   "fulltaxonomy3.0"; "phase2"; "dummylei"; "_20201218"; "finrep2.4"].

Definition arch_1_0_patterns : list string :=
  ["dpm/3.0"; "eu/cr/3.0"; "finrep/3.0"; "corep/3.0"; "finrep/2.4";
   "gb_finrep"; "finrep020400"; "finrep9indgaap"; "phase2"].

Definition arch_2_0_patterns : list string :=
  ["dpm/4.0"; "eu/cr/4.0"; "finrep/4.0"; "corep/4.0"; "eba_"; "find_";
   "errata5"; "taxo_package_4.0"].

Definition fallback_filename_patterns : list string :=
  ["2021"; "2020"; "phase2"; "fulltaxonomy3"].

(** The body of the loop over [element.attrib.items()]. *)
Definition collect_xmlns (attrib : Attrib) (namespaces : list (string * string))
  : list (string * string) :=
  fold_left
    (fun ns kv =>
       let '(key, value) := kv in
       if PyStr.startswith "xmlns:" key
       then Dict.set (PyStr.replace "xmlns:" "" key) value ns
       else if String.eqb key "xmlns" then Dict.set "default" value ns
       else ns)
    attrib namespaces.

(** [for element in root.iter(): ...; if len(namespaces) > 5: break] *)
Fixpoint scan_elements (elements : list Attrib) (namespaces : list (string * string))
  : list (string * string) :=
  match elements with
  | [] => namespaces
  | element :: rest =>
      let namespaces' := collect_xmlns element namespaces in
      if (5 <? List.length namespaces')%nat then namespaces'
      else scan_elements rest namespaces'
  end.

Definition extract_namespaces (doc : Document) : list (string * string) :=
  let namespaces := collect_xmlns (root_attrib doc) [] in
  match namespaces with
  | [] => scan_elements (iter doc) namespaces
  | _ :: _ => namespaces
  end.

(** One namespace value against the pattern list of a generation and the
    configured namespaces of that generation. *)
Definition namespace_matches (patterns arch_namespaces : list string)
  (namespace : string) : bool :=
  PyStr.any_in patterns (PyStr.lower namespace)
  || PyStr.any_in arch_namespaces namespace.

Definition prefix_is_eba (prefix : string) : bool :=
  PyStr.startswith "eba_" prefix || PyStr.contains "eba" (PyStr.lower prefix).

(** The [try] block of [detect_architecture_version].  [ET_parse] stands
    for [ET.parse(xbrl_path)] followed by [getroot()]: it yields the parsed
    document or raises. *)
Definition detect_body (ET_parse : string -> result Document) (xbrl_path : string)
  : result string :=
  let filename := PyStr.lower (PyStr.basename xbrl_path) in
  if PyStr.any_in arch_1_0_filename_patterns filename then Ok "arch_1_0"
  else
    bind (ET_parse xbrl_path) (fun doc =>
      let namespaces := extract_namespaces doc in
      if existsb (namespace_matches arch_1_0_patterns
                    ARCHITECTURES_arch_1_0_namespaces) (Dict.values namespaces)
      then Ok "arch_1_0"
      else if existsb (namespace_matches arch_2_0_patterns
                         ARCHITECTURES_arch_2_0_namespaces) (Dict.values namespaces)
      then Ok "arch_2_0"
      else if existsb prefix_is_eba (Dict.keys namespaces) then Ok "arch_2_0"
      else if PyStr.any_in fallback_filename_patterns filename then Ok "arch_1_0"
      else Ok "arch_2_0").

Definition detect_architecture_version (ET_parse : string -> result Document)
  (xbrl_path : string) : result string :=
  try_except (detect_body ET_parse xbrl_path) (fun _ => Ok "unknown").

(** The closed set of architecture identifiers. *)
Definition architecture_ids : list string := ["arch_1_0"; "arch_2_0"; "unknown"].

End Arch.

(** ** The dictionary store as the resolver sees it *)

Module Store.

(** Rows of the tables the resolver queries, by the columns it selects. *)
Record ConceptRow := {
  col_ConceptCode : string;
  col_ConceptLabel : string;
  col_ConceptType : string;
  col_MetricCode : string
}.

Record ItemRow := { col_Code : string; col_Label : string }.

Record DataPointRow := { col_DataPointCode : string; col_DataPointLabel : string }.

Record MemberRow := {
  col_MemberCode : string;
  col_MemberXbrlCode : string;
  col_MemberLabel : string
}.

(** A table is known by the columns it offers; a query that names columns
    the table does not have fails, like one on a table that does not exist. *)
Inductive Table : Type :=
  | ConceptRows (rows : list ConceptRow)
  | ItemRows (rows : list ItemRow)
  | DataPointRows (rows : list DataPointRow)
  | MemberRows (rows : list MemberRow).

(** [dmp_db]: the connection manager, the tables behind the connection,
    the discovered [table_mappings] of the queries manager, and the
    engine's reading of [=] and [LIKE] on text ([sql_like pattern value]). *)
Record Database := {
  connect_ok : bool;
  tables : list (string * Table);
  table_mappings : list (string * string);
  sql_eq : string -> string -> bool;
  sql_like : string -> string -> bool
}.

(** [connection_manager.get_connection()] *)
Definition get_connection (db : Database) : result unit :=
  if connect_ok db then Ok tt
  else Raise (DatabaseError "unable to connect").

(** [queries_manager.get_actual_table_name(expected_name)] *)
Definition get_actual_table_name (db : Database) (expected_name : string) : string :=
  match Dict.get expected_name (table_mappings db) with
  | Some actual => actual
  | None => expected_name
  end.

(** [name in queries_manager.table_mappings.values()] *)
Definition in_mapping_values (db : Database) (name : string) : bool :=
  existsb (String.eqb name) (Dict.values (table_mappings db)).

(** [cursor.execute("SELECT TOP 1 * FROM [name]")] *)
Definition probe_table (db : Database) (name : string) : result unit :=
  match Dict.get name (tables db) with
  | Some _ => Ok tt
  | None => Raise (DatabaseError "no such table")
  end.

(** [execute] of a [SELECT ... WHERE] followed by [fetchone()]: the first
    row that satisfies the condition, [None] when there is none. *)
Definition fetchone_concept (db : Database) (name : string)
  (cond : ConceptRow -> bool) : result (option ConceptRow) :=
  match Dict.get name (tables db) with
  | Some (ConceptRows rows) => Ok (List.find cond rows)
  | Some _ => Raise (DatabaseError "no such column")
  | None => Raise (DatabaseError "no such table")
  end.

Definition fetchone_item (db : Database) (name : string)
  (cond : ItemRow -> bool) : result (option ItemRow) :=
  match Dict.get name (tables db) with
  | Some (ItemRows rows) => Ok (List.find cond rows)
  | Some _ => Raise (DatabaseError "no such column")
  | None => Raise (DatabaseError "no such table")
  end.

Definition fetchone_datapoint (db : Database) (name : string)
  (cond : DataPointRow -> bool) : result (option DataPointRow) :=
  match Dict.get name (tables db) with
  | Some (DataPointRows rows) => Ok (List.find cond rows)
  | Some _ => Raise (DatabaseError "no such column")
  | None => Raise (DatabaseError "no such table")
  end.

Definition fetchone_member (db : Database) (name : string)
  (cond : MemberRow -> bool) : result (option MemberRow) :=
  match Dict.get name (tables db) with
  | Some (MemberRows rows) => Ok (List.find cond rows)
  | Some _ => Raise (DatabaseError "no such column")
  | None => Raise (DatabaseError "no such table")
  end.

End Store.

(** ** Concept resolver ([dmp_concept_resolver.py]) *)

Module Resolver.
Import Store.

(** The dictionary a search returns. [MemberXbrlCode] and [searchType]
    are present only on member-table results. *)
Record Concept := {
  ConceptCode : string;
  ConceptLabel : string;
  ConceptType : string;
  MetricCode : string;
  source : string;
  MemberXbrlCode : option string;
  searchType : option string
}.

Inductive DbVersion : Type := dmp_3_3 | dmp_4_0.

(** [try: ... except Exception: return None] around a search. *)
Definition none_on_error {A : Type} (body : result (option A)) : option A :=
  match body with
  | Ok r => r
  | Raise _ => None
  end.

(** [self.prefix_mappings] *)
Definition prefix_mappings : list (string * list string) :=
  [("eba_met", ["eba_met"; "find"]);
   ("eba_met_3.4", ["eba_met"; "find"]);
   ("eba_met_4.0", ["eba_met"; "find"]);
   ("find", ["find"; "eba_met"])].

Definition _clean_concept_name (concept_name : string) : string :=
  match PyStr.split_colon_once concept_name with
  | Some (_, local_name) => local_name
  | None => concept_name
  end.

Definition _detect_database_version (db : Database) : DbVersion :=
  match probe_table db "DimensionalItem" with
  | Ok _ => dmp_3_3
  | Raise _ =>
      match probe_table db "tConcept" with
      | Ok _ => dmp_4_0
      | Raise _ => dmp_3_3
      end
  end.

Definition concept_of_item (table : string) (r : ItemRow) : Concept :=
  {| ConceptCode := col_Code r; ConceptLabel := col_Label r;
     ConceptType := table; MetricCode := ""; source := table;
     MemberXbrlCode := None; searchType := None |}.

Definition concept_of_row (r : ConceptRow) : Concept :=
  {| ConceptCode := col_ConceptCode r; ConceptLabel := col_ConceptLabel r;
     ConceptType := col_ConceptType r; MetricCode := col_MetricCode r;
     source := "tConcept"; MemberXbrlCode := None; searchType := None |}.

(** The selected row has the columns [DataPointCode], [DataPointLabel] and
    the literal ['DataPoint'], so the [MetricCode] default [result[2]] is
    that literal. *)
Definition concept_of_datapoint (r : DataPointRow) : Concept :=
  {| ConceptCode := col_DataPointCode r; ConceptLabel := col_DataPointLabel r;
     ConceptType := "DataPoint"; MetricCode := "DataPoint";
     source := "tDataPoint"; MemberXbrlCode := None; searchType := None |}.

Definition concept_of_member (search_type : string) (r : MemberRow) : Concept :=
  {| ConceptCode := col_MemberCode r; ConceptLabel := col_MemberLabel r;
     ConceptType := "Member"; MetricCode := ""; source := "tMember";
     MemberXbrlCode := Some (col_MemberXbrlCode r);
     searchType := Some search_type |}.

Definition like_pattern (s : string) : string := "%" ++ s ++ "%".

Definition _search_by_exact_match (db : Database) (concept_name : string)
  : option Concept :=
  none_on_error
    (bind (get_connection db) (fun _ =>
     match _detect_database_version db with
     | dmp_3_3 =>
         let cond := fun r =>
           sql_eq db (col_Code r) concept_name
           || sql_like db (like_pattern concept_name) (col_Code r) in
         match fetchone_item db "DimensionalItem" cond with
         | Ok (Some r) => Ok (Some (concept_of_item "DimensionalItem" r))
         | Ok None => Ok None
         | Raise _ =>
             match fetchone_item db "Item" cond with
             | Ok (Some r) => Ok (Some (concept_of_item "Item" r))
             | Ok None => Ok None
             | Raise _ => Ok None
             end
         end
     | dmp_4_0 =>
         let concept_table := get_actual_table_name db "tConcept" in
         if in_mapping_values db concept_table then
           bind (fetchone_concept db concept_table (fun r =>
                   sql_eq db (col_ConceptCode r) concept_name
                   || sql_eq db (col_ConceptLabel r) concept_name))
                (fun result => Ok (option_map concept_of_row result))
         else Ok None
     end)).

Definition _search_by_clean_name (db : Database) (clean_name : string)
  : option Concept :=
  none_on_error
    (bind (get_connection db) (fun _ =>
     match _detect_database_version db with
     | dmp_3_3 =>
         let cond := fun r =>
           sql_like db (like_pattern clean_name) (col_Code r)
           || sql_like db (like_pattern clean_name) (col_Label r) in
         match fetchone_item db "DimensionalItem" cond with
         | Ok (Some r) => Ok (Some (concept_of_item "DimensionalItem" r))
         | _ =>
             match fetchone_item db "PrimaryItem" cond with
             | Ok (Some r) => Ok (Some (concept_of_item "PrimaryItem" r))
             | _ => Ok None
             end
         end
     | dmp_4_0 =>
         let concept_table := get_actual_table_name db "tConcept" in
         bind (if in_mapping_values db concept_table
               then fetchone_concept db concept_table (fun r =>
                      sql_like db (like_pattern clean_name) (col_ConceptCode r)
                      || sql_like db (like_pattern clean_name) (col_ConceptLabel r))
               else Ok None)
           (fun result =>
              match result with
              | Some r => Ok (Some (concept_of_row r))
              | None =>
                  let datapoint_table := get_actual_table_name db "tDataPoint" in
                  if in_mapping_values db datapoint_table then
                    bind (fetchone_datapoint db datapoint_table (fun r =>
                            sql_like db (like_pattern clean_name) (col_DataPointCode r)
                            || sql_like db (like_pattern clean_name)
                                 (col_DataPointLabel r)))
                         (fun result => Ok (option_map concept_of_datapoint result))
                  else Ok None
              end)
     end)).

(** [for variant_prefix in variants: ...] *)
Fixpoint try_variants (db : Database) (concept_table local_name : string)
  (variants : list string) : result (option Concept) :=
  match variants with
  | [] => Ok None
  | variant_prefix :: rest =>
      let variant_concept := (variant_prefix ++ ":" ++ local_name)%string in
      bind (fetchone_concept db concept_table (fun r =>
              sql_eq db (col_ConceptCode r) variant_concept))
           (fun result =>
              match result with
              | Some r => Ok (Some (concept_of_row r))
              | None => try_variants db concept_table local_name rest
              end)
  end.

Definition _search_by_prefix_variants (db : Database) (concept_name : string)
  : option Concept :=
  none_on_error
    match PyStr.split_colon_once concept_name with
    | None => Ok None
    | Some (prefix, local_name) =>
        let variants :=
          match Dict.get prefix prefix_mappings with
          | Some vs => vs
          | None => [prefix]
          end in
        bind (get_connection db) (fun _ =>
        match _detect_database_version db with
        | dmp_3_3 => Ok None
        | dmp_4_0 =>
            let concept_table := get_actual_table_name db "tConcept" in
            if negb (in_mapping_values db concept_table) then Ok None
            else try_variants db concept_table local_name variants
        end)
    end.

(** [for pattern in patterns: ...] of the partial match *)
Fixpoint try_patterns (db : Database) (concept_table : string)
  (patterns : list string) : result (option Concept) :=
  match patterns with
  | [] => Ok None
  | pattern :: rest =>
      bind (fetchone_concept db concept_table (fun r =>
              sql_like db (like_pattern pattern) (col_ConceptCode r)))
           (fun result =>
              match result with
              | Some r => Ok (Some (concept_of_row r))
              | None => try_patterns db concept_table rest
              end)
  end.

Definition _search_by_partial_match (db : Database) (clean_name : string)
  : option Concept :=
  none_on_error
    (bind (get_connection db) (fun _ =>
     match _detect_database_version db with
     | dmp_3_3 => Ok None
     | dmp_4_0 =>
         let concept_table := get_actual_table_name db "tConcept" in
         if in_mapping_values db concept_table then
           try_patterns db concept_table
             [clean_name; PyStr.upper clean_name; PyStr.lower clean_name]
         else Ok None
     end)).

(** [for pattern, search_type in search_patterns: ...] of the member table *)
Fixpoint try_member_patterns (db : Database) (member_table : string)
  (search_patterns : list (string * string)) : result (option Concept) :=
  match search_patterns with
  | [] => Ok None
  | (pattern, search_type) :: rest =>
      let cond := fun r =>
        if PyStr.contains "partial" search_type
        then sql_like db pattern (col_MemberCode r)
             || sql_like db pattern (col_MemberXbrlCode r)
        else sql_eq db (col_MemberCode r) pattern
             || sql_eq db (col_MemberXbrlCode r) pattern in
      bind (fetchone_member db member_table cond)
           (fun result =>
              match result with
              | Some r => Ok (Some (concept_of_member search_type r))
              | None => try_member_patterns db member_table rest
              end)
  end.

Definition _search_in_member_table (db : Database) (concept_name : string)
  : option Concept :=
  none_on_error
    (bind (get_connection db) (fun _ =>
     let member_table := get_actual_table_name db "tMember" in
     if negb (in_mapping_values db member_table) then Ok None
     else
       let clean_name := _clean_concept_name concept_name in
       try_member_patterns db member_table
         [(concept_name, "exact match");
          (clean_name, "clean name exact match");
          (like_pattern concept_name, "concept name partial match");
          (like_pattern clean_name, "clean name partial match")])).

Definition _search_using_queries_manager (db : Database) (concept_name : string)
  : option Concept :=
  None.

(** The searches of the cascade, in the order of the source. *)
Inductive Strategy : Type :=
  | ExactMatch | CleanName | PrefixVariants | PartialMatch | MemberTable
  | QueriesManager.

(** A search that ran, recorded with what it returned. *)
Definition Ran := (list Strategy * option Concept)%type.

Definition call (s : Strategy) (r : option Concept) : Ran := ([s], r).

(** Python's [a or b]: [b] is evaluated only when [a] is falsy.  Every
    dictionary a search returns is non-empty, hence truthy. *)
Definition py_or (a : Ran) (b : unit -> Ran) : Ran :=
  match a with
  | (ran, Some c) => (ran, Some c)
  | (ran, None) => let '(ran', r) := b tt in (ran ++ ran', r)
  end.

(** The [or] chain of [resolve_concept_from_dmp]. *)
Definition search_cascade (db : Database) (concept_name : string) : Ran :=
  let clean_concept := _clean_concept_name concept_name in
  py_or (py_or (py_or (py_or (py_or
    (call ExactMatch (_search_by_exact_match db concept_name))
    (fun _ => call CleanName (_search_by_clean_name db clean_concept)))
    (fun _ => call PrefixVariants (_search_by_prefix_variants db concept_name)))
    (fun _ => call PartialMatch (_search_by_partial_match db clean_concept)))
    (fun _ => call MemberTable (_search_in_member_table db concept_name)))
    (fun _ => call QueriesManager (_search_using_queries_manager db concept_name)).

(** The resolver's state is [self.concept_cache]. *)
Record Outcome := {
  returned : option Concept;
  cache_after : gmap string Concept;
  searches_run : list Strategy
}.

Definition resolve_concept_from_dmp (db : Database)
  (concept_cache : gmap string Concept) (concept_name : string) : Outcome :=
  match concept_cache !! concept_name with
  | Some cached =>
      {| returned := Some cached; cache_after := concept_cache;
         searches_run := [] |}
  | None =>
      let '(ran, dmp_concept) := search_cascade db concept_name in
      match dmp_concept with
      | Some c =>
          {| returned := Some c;
             cache_after := <[concept_name := c]> concept_cache;
             searches_run := ran |}
      | None =>
          {| returned := None; cache_after := concept_cache;
             searches_run := ran |}
      end
  end.

(** The strategy the run of a cascade stopped at. *)
Definition run_strategy (db : Database) (s : Strategy) (concept_name : string)
  : option Concept :=
  match s with
  | ExactMatch => _search_by_exact_match db concept_name
  | CleanName => _search_by_clean_name db (_clean_concept_name concept_name)
  | PrefixVariants => _search_by_prefix_variants db concept_name
  | PartialMatch => _search_by_partial_match db (_clean_concept_name concept_name)
  | MemberTable => _search_in_member_table db concept_name
  | QueriesManager => _search_using_queries_manager db concept_name
  end.

Definition cascade_order : list Strategy :=
  [ExactMatch; CleanName; PrefixVariants; PartialMatch; MemberTable;
   QueriesManager].

(** [for concept in concept_list: results[concept] = ...] *)
Fixpoint batch_from (db : Database) (concept_cache : gmap string Concept)
  (concept_list : list string) (results : list (string * option Concept))
  : list (string * option Concept) * gmap string Concept :=
  match concept_list with
  | [] => (results, concept_cache)
  | concept :: rest =>
      let o := resolve_concept_from_dmp db concept_cache concept in
      batch_from db (cache_after o) rest (Dict.set concept (returned o) results)
  end.

(** [batch_resolve_concepts]: the dictionary of results and the cache
    after the last call. *)
Definition batch_resolve_concepts (db : Database)
  (concept_cache : gmap string Concept) (concept_list : list string)
  : list (string * option Concept) * gmap string Concept :=
  batch_from db concept_cache concept_list [].

End Resolver.

(** ** Decimal rendering of numbers ([str(n)], [f"{n}"]) *)

Module PyNum.

Definition digit_char (d : N) : ascii := ascii_of_N (48 + d).

Definition is_digit (c : ascii) : bool :=
  let n := N_of_ascii c in (48 <=? n)%N && (n <=? 57)%N.

(** Decimal digits of [n], least significant first in [acc]; [fuel]
    bounds the number of digits. *)
Fixpoint digits_of (fuel : nat) (n : N) (acc : string) : string :=
  match fuel with
  | O => acc
  | S fuel' =>
      let acc' := String (digit_char (n mod 10)) acc in
      if (n / 10 =? 0)%N then acc' else digits_of fuel' (n / 10)%N acc'
  end.

(** [str(n)] for a natural number: [N.size n] bits need no more than
    [N.size n] decimal digits, and zero is printed with one digit. *)
Definition str_of_N (n : N) : string :=
  digits_of (S (N.to_nat (N.size n))) n EmptyString.

Definition str_of_nat (n : nat) : string := str_of_N (N.of_nat n).

Fixpoint all_digits (s : string) : bool :=
  match s with
  | EmptyString => true
  | String c s' => is_digit c && all_digits s'
  end.

End PyNum.

(** ** Reconciliation with the external validator ([validation_logic.py]) *)

Module ValidationLogic.
Import Resolver.

(** An entry of the [errors] list. *)
Record ErrorEntry := {
  e_message : string;
  e_severity : string;
  e_code : string;
  e_concept : string;
  e_line : nat
}.

(** An entry of [dmp_results]. *)
Record DmpResult := {
  d_concept : string;
  d_rule : string;
  d_status : string;
  d_message : string;
  d_annotation : string;
  d_ruleType : string;
  d_severity : string;
  d_source : option string;
  d_dmpData : option Concept
}.

(** The first loop: every missing concept is sent to the resolver, which
    keeps its cache between calls.  [resolved_concepts] is a dictionary,
    [unresolved_concepts] a list. *)
Fixpoint resolve_missing (db : Store.Database) (cache : gmap string Concept)
  (missing_concepts : list string)
  (resolved_concepts : list (string * Concept)) (unresolved_concepts : list string)
  : list (string * Concept) * list string * gmap string Concept :=
  match missing_concepts with
  | [] => (resolved_concepts, unresolved_concepts, cache)
  | concept :: rest =>
      let o := resolve_concept_from_dmp db cache concept in
      match returned o with
      | Some dmp_concept =>
          resolve_missing db (cache_after o) rest
            (Dict.set concept dmp_concept resolved_concepts) unresolved_concepts
      | None =>
          resolve_missing db (cache_after o) rest
            resolved_concepts (unresolved_concepts ++ [concept])
      end
  end.

Definition resolved_severity (dmp_concept : Concept) : string :=
  if String.eqb (source dmp_concept) "tMember" then "info" else "warning".

Definition resolved_error_entry (issue_id : nat) (concept : string)
  (dmp_concept : Concept) : ErrorEntry :=
  {| e_message := "Concept resolved in DMP database: " ++ concept;
     e_severity := resolved_severity dmp_concept;
     e_code := "CONCEPT-RESOLVED-" ++ PyNum.str_of_nat issue_id;
     e_concept := concept;
     e_line := issue_id |}.

Definition source_info (dmp_concept : Concept) : string :=
  let base := ("Found in " ++ source dmp_concept ++ " table")%string in
  if String.eqb (source dmp_concept) "tMember" then
    match MemberXbrlCode dmp_concept with
    | Some xbrl_code =>
        if String.eqb xbrl_code "" then base
        else (base ++ " (XBRL Code: " ++ xbrl_code ++ ")")%string
    | None => base
    end
  else base.

Definition resolved_dmp_result (issue_id : nat) (concept : string)
  (dmp_concept : Concept) : DmpResult :=
  {| d_concept := concept;
     d_rule := "EBA-RESOLUTION-" ++ PyNum.str_of_nat issue_id;
     d_status := "Resolved";
     d_message := "Concept " ++ concept ++ " exists in DMP 4.0 database as "
                  ++ ConceptCode dmp_concept;
     d_annotation := source_info dmp_concept
                     ++ ". Consider updating taxonomy to include this concept.";
     d_ruleType := "resolution";
     d_severity := resolved_severity dmp_concept;
     d_source := Some (source dmp_concept);
     d_dmpData := Some dmp_concept |}.

Definition missing_error_entry (issue_id : nat) (concept : string) : ErrorEntry :=
  {| e_message := "Missing schema concept definition: " ++ concept;
     e_severity := "error";
     e_code := "MISSING-CONCEPT-" ++ PyNum.str_of_nat issue_id;
     e_concept := concept;
     e_line := issue_id |}.

Definition missing_dmp_result (issue_id : nat) (concept : string) : DmpResult :=
  {| d_concept := concept;
     d_rule := "EBA-MISSING-" ++ PyNum.str_of_nat issue_id;
     d_status := "Failed";
     d_message := "Schema concept definition missing for " ++ concept;
     d_annotation := "Required EBA concept " ++ concept
       ++ " not found in loaded taxonomy schemas or DMP 4.0 database (including Member table)";
     d_ruleType := "schema";
     d_severity := "error";
     d_source := None;
     d_dmpData := None |}.

(** [for concept, dmp_concept in resolved_concepts.items(): ...] *)
Fixpoint report_resolved (issue_id : nat) (items : list (string * Concept))
  : list ErrorEntry * list DmpResult * nat :=
  match items with
  | [] => ([], [], issue_id)
  | (concept, dmp_concept) :: rest =>
      let '(errors, dmp_results, next_id) := report_resolved (S issue_id) rest in
      (resolved_error_entry issue_id concept dmp_concept :: errors,
       resolved_dmp_result issue_id concept dmp_concept :: dmp_results,
       next_id)
  end.

(** [for concept in unresolved_concepts: ...] *)
Fixpoint report_unresolved (issue_id : nat) (concepts : list string)
  : list ErrorEntry * list DmpResult * nat :=
  match concepts with
  | [] => ([], [], issue_id)
  | concept :: rest =>
      let '(errors, dmp_results, next_id) := report_unresolved (S issue_id) rest in
      (missing_error_entry issue_id concept :: errors,
       missing_dmp_result issue_id concept :: dmp_results,
       next_id)
  end.

Definition count_severity (sev : string) (errors : list ErrorEntry) : nat :=
  List.length (List.filter (fun e => String.eqb (e_severity e) sev) errors).

Record ProcessedOutput := {
  isValid : bool;
  status : string;
  errors : list ErrorEntry;
  dmpResults : list DmpResult;
  totalErrorsDetected : nat;
  totalWarningsDetected : nat;
  totalInfoDetected : nat;
  resolved : list (string * Concept);
  unresolved : list string;
  resolver_cache : gmap string Concept
}.

(** [process_arelle_output]: [missing_concepts] is the list that
    [_extract_missing_concepts_enhanced] drew from the validator's output
    and [returncode] the validator's exit code. *)
Definition process_arelle_output (db : Store.Database)
  (cache : gmap string Concept) (missing_concepts : list string)
  (returncode : Z) : ProcessedOutput :=
  let '(resolved_concepts, unresolved_concepts, cache') :=
    resolve_missing db cache missing_concepts [] [] in
  let '(errors1, results1, issue_id) := report_resolved 1 resolved_concepts in
  let '(errors2, results2, _) := report_unresolved issue_id unresolved_concepts in
  let errors := errors1 ++ errors2 in
  let total_errors := count_severity "error" errors in
  let is_valid := (total_errors =? 0)%nat && (returncode =? 0)%Z in
  {| isValid := is_valid;
     status := if is_valid then "valid" else "invalid";
     errors := errors;
     dmpResults := results1 ++ results2;
     totalErrorsDetected := total_errors;
     totalWarningsDetected := count_severity "warning" errors;
     totalInfoDetected := count_severity "info" errors;
     resolved := resolved_concepts;
     unresolved := unresolved_concepts;
     resolver_cache := cache' |}.

End ValidationLogic.

(** ** Dynamically typed values ([Dict[str, Any]]) *)

#[warnings="-register-all"]
Inductive PyVal : Type :=
  | VNone
  | VBool (b : bool)
  | VInt (z : Z)
  | VStr (s : string)
  | VList (items : list PyVal)
  | VDict (entries : list (string * PyVal)).

Module Py.

(** [type(v).__name__] *)
Definition type_name (v : PyVal) : string :=
  match v with
  | VNone => "NoneType"
  | VBool _ => "bool"
  | VInt _ => "int"
  | VStr _ => "str"
  | VList _ => "list"
  | VDict _ => "dict"
  end.

(** [d.get(key, default)] on a value that should be a dictionary *)
Definition get (v : PyVal) (key : string) (default : PyVal) : result PyVal :=
  match v with
  | VDict entries =>
      Ok (match Dict.get key entries with Some x => x | None => default end)
  | _ => Raise (AttributeError
           ("'" ++ type_name v ++ "' object has no attribute 'get'"))
  end.

(** [v == s] for a string literal [s] *)
Definition eq_str (v : PyVal) (s : string) : bool :=
  match v with
  | VStr t => String.eqb t s
  | _ => false
  end.

Fixpoint chars (s : string) : list PyVal :=
  match s with
  | EmptyString => []
  | String c s' => VStr (String c EmptyString) :: chars s'
  end.

(** The items a [for] loop draws from a value *)
Definition iterate (v : PyVal) : result (list PyVal) :=
  match v with
  | VList items => Ok items
  | VStr s => Ok (chars s)
  | VDict entries => Ok (map (fun kv => VStr (fst kv)) entries)
  | _ => Raise (TypeError ("'" ++ type_name v ++ "' object is not iterable"))
  end.

(** [v in s] for a string [s] *)
Definition in_str (v : PyVal) (s : string) : result bool :=
  match v with
  | VStr t => Ok (PyStr.contains t s)
  | _ => Raise (TypeError
           ("'in <string>' requires string as left operand, not " ++ type_name v))
  end.

(** [', '.join(items)] *)
Fixpoint join_items (index : nat) (items : list PyVal) : result (list string) :=
  match items with
  | [] => Ok []
  | VStr s :: rest =>
      bind (join_items (S index) rest) (fun l => Ok (s :: l))
  | v :: _ =>
      Raise (TypeError ("sequence item " ++ PyNum.str_of_nat index
                        ++ ": expected str instance, " ++ type_name v ++ " found"))
  end.

Definition join (sep : string) (items : list PyVal) : result string :=
  bind (join_items 0 items) (fun l => Ok (PyStr.join sep l)).

(** Truthiness *)
Definition truthy (v : PyVal) : bool :=
  match v with
  | VNone => false
  | VBool b => b
  | VInt z => negb (z =? 0)%Z
  | VStr s => negb (String.eqb s "")
  | VList items => match items with [] => false | _ => true end
  | VDict entries => match entries with [] => false | _ => true end
  end.

End Py.

(** ** Rule parser ([rule_parser.py]) *)

Module RuleParser.

(** The passes of the parser that go through the regular-expression
    engine; they do not take part in the choice of the execution method. *)
Record Extractors := {
  _extract_concept_references : string -> list string;
  _extract_calculations : string -> list PyVal;
  _extract_conditions : string -> list PyVal
}.

(** [list(set(l))] keeps one copy of each element; the order is the
    set's.  The first occurrences are kept here. *)
Fixpoint dedup (l : list string) : list string :=
  match l with
  | [] => []
  | x :: rest => x :: List.filter (fun y => negb (String.eqb x y)) (dedup rest)
  end.

Definition _parse_rule_expression (ex : Extractors) (expression : string)
  : PyVal :=
  let low := PyStr.lower expression in
  let all_concepts := _extract_concept_references ex expression in
  let '(type, concepts, conditions, calculations) :=
    if PyStr.contains "sum(" low then
      ("calculation", [], [], _extract_calculations ex expression)
    else if PyStr.contains "exists(" low || PyStr.contains "not exists(" low then
      ("existence", _extract_concept_references ex expression, [], [])
    else if PyStr.any_in ["="; ">"; "<"; ">="; "<="; "!="] expression then
      ("comparison", [], _extract_conditions ex expression, [])
    else if PyStr.contains "if" low || PyStr.contains "when" low then
      ("conditional", [], _extract_conditions ex expression, [])
    else ("unknown", [], [], []) in
  VDict [("original", VStr expression);
         ("type", VStr type);
         ("concepts", VList (map VStr (dedup (concepts ++ all_concepts))));
         ("conditions", VList conditions);
         ("calculations", VList calculations)].

Definition _determine_execution_method (rule_type expression : string) : string :=
  if PyStr.contains "calculation" rule_type
     || PyStr.contains "sum(" (PyStr.lower expression)
  then "calculation_check"
  else if PyStr.contains "existence" rule_type
          || PyStr.contains "exists(" (PyStr.lower expression)
  then "existence_check"
  else if PyStr.contains "consistency" rule_type
          || PyStr.any_in ["="; ">"; "<"] expression
  then "consistency_check"
  else if PyStr.contains "conditional" rule_type
          || PyStr.contains "if" (PyStr.lower expression)
  then "conditional_check"
  else "general_validation".

(** A text field of a raw rule: [rule_dict.get(key, '')] must be a string
    for the string methods that follow. *)
Definition get_text (rule_dict : list (string * PyVal)) (key meth : string)
  : result string :=
  match Dict.get key rule_dict with
  | None => Ok ""
  | Some (VStr s) => Ok s
  | Some v => Raise (AttributeError
      ("'" ++ Py.type_name v ++ "' object has no attribute '" ++ meth ++ "'"))
  end.

(** [process_rule].  A raw rule comes from a dictionary row: its
    [Expression] and [RuleType] are text, or [None] for a NULL column. *)
Definition process_rule (ex : Extractors) (rule_dict : list (string * PyVal))
  : result (list (string * PyVal)) :=
  let no_lower := fun v : PyVal =>
    AttributeError ("'" ++ Py.type_name v ++ "' object has no attribute 'lower'") in
  let expression :=
    match Dict.get "Expression" rule_dict with Some v => v | None => VStr "" end in
  bind (if Py.truthy expression then
          match expression with
          | VStr e =>
              Ok (Dict.set "parsed_expression" (_parse_rule_expression ex e) rule_dict)
          | v => Raise (no_lower v)
          end
        else Ok rule_dict) (fun processed_rule =>
  bind (get_text rule_dict "RuleType" "lower") (fun rule_type =>
  let rule_type := PyStr.lower rule_type in
  bind (match expression with
        | VStr e => Ok (_determine_execution_method rule_type e)
        | v =>
            if PyStr.contains "calculation" rule_type then Ok "calculation_check"
            else Raise (no_lower v)
        end) (fun method =>
  let processed_rule := Dict.set "execution_method" (VStr method) processed_rule in
  Ok (match Dict.get "ErrorSeverity" processed_rule with
      | Some v => if Py.truthy v then processed_rule
                  else Dict.set "ErrorSeverity" (VStr "ERROR") processed_rule
      | None => Dict.set "ErrorSeverity" (VStr "ERROR") processed_rule
      end)))).

End RuleParser.

(** ** Rule evaluator ([rule_evaluator.py]) and the engine's loop
       ([rule_engine.py]) *)

Module RuleEvaluator.

Definition Rule := list (string * PyVal).
Definition Facts := list (string * PyVal).

Record RuleResult := {
  rule_code : PyVal;
  rule_label : PyVal;
  rule_type : PyVal;
  status : string;
  message : string;
  details : list (string * PyVal)
}.

(** What an [_evaluate_*_rule] method returns; [details] may be absent. *)
Record Evaluation := {
  ev_status : string;
  ev_message : string;
  ev_details : option (list (string * PyVal))
}.

(** [rule.get(key)] *)
Definition rule_get (rule : Rule) (key : string) (default : PyVal) : PyVal :=
  match Dict.get key rule with Some v => v | None => default end.

(** [rule_result.update(evaluation)] *)
Definition update (r : RuleResult) (ev : Evaluation) : RuleResult :=
  {| rule_code := rule_code r; rule_label := rule_label r;
     rule_type := rule_type r;
     status := ev_status ev; message := ev_message ev;
     details := match ev_details ev with Some d => d | None => details r end |}.

(** The test of the inner loop: the conditional expression binds weaker
    than [or], so a fact name without a colon is compared for equality
    only. *)
Definition fact_matches (concept : PyVal) (fact_name : string) : result bool :=
  if PyStr.contains ":" fact_name then
    bind (Py.in_str concept fact_name) (fun sub =>
      if sub then Ok true
      else Ok (Py.eq_str concept (PyStr.after_last_colon fact_name)))
  else Ok (Py.eq_str concept fact_name).

(** [for fact_name in facts.keys(): if ...: found = True; break] *)
Fixpoint concept_found (concept : PyVal) (fact_names : list string) : result bool :=
  match fact_names with
  | [] => Ok false
  | fact_name :: rest =>
      bind (fact_matches concept fact_name) (fun hit =>
        if hit then Ok true else concept_found concept rest)
  end.

(** [for concept in required_concepts: ...] *)
Fixpoint find_missing (required_concepts : list PyVal) (fact_names : list string)
  : result (list PyVal) :=
  match required_concepts with
  | [] => Ok []
  | concept :: rest =>
      bind (concept_found concept fact_names) (fun found =>
      bind (find_missing rest fact_names) (fun missing =>
        Ok (if found then missing else concept :: missing)))
  end.

Definition _evaluate_existence_rule (rule : Rule) (facts : Facts)
  (concept_resolutions : PyVal) : result Evaluation :=
  let parsed_expr := rule_get rule "parsed_expression" (VDict []) in
  bind (Py.get parsed_expr "concepts" (VList [])) (fun required_concepts =>
  bind (Py.iterate required_concepts) (fun required =>
  bind (find_missing required (Dict.keys facts)) (fun missing_concepts =>
    match missing_concepts with
    | [] => Ok {| ev_status := "passed";
                  ev_message := "All required concepts found";
                  ev_details := None |}
    | _ :: _ =>
        bind (Py.join ", " missing_concepts) (fun joined =>
          Ok {| ev_status := "failed";
                ev_message := "Missing required concepts: " ++ joined;
                ev_details :=
                  Some [("missing_concepts", VList missing_concepts)] |})
    end))).

Definition _evaluate_calculation_rule (rule : Rule) (facts : Facts)
  (concept_resolutions : PyVal) : Evaluation :=
  {| ev_status := "skipped";
     ev_message := "Calculation rule evaluation not yet implemented";
     ev_details := Some [("rule_type", VStr "calculation")] |}.

Definition _evaluate_consistency_rule (rule : Rule) (facts : Facts)
  (concept_resolutions : PyVal) : Evaluation :=
  {| ev_status := "skipped";
     ev_message := "Consistency rule evaluation not yet implemented";
     ev_details := Some [("rule_type", VStr "consistency")] |}.

Definition _evaluate_conditional_rule (rule : Rule) (facts : Facts)
  (concept_resolutions : PyVal) : Evaluation :=
  {| ev_status := "skipped";
     ev_message := "Conditional rule evaluation not yet implemented";
     ev_details := Some [("rule_type", VStr "conditional")] |}.

Definition _evaluate_general_rule (rule : Rule) (facts : Facts)
  (concept_resolutions : PyVal) : Evaluation :=
  {| ev_status := "passed";
     ev_message := "General rule passed (placeholder)";
     ev_details := Some [("rule_type", VStr "general")] |}.

(** The [try] block of [evaluate_rule]: dispatch on [execution_method]. *)
Definition dispatch (rule : Rule) (facts : Facts) (concept_resolutions : PyVal)
  : result Evaluation :=
  let execution_method :=
    rule_get rule "execution_method" (VStr "general_validation") in
  if Py.eq_str execution_method "existence_check" then
    _evaluate_existence_rule rule facts concept_resolutions
  else if Py.eq_str execution_method "calculation_check" then
    Ok (_evaluate_calculation_rule rule facts concept_resolutions)
  else if Py.eq_str execution_method "consistency_check" then
    Ok (_evaluate_consistency_rule rule facts concept_resolutions)
  else if Py.eq_str execution_method "conditional_check" then
    Ok (_evaluate_conditional_rule rule facts concept_resolutions)
  else Ok (_evaluate_general_rule rule facts concept_resolutions).

(** The [rule_result] built before the [try] block. *)
Definition initial_result (rule : Rule) : RuleResult :=
  {| rule_code := rule_get rule "RuleCode" VNone;
     rule_label := rule_get rule "RuleLabel" VNone;
     rule_type := rule_get rule "RuleType" VNone;
     status := "skipped"; message := ""; details := [] |}.

Definition evaluate_rule (rule : Rule) (facts : Facts)
  (concept_resolutions : PyVal) : result RuleResult :=
  let rule_result := initial_result rule in
  try_except
    (bind (dispatch rule facts concept_resolutions) (fun ev =>
       Ok (update rule_result ev)))
    (fun e =>
       Ok {| rule_code := rule_code rule_result;
             rule_label := rule_label rule_result;
             rule_type := rule_type rule_result;
             status := "error";
             message := "Rule evaluation failed: " ++ exn_str e;
             details := details rule_result |}).

(** The counters and results of [validate_facts_against_rules]. *)
Record RuleValidation := {
  total_rules_evaluated : nat;
  rules_passed : nat;
  rules_failed : nat;
  rules_skipped : nat;
  rule_results : list RuleResult
}.

Definition record_result (acc : RuleValidation) (r : RuleResult) : RuleValidation :=
  {| total_rules_evaluated := S (total_rules_evaluated acc);
     rules_passed := if String.eqb (status r) "passed"
                     then S (rules_passed acc) else rules_passed acc;
     rules_failed := if String.eqb (status r) "passed" then rules_failed acc
                     else if String.eqb (status r) "failed"
                     then S (rules_failed acc) else rules_failed acc;
     rules_skipped := if String.eqb (status r) "passed" then rules_skipped acc
                      else if String.eqb (status r) "failed" then rules_skipped acc
                      else S (rules_skipped acc);
     rule_results := rule_results acc ++ [r] |}.

(** [for rule_code in applicable_rules: ...]: the rules are those the
    engine found applicable, in that order. *)
Fixpoint evaluate_rules (rules : list Rule) (facts : Facts)
  (concept_resolutions : PyVal) (acc : RuleValidation) : result RuleValidation :=
  match rules with
  | [] => Ok acc
  | rule :: rest =>
      bind (evaluate_rule rule facts concept_resolutions) (fun r =>
        evaluate_rules rest facts concept_resolutions (record_result acc r))
  end.

Definition empty_validation : RuleValidation :=
  {| total_rules_evaluated := 0; rules_passed := 0; rules_failed := 0;
     rules_skipped := 0; rule_results := [] |}.

End RuleEvaluator.

(** ** Binary64 numbers and [f"{x:.1f}"] *)

Module PyFloat.

Local Open Scope Z_scope.

(** [float(n)] for a count; exact below [2^53]. *)
Definition of_nat (n : nat) : float := PrimFloat.of_uint63 (Uint63.of_Z (Z.of_nat n)).

(** The integer nearest to [num / den], ties to the even one. *)
Definition round_half_even (num den : Z) : Z :=
  let q := num / den in
  let r := num mod den in
  if 2 * r <? den then q
  else if den <? 2 * r then q + 1
  else if Z.even q then q else q + 1.

(** The number of tenths nearest to [m * 2^e]. *)
Definition tenths (m : positive) (e : Z) : Z :=
  if 0 <=? e then 10 * Z.pos m * 2 ^ e
  else round_half_even (10 * Z.pos m) (2 ^ (- e)).

(** [whole.d] for a number of tenths *)
Definition render_tenths (t : Z) : string :=
  (PyNum.str_of_N (Z.to_N (t / 10)) ++ "."
   ++ String (PyNum.digit_char (Z.to_N (t mod 10))) EmptyString)%string.

(** [f"{x:.1f}"]: the decimal with one fractional digit nearest to the
    exact value of [x]. *)
Definition format_1f (x : float) : string :=
  match Prim2SF x with
  | S754_nan => "nan"
  | S754_infinity s => if s then "-inf" else "inf"
  | S754_zero s => if s then "-0.0" else "0.0"
  | S754_finite s m e =>
      ((if s then "-" else "") ++ render_tenths (tenths m e))%string
  end.

(** Finite, as opposed to [nan] and the infinities. *)
Definition finite (x : float) : bool :=
  match Prim2SF x with
  | S754_zero _ | S754_finite _ _ _ => true
  | _ => false
  end.

End PyFloat.

(** ** Resolution statistics ([HybridValidationEngine._resolve_concepts_in_dmp]) *)

Module Resolution.
Import Resolver.

Record Detail := {
  fact_name : string;
  resolved : bool;
  source_table : option string;
  concept_code : option string;
  concept_type : option string
}.

Record Results := {
  status : string;
  total_facts : nat;
  business_facts : nat;
  resolved_facts : nat;
  unresolved_facts : nat;
  resolution_details : list Detail;
  resolution_by_source : list (string * nat);
  resolution_rate : string
}.

Definition structural_elements : list string :=
  ["facts"; "contexts"; "units"; "namespaces"; "parsing_statistics"; "file_path"].

Definition business_prefixes : list string :=
  ["eba_"; "find"; "finrep"; "corep"; "met"; "dim"; "gb"].

Definition structural_prefixes : list string :=
  ["xbrl"; "xml"; "xsi"; "link"; "xlink"].

(** [fact_data[0]] for a non-empty list, [fact_data] itself otherwise *)
Definition fact_instance (fact_data : PyVal) : PyVal :=
  match fact_data with
  | VList (first :: _) => first
  | _ => fact_data
  end.

(** The business-concept test of the loop body. *)
Definition is_business_concept (fact_name : string) (fact_data : PyVal)
  : result bool :=
  match fact_instance fact_data with
  | VDict entries =>
      let flag :=
        match Dict.get "is_business_concept" entries with
        | Some v => Py.truthy v
        | None => false
        end in
      match Dict.get "prefix" entries with
      | Some (VStr prefix) =>
          let low := PyStr.lower prefix in
          if existsb (fun bp => PyStr.contains bp low) business_prefixes then Ok true
          else if negb (existsb (String.eqb low) structural_prefixes)
                  && PyStr.contains ":" fact_name then Ok true
          else Ok flag
      | None =>
          if PyStr.contains ":" fact_name then Ok true else Ok flag
      | Some v => Raise (AttributeError
          ("'" ++ Py.type_name v ++ "' object has no attribute 'lower'"))
      end
  | _ => Ok false
  end.

Definition bump (source : string) (by_source : list (string * nat))
  : list (string * nat) :=
  Dict.set source
    (match Dict.get source by_source with Some n => n | None => 0%nat end + 1)%nat
    by_source.

(** The counters the loop updates. *)
Record Tally := {
  t_business : nat;
  t_resolved : nat;
  t_unresolved : nat;
  t_details : list Detail;
  t_by_source : list (string * nat);
  t_cache : gmap string Concept
}.

Definition resolve_fact (db : Store.Database) (name : string) (acc : Tally) : Tally :=
  let o := resolve_concept_from_dmp db (t_cache acc) name in
  let detail :=
    {| fact_name := name;
       resolved := match returned o with Some _ => true | None => false end;
       source_table := option_map source (returned o);
       concept_code := option_map ConceptCode (returned o);
       concept_type := option_map ConceptType (returned o) |} in
  match returned o with
  | Some resolution =>
      {| t_business := S (t_business acc);
         t_resolved := S (t_resolved acc);
         t_unresolved := t_unresolved acc;
         t_details := t_details acc ++ [detail];
         t_by_source := bump (source resolution) (t_by_source acc);
         t_cache := cache_after o |}
  | None =>
      {| t_business := S (t_business acc);
         t_resolved := t_resolved acc;
         t_unresolved := S (t_unresolved acc);
         t_details := t_details acc ++ [detail];
         t_by_source := t_by_source acc;
         t_cache := cache_after o |}
  end.

(** [for fact_name, fact_data in facts.items(): ...] *)
Fixpoint resolve_loop (db : Store.Database) (facts : list (string * PyVal))
  (acc : Tally) : result Tally :=
  match facts with
  | [] => Ok acc
  | (name, fact_data) :: rest =>
      if existsb (String.eqb name) structural_elements
      then resolve_loop db rest acc
      else
        bind (is_business_concept name fact_data) (fun business =>
          if negb business then resolve_loop db rest acc
          else if negb (PyStr.contains ":" name) then resolve_loop db rest acc
          else resolve_loop db rest (resolve_fact db name acc))
  end.

(** The rate: [(resolved / business) * 100] in binary64, one decimal. *)
Definition rate_value (resolved_count business_count : nat) : float :=
  PrimFloat.mul
    (PrimFloat.div (PyFloat.of_nat resolved_count) (PyFloat.of_nat business_count))
    (PyFloat.of_nat 100).

Definition rate_string (resolved_count business_count : nat) : string :=
  if (0 <? business_count)%nat
  then (PyFloat.format_1f (rate_value resolved_count business_count) ++ "%")%string
  else "0%".

Definition _resolve_concepts_in_dmp (db : Store.Database)
  (cache : gmap string Concept) (facts : list (string * PyVal))
  : result (Results * gmap string Concept) :=
  bind (resolve_loop db facts
          {| t_business := 0; t_resolved := 0; t_unresolved := 0;
             t_details := []; t_by_source := []; t_cache := cache |})
       (fun acc =>
          Ok ({| status := "completed";
                 total_facts := List.length facts;
                 business_facts := t_business acc;
                 resolved_facts := t_resolved acc;
                 unresolved_facts := t_unresolved acc;
                 resolution_details := t_details acc;
                 resolution_by_source := t_by_source acc;
                 resolution_rate := rate_string (t_resolved acc) (t_business acc) |},
              t_cache acc)).

End Resolution.

(** ** External validator adapter ([arelle_runner.py]) *)

Module Arelle.

Definition is_space (c : ascii) : bool :=
  let n := nat_of_ascii c in
  (n =? 32)%nat || ((9 <=? n)%nat && (n <=? 13)%nat)
  || ((28 <=? n)%nat && (n <=? 31)%nat).

Fixpoint lstrip (s : string) : string :=
  match s with
  | EmptyString => EmptyString
  | String c s' => if is_space c then lstrip s' else s
  end.

Definition reverse (s : string) : string :=
  string_of_list_ascii (List.rev (list_ascii_of_string s)).

(** [s.strip()] *)
Definition strip (s : string) : string := reverse (lstrip (reverse (lstrip s))).

(** [s.split('\n')]; [cur] is the line being read, reversed. *)
Fixpoint split_lines_from (cur : list ascii) (s : string) : list string :=
  match s with
  | EmptyString => [string_of_list_ascii (List.rev cur)]
  | String c s' =>
      if Ascii.eqb c "010"%char
      then string_of_list_ascii (List.rev cur) :: split_lines_from [] s'
      else split_lines_from (c :: cur) s'
  end.

Definition split_lines (s : string) : list string := split_lines_from [] s.

(** The details [_categorize_arelle_message] draws from a lower-cased
    message with regular expressions. *)
Record Patterns := {
  re_line_number : string -> option Z;
  re_fact_name : string -> option string;
  re_rule_code : string -> option string;
  re_element_name : string -> option string
}.

Definition categories : list (string * list string) :=
  [("business_rule", ["eba_v"; "finrep"; "corep"; "business rule"; "constraint";
                      "consistency"]);
   ("calculation", ["calculation"; "summation"; "numeric"; "arithmetic"; "balance"]);
   ("formula", ["formula"; "expression"; "assertion"]);
   ("schema", ["schema"; "xsd"; "element"; "type"; "definition"]);
   ("instance", ["instance"; "fact"; "context"; "unit"; "entity"]);
   ("dimension", ["dimension"; "domain"; "member"; "axis"; "hierarchy"]);
   ("linkbase", ["linkbase"; "link"; "arc"; "label"; "reference"]);
   ("namespace", ["namespace"; "prefix"; "uri"; "import"]);
   ("validation", ["validation"; "rule"; "check"; "verify"])].

Definition business_rule_indicators : list string :=
  ["eba_v"; "finrep"; "corep"; "business rule"; "constraint violation";
   "consistency check"; "validation rule"; "regulatory rule"].

Definition business_rule_patterns : list string :=
  ["eba_v"; "eba_validation"; "business rule"; "finrep"; "corep";
   "calculation"; "formula"; "constraint"; "consistency"].

Fixpoint first_category (cats : list (string * list string)) (message_lower : string)
  : string :=
  match cats with
  | [] => "general"
  | (category, keywords) :: rest =>
      if PyStr.any_in keywords message_lower then category
      else first_category rest message_lower
  end.

Definition set_opt (key : string) (v : option PyVal) (d : list (string * PyVal))
  : list (string * PyVal) :=
  match v with
  | Some x => Dict.set key x d
  | None => d
  end.

Definition _categorize_arelle_message (re : Patterns) (message message_type : string)
  : list (string * PyVal) :=
  let message_lower := PyStr.lower message in
  let business := PyStr.any_in business_rule_indicators message_lower in
  let info :=
    [("type", VStr message_type);
     ("message", VStr message);
     ("category", VStr (if business then "business_rule"
                        else first_category categories message_lower));
     ("is_business_rule", VBool business)] in
  let info := set_opt "line_number"
                (option_map VInt (re_line_number re message_lower)) info in
  let info := set_opt "fact_name"
                (option_map VStr (re_fact_name re message_lower)) info in
  let info :=
    match re_rule_code re message_lower with
    | Some code =>
        Dict.set "is_business_rule" (VBool true)
          (Dict.set "rule_code" (VStr code) info)
    | None => info
    end in
  set_opt "element_name" (option_map VStr (re_element_name re message_lower)) info.

Definition error_keywords : list string := ["[ERROR]"; "ERROR:"; "EXCEPTION"; "FATAL"].
Definition warning_keywords : list string := ["[WARNING]"; "WARNING:"; "INCONSISTENCY"].
Definition info_keywords : list string := ["[INFO]"; "INFO:"; "VALIDATION"].

(** What the loop over the output lines collects. *)
Record Parsed := {
  p_errors : list (list (string * PyVal));
  p_warnings : list (list (string * PyVal));
  p_info_messages : list string;
  p_business_rules_processed : nat
}.

Definition parse_line (re : Patterns) (acc : Parsed) (raw : string) : Parsed :=
  let line := strip raw in
  if String.eqb line "" then acc
  else
    let business :=
      if PyStr.any_in business_rule_patterns (PyStr.lower line)
      then S (p_business_rules_processed acc)
      else p_business_rules_processed acc in
    let up := PyStr.upper line in
    if PyStr.any_in error_keywords up then
      {| p_errors := p_errors acc ++ [_categorize_arelle_message re line "error"];
         p_warnings := p_warnings acc;
         p_info_messages := p_info_messages acc;
         p_business_rules_processed := business |}
    else if PyStr.any_in warning_keywords up then
      {| p_errors := p_errors acc;
         p_warnings := p_warnings acc ++ [_categorize_arelle_message re line "warning"];
         p_info_messages := p_info_messages acc;
         p_business_rules_processed := business |}
    else if PyStr.any_in info_keywords up then
      {| p_errors := p_errors acc;
         p_warnings := p_warnings acc;
         p_info_messages := p_info_messages acc ++ [line];
         p_business_rules_processed := business |}
    else
      {| p_errors := p_errors acc;
         p_warnings := p_warnings acc;
         p_info_messages := p_info_messages acc;
         p_business_rules_processed := business |}.

(** [_parse_arelle_output]; the per-category counters of the summary are
    left out. *)
Definition _parse_arelle_output (re : Patterns) (stdout stderr : string)
  (return_code : Z) : list (string * PyVal) :=
  let parsed :=
    fold_left (parse_line re) (split_lines (stdout ++ stderr))
      {| p_errors := []; p_warnings := []; p_info_messages := [];
         p_business_rules_processed := 0 |} in
  let n_errors := List.length (p_errors parsed) in
  [("errors", VList (map VDict (p_errors parsed)));
   ("warnings", VList (map VDict (p_warnings parsed)));
   ("info_messages", VList (map VStr (p_info_messages parsed)));
   ("summary", VDict
      [("total_errors", VInt (Z.of_nat n_errors));
       ("total_warnings", VInt (Z.of_nat (List.length (p_warnings parsed))));
       ("business_rules_detected",
        VInt (Z.of_nat (p_business_rules_processed parsed)));
       ("validation_passed",
        VBool ((return_code =? 0)%Z && (n_errors =? 0)%nat));
       ("return_code", VInt return_code)]);
   ("business_rules_processed",
    VInt (Z.of_nat (p_business_rules_processed parsed)));
   ("raw_output", VDict [("stdout", VStr stdout); ("stderr", VStr stderr)])].

(** How [subprocess.run(cmd, ..., timeout=120)] ends. *)
Inductive Subprocess : Type :=
  | Completed (returncode : Z) (stdout stderr : string)
  | TimedOut
  | Failed (e : exn).

(** [d.update(other)] *)
Definition dict_update (d other : list (string * PyVal)) : list (string * PyVal) :=
  fold_left (fun acc kv => Dict.set (fst kv) (snd kv) acc) other d.

Definition _execute_arelle_validation (re : Patterns) (run : Subprocess)
  : list (string * PyVal) :=
  match run with
  | Completed returncode stdout stderr =>
      dict_update
        [("status", VStr "completed");
         ("return_code", VInt returncode);
         ("validation_successful", VBool (returncode =? 0)%Z)]
        (_parse_arelle_output re stdout stderr returncode)
  | TimedOut =>
      [("status", VStr "timeout");
       ("error", VStr "Arelle validation timed out after 120 seconds")]
  | Failed e =>
      [("status", VStr "error"); ("error", VStr (exn_str e))]
  end.

(** What [validate_with_arelle] meets outside the adapter: whether the
    validator is installed, how taxonomy processing ends (an entry point
    or an error text), a cached result if there is one, and the run. *)
Record World := {
  arelle_available : bool;
  processed_taxonomy : string + string;
  cached_result : option (list (string * PyVal));
  run : Subprocess
}.

(** [validate_with_arelle]; the time stamp of the result is left out. *)
Definition validate_with_arelle (re : Patterns) (w : World)
  (xbrl_path taxonomy_path : string) : list (string * PyVal) :=
  if negb (arelle_available w) then
    [("method", VStr "arelle_fallback");
     ("status", VStr "unavailable");
     ("message", VStr "Arelle is not installed or accessible")]
  else
    let validation_result :=
      [("method", VStr "arelle_fallback");
       ("status", VStr "running");
       ("files", VDict [("xbrl_file", VStr (PyStr.basename xbrl_path));
                        ("taxonomy_file", VStr (PyStr.basename taxonomy_path))])] in
    match processed_taxonomy w with
    | inr error =>
        Dict.set "error" (VStr error)
          (Dict.set "status" (VStr "error") validation_result)
    | inl entry_point =>
        match cached_result w with
        | Some (_ :: _ as cached) => Dict.set "cache_hit" (VBool true) cached
        | _ =>
            dict_update
              (Dict.set "taxonomy_processing"
                 (VDict [("success", VBool true);
                         ("entry_point", VStr entry_point)])
                 validation_result)
              (_execute_arelle_validation re (run w))
        end
    end.

End Arelle.

(** ** Result synthesis ([HybridValidationEngine._synthesize_results]) *)

Module Synthesis.

Local Open Scope float_scope.

Record Report := {
  stage_summary : list (string * PyVal);
  validation_results : list PyVal;
  total_errors : nat;
  total_warnings : nat;
  overall_status : string;
  recommendation : string;
  key_metrics : list (string * PyVal)
}.

(** [stages.get(name, {})] *)
Definition stage (stages : list (string * PyVal)) (name : string) : PyVal :=
  match Dict.get name stages with Some v => v | None => VDict [] end.

(** [for stage_name, stage_data in stages.items(): ...] *)
Fixpoint summarize (stages : list (string * PyVal)) (summary : list (string * PyVal))
  : list (string * PyVal) :=
  match stages with
  | [] => summary
  | (stage_name, VDict entries) :: rest =>
      summarize rest
        (Dict.set stage_name
           (match Dict.get "status" entries with
            | Some v => v
            | None => VStr "unknown"
            end) summary)
  | _ :: rest => summarize rest summary
  end.

(** The issue built from one diagnostic of the external validator. *)
Definition arelle_issue (type severity default_message : string) (item : PyVal)
  : result PyVal :=
  bind (Py.get item "message" (VStr default_message)) (fun message =>
  bind (Py.get item "category" (VStr "validation")) (fun category =>
  bind (Py.get item "line_number" VNone) (fun line_number =>
  bind (Py.get item "fact_name" (VStr "unknown")) (fun fact_name =>
    Ok (VDict [("type", VStr type);
               ("severity", VStr severity);
               ("message", message);
               ("category", category);
               ("source", VStr "arelle_validation");
               ("line_number", line_number);
               ("fact_name", fact_name)]))))).

Fixpoint arelle_issues (type severity default_message : string) (items : list PyVal)
  : result (list PyVal) :=
  match items with
  | [] => Ok []
  | item :: rest =>
      bind (arelle_issue type severity default_message item) (fun issue =>
      bind (arelle_issues type severity default_message rest) (fun issues =>
        Ok (issue :: issues)))
  end.

(** The issues drawn from the [arelle_validation] stage: none unless the
    stage is a dictionary whose status is ['completed']. *)
Definition extract_arelle (arelle_results : PyVal)
  : result (list PyVal * list PyVal) :=
  match arelle_results with
  | VDict entries =>
      if match Dict.get "status" entries with
         | Some v => Py.eq_str v "completed"
         | None => false
         end
      then
        bind (Py.iterate (match Dict.get "errors" entries with
                          | Some v => v | None => VList [] end))
          (fun arelle_errors =>
        bind (arelle_issues "business_rule_violation" "error"
                "Business rule validation error" arelle_errors)
          (fun error_issues =>
        bind (Py.iterate (match Dict.get "warnings" entries with
                          | Some v => v | None => VList [] end))
          (fun arelle_warnings =>
        bind (arelle_issues "business_rule_warning" "warning"
                "Business rule validation warning" arelle_warnings)
          (fun warning_issues => Ok (error_issues, warning_issues)))))
      else Ok ([], [])
  | _ => Ok ([], [])
  end.

(** [len([r for r in results if r.get('severity') == sev])] *)
Fixpoint count_with_severity (sev : string) (results : list PyVal) : result nat :=
  match results with
  | [] => Ok 0%nat
  | r :: rest =>
      bind (Py.get r "severity" VNone) (fun s =>
      bind (count_with_severity sev rest) (fun n =>
        Ok (if Py.eq_str s sev then S n else n)))
  end.

(** The results of the [dmp_validation] stage with their counts of
    errors and warnings. *)
Definition extract_dmp (dmp_validation : PyVal)
  : result (list PyVal * nat * nat) :=
  match dmp_validation with
  | VDict entries =>
      match Dict.get "validation_results" entries with
      | Some v =>
          bind (Py.iterate v) (fun dmp_results =>
          bind (count_with_severity "error" dmp_results) (fun n_errors =>
          bind (count_with_severity "warning" dmp_results) (fun n_warnings =>
            Ok (dmp_results, n_errors, n_warnings))))
      | None => Ok ([], 0%nat, 0%nat)
      end
  | _ => Ok ([], 0%nat, 0%nat)
  end.

(** [float(dmp_resolution.get('resolution_rate', '0%').replace('%', ''))];
    [py_float] is the builtin [float] on strings. *)
Definition parse_resolution_rate (py_float : string -> result float)
  (dmp_resolution : PyVal) : result float :=
  bind (Py.get dmp_resolution "resolution_rate" (VStr "0%")) (fun v =>
    match v with
    | VStr s => py_float (PyStr.replace "%" "" s)
    | _ => Raise (AttributeError
             ("'" ++ Py.type_name v ++ "' object has no attribute 'replace'"))
    end).

(** The status and its recommendation. *)
Definition determine_status (errors warnings : nat) (resolution_rate : float)
  : string * string :=
  if (0 <? errors)%nat then
    ("VALIDATION_FAILED",
     ("Validation failed with " ++ PyNum.str_of_nat errors
      ++ " errors - review and fix issues")%string)
  else if (0 <? warnings)%nat then
    ("VALIDATION_WARNINGS",
     ("Validation completed with " ++ PyNum.str_of_nat warnings
      ++ " warnings - review recommended")%string)
  else if 90 <=? resolution_rate then
    ("EXCELLENT", "Outstanding DMP concept coverage - validation highly reliable")
  else if 75 <=? resolution_rate then
    ("VERY_GOOD", "Very good DMP concept coverage - validation reliable")
  else if 60 <=? resolution_rate then
    ("GOOD", "Good DMP concept coverage - most concepts validated")
  else if 40 <=? resolution_rate then
    ("PARTIAL", "Partial coverage - consider updating DMP database or XBRL file")
  else
    ("POOR", "Low coverage - XBRL file may not be compatible with DMP 4.0").

(** [stages.get(name, {}).get('status')] *)
Definition stage_status (stages : list (string * PyVal)) (name : string)
  : result PyVal :=
  Py.get (stage stages name) "status" VNone.

Fixpoint count_completed (stages : list (string * PyVal)) (names : list string)
  : result nat :=
  match names with
  | [] => Ok 0%nat
  | name :: rest =>
      bind (stage_status stages name) (fun s =>
      bind (count_completed stages rest) (fun n =>
        Ok (if Py.eq_str s "completed" then S n else n)))
  end.

(** [_synthesize_results]; the time stamp and the list of advantages of the
    report are left out. *)
Definition _synthesize_results (py_float : string -> result float)
  (stages : list (string * PyVal)) : result Report :=
  let summary := summarize stages [] in
  bind (extract_arelle (stage stages "arelle_validation")) (fun arelle =>
  let '(error_issues, warning_issues) := arelle in
  bind (extract_dmp (stage stages "dmp_validation")) (fun dmp =>
  let '(dmp_results, dmp_errors, dmp_warnings) := dmp in
  let errors := (List.length error_issues + dmp_errors)%nat in
  let warnings := (List.length warning_issues + dmp_warnings)%nat in
  let dmp_resolution := stage stages "dmp_concept_resolution" in
  bind (parse_resolution_rate py_float dmp_resolution) (fun resolution_rate =>
  let '(overall, advice) := determine_status errors warnings resolution_rate in
  bind (Py.get dmp_resolution "resolution_rate" (VStr "0%")) (fun rate_text =>
  bind (Py.get dmp_resolution "total_facts" (VInt 0)) (fun facts_processed =>
  bind (count_completed stages
          ["dmp_concept_resolution"; "dmp_rule_validation"; "dmp_validation"])
       (fun completed =>
  bind (stage_status stages "arelle_validation") (fun arelle_status =>
    Ok {| stage_summary := summary;
          validation_results := error_issues ++ warning_issues ++ dmp_results;
          total_errors := errors;
          total_warnings := warnings;
          overall_status := overall;
          recommendation := advice;
          key_metrics :=
            [("concept_resolution_rate", rate_text);
             ("total_facts_processed", facts_processed);
             ("dmp_stages_completed", VInt (Z.of_nat completed));
             ("arelle_available", VBool (negb (Py.eq_str arelle_status "skipped")));
             ("validation_errors_found", VInt (Z.of_nat errors));
             ("validation_warnings_found", VInt (Z.of_nat warnings))] |}))))))).

(** The statuses a report can carry. *)
Definition statuses : list string :=
  ["VALIDATION_FAILED"; "VALIDATION_WARNINGS"; "EXCELLENT"; "VERY_GOOD"; "GOOD";
   "PARTIAL"; "POOR"].

(** Stage 6 of [validate_hybrid]: the [arelle_validation] entry. *)
Definition arelle_stage (re : Arelle.Patterns) (engine_arelle_available : bool)
  (w : Arelle.World) (xbrl_path taxonomy_path : string) : PyVal :=
  if engine_arelle_available
  then VDict (Arelle.validate_with_arelle re w xbrl_path taxonomy_path)
  else VDict [("status", VStr "skipped"); ("reason", VStr "arelle_unavailable")].

(** How [validate_hybrid] ends: with a [final_report], or with the
    top-level [status: error] of its [except] clause. *)
Inductive Run : Type :=
  | Finished (stages : list (string * PyVal)) (final_report : Report)
  | Errored (stages : list (string * PyVal)) (error : string).

(** Stages 6 and 7 of [validate_hybrid], after the stages before them
    have filled [stages]. *)
Definition finish_validation (py_float : string -> result float)
  (re : Arelle.Patterns) (engine_arelle_available : bool) (w : Arelle.World)
  (xbrl_path taxonomy_path : string) (stages : list (string * PyVal)) : Run :=
  let stages' :=
    Dict.set "arelle_validation"
      (arelle_stage re engine_arelle_available w xbrl_path taxonomy_path) stages in
  match _synthesize_results py_float stages' with
  | Ok synthesis => Finished stages' synthesis
  | Raise e => Errored stages' (exn_str e)
  end.

(** The issues of a report with severity ['error'] whose category names
    a timeout. *)
Definition is_timeout_error (issue : PyVal) : bool :=
  match issue with
  | VDict entries =>
      match Dict.get "severity" entries, Dict.get "category" entries with
      | Some sev, Some (VStr category) =>
          Py.eq_str sev "error" && PyStr.contains "timeout" (PyStr.lower category)
      | _, _ => false
      end
  | _ => false
  end.

Definition timeout_errors (r : Report) : list PyVal :=
  List.filter is_timeout_error (validation_results r).

End Synthesis.

(** ** Reading a decimal as a binary64 number *)

Module PyFloatRead.

(** The value of a string of decimal digits, [None] on any other
    character. *)
Fixpoint digits_value (s : string) (acc : N) : option N :=
  match s with
  | EmptyString => Some acc
  | String c s' =>
      if PyNum.is_digit c
      then digits_value s' (acc * 10 + (N_of_ascii c - 48))%N
      else None
  end.

(** The text before and after the first dot. *)
Fixpoint split_dot (s : string) : string * option string :=
  match s with
  | EmptyString => (EmptyString, None)
  | String c s' =>
      if Ascii.eqb c "."%char then (EmptyString, Some s')
      else let '(a, b) := split_dot s' in (String c a, b)
  end.

(** [float(s)] for an unsigned decimal [s] without exponent: the quotient
    of two exactly represented integers is rounded once, which is the
    nearest binary64 number as long as the digits stay below [2^53] and
    there are at most 22 of them after the dot.  Other texts are
    answered with [ValueError]. *)
Definition float_of_decimal (s : string) : result float :=
  let '(whole, frac) := split_dot s in
  let frac := match frac with Some f => f | None => EmptyString end in
  let bad := Raise (ValueError ("could not convert string to float: '" ++ s ++ "'")) in
  if (String.length whole + String.length frac =? 0)%nat then bad
  else
    match digits_value (whole ++ frac) 0%N with
    | Some n =>
        Ok (PrimFloat.div
              (PrimFloat.of_uint63 (Uint63.of_Z (Z.of_N n)))
              (PrimFloat.of_uint63
                 (Uint63.of_Z (10 ^ Z.of_nat (String.length frac)))))
    | None => bad
    end.

End PyFloatRead.

(** ** Facts by namespace ([HybridValidationEngine._count_facts_by_namespace]) *)

Module Hybrid.

(** [s.split(':')[0]] *)
Definition first_field (s : string) : string :=
  match PyStr.split_colon_once s with
  | Some (prefix, _) => prefix
  | None => s
  end.

(** The body of the loop over [facts.keys()]. *)
Definition count_fact (namespace_counts : list (string * nat)) (fact_name : string)
  : list (string * nat) :=
  if PyStr.contains ":" fact_name then
    let prefix := first_field fact_name in
    Dict.set prefix
      (match Dict.get prefix namespace_counts with Some n => n | None => 0%nat end + 1)%nat
      namespace_counts
  else namespace_counts.

Definition _count_facts_by_namespace (facts : list (string * PyVal))
  : list (string * nat) :=
  fold_left count_fact (Dict.keys facts) [].

End Hybrid.

(** ** Applicable rules ([rule_engine.py]) *)

Module Engine.

(** [x in s] for a set [s] of strings: a list or a dictionary cannot be
    hashed, another value that is not a string is in no such set. *)
Definition in_set (x : PyVal) (s : list string) : result bool :=
  match x with
  | VStr t => Ok (existsb (String.eqb t) s)
  | VList _ | VDict _ =>
      Raise (TypeError ("unhashable type: '" ++ Py.type_name x ++ "'"))
  | _ => Ok false
  end.

(** [any(rule_concept in fact_name for fact_name in fact_names)] *)
Definition in_any (x : PyVal) (fact_names : list string) : result bool :=
  match fact_names with
  | [] => Ok false
  | first :: _ =>
      match x with
      | VStr t => Ok (existsb (PyStr.contains t) fact_names)
      | _ => Py.in_str x first
      end
  end.

(** [for rule_concept in rule_concepts: if ...: return True] *)
Fixpoint any_concept_matches (rule_concepts : list PyVal)
  (resolved_concepts fact_names : list string) : result bool :=
  match rule_concepts with
  | [] => Ok false
  | rule_concept :: rest =>
      bind (in_set rule_concept resolved_concepts) (fun a =>
      if a then Ok true else
      bind (in_set rule_concept fact_names) (fun b =>
      if b then Ok true else
      bind (in_any rule_concept fact_names) (fun c =>
      if c then Ok true
      else any_concept_matches rest resolved_concepts fact_names)))
  end.

Definition _is_rule_applicable (rule : RuleEvaluator.Rule)
  (resolved_concepts fact_names : list string) : result bool :=
  let parsed_expr := RuleEvaluator.rule_get rule "parsed_expression" (VDict []) in
  bind (Py.get parsed_expr "concepts" (VList [])) (fun rule_concepts =>
  if negb (Py.truthy rule_concepts) then Ok true
  else
    bind (Py.iterate rule_concepts) (fun concepts =>
      any_concept_matches concepts resolved_concepts fact_names)).

(** The concept codes of the resolved facts. *)
Definition resolved_codes (details : list Resolution.Detail) : list string :=
  flat_map (fun d =>
    if Resolution.resolved d then
      match Resolution.concept_code d with
      | Some code => if String.eqb code "" then [] else [code]
      | None => []
      end
    else []) details.

(** The fact names with the local names of those that have a prefix. *)
Definition names_with_local (facts : RuleEvaluator.Facts) : list string :=
  Dict.keys facts
  ++ flat_map (fun fact_name =>
       if PyStr.contains ":" fact_name
       then [PyStr.after_last_colon fact_name] else [])
     (Dict.keys facts).

(** [for rule_code, rule in self.rules_cache.items(): ...] *)
Fixpoint applicable_codes (rules_cache : list (string * RuleEvaluator.Rule))
  (resolved_concepts fact_names : list string) : result (list string) :=
  match rules_cache with
  | [] => Ok []
  | (rule_code, rule) :: rest =>
      bind (_is_rule_applicable rule resolved_concepts fact_names) (fun applicable =>
      bind (applicable_codes rest resolved_concepts fact_names) (fun codes =>
        Ok (if applicable then rule_code :: codes else codes)))
  end.

(** [_find_applicable_rules], on the resolution results of the stage
    before. *)
Definition _find_applicable_rules (rules_cache : list (string * RuleEvaluator.Rule))
  (facts : RuleEvaluator.Facts) (concept_resolutions : Resolution.Results)
  : result (list string) :=
  applicable_codes rules_cache
    (resolved_codes (Resolution.resolution_details concept_resolutions))
    (names_with_local facts).

End Engine.

(** ** Version compatibility ([validation_logic.py]) *)

Module Compat.

Local Open Scope Z_scope.

(** [s.count(sub)] for a non-empty [sub]: occurrences from left to right
    without overlap; [skip] counts the characters of a counted occurrence
    still to be passed. *)
Fixpoint count_from (sub : string) (skip : nat) (s : string) : Z :=
  match s with
  | EmptyString => 0
  | String c s' =>
      match skip with
      | S k => count_from sub k s'
      | O =>
          if PyStr.startswith sub s
          then 1 + count_from sub (String.length sub - 1) s'
          else count_from sub 0 s'
      end
  end.

Definition count (sub s : string) : Z := count_from sub 0 s.

(** The [version_indicators] dictionary. *)
Record Indicators := {
  eba_met_3_0 : Z;
  eba_met_3_4 : Z;
  eba_met_4_0 : Z;
  eba_met_generic : Z
}.

Definition flag (namespaces : list (string * bool)) (key : string) : bool :=
  match Dict.get key namespaces with Some b => b | None => false end.

Definition _calculate_compatibility_score (version_indicators : Indicators)
  (namespaces : list (string * bool)) : Z :=
  let score := 100 in
  let score := if 10 <? eba_met_3_4 version_indicators then score - 30 else score in
  let score := if 10 <? eba_met_3_0 version_indicators then score - 40 else score in
  let score := if flag namespaces "dpm_3.0" then score - 40 else score in
  let score := if flag namespaces "dmp_3.4" then score - 30 else score in
  let score := if 20 <? eba_met_4_0 version_indicators then score + 20 else score in
  let score := if flag namespaces "dmp_4.0" then score + 20 else score in
  Z.max 0 (Z.min 100 score).

Record Analysis := {
  detected_dmp_version : string;
  target_dmp_version : string;
  version_mismatch : bool;
  version_indicators : Indicators;
  namespaces : list (string * bool);
  creation_date : bool;
  template_version : bool;
  likely_dmp_version : string;
  compatibility_score : Z
}.

(** [analyze_xbrl_dmp_version_compatibility]: [content] is what reading
    the file gives, the text or an exception; the method answers [None]
    on an exception. *)
Definition analyze_xbrl_dmp_version_compatibility (content : result string)
  (xbrl_file_path : string) : option Analysis :=
  match content with
  | Raise _ => None
  | Ok content =>
      let indicators :=
        {| eba_met_3_0 := count "eba_met_3.0:" content;
           eba_met_3_4 := count "eba_met_3.4:" content;
           eba_met_4_0 := count "eba_met:" content - count "eba_met_3" content;
           eba_met_generic := count "eba_met:" content |} in
      let namespaces :=
        [("dpm_3.0",
          PyStr.contains "http://www.eba.europa.eu/xbrl/crr/dict/met/2015-03-31" content);
         ("dmp_3.4",
          PyStr.contains "http://www.eba.europa.eu/xbrl/crr/dict/met/2019-" content);
         ("dpm_4.0",
          PyStr.contains "http://www.eba.europa.eu/xbrl/crr/dict/met/2024-" content
          || PyStr.contains "http://www.eba.europa.eu/xbrl/crr/dict/met/2023-" content)] in
      let filename := PyStr.basename xbrl_file_path in
      let detected_version :=
        if 10 <? eba_met_3_4 indicators then "3.4"%string
        else if 10 <? eba_met_3_0 indicators then "3.0"%string
        else if PyStr.contains "2020" filename || PyStr.contains "2019" filename
        then "3.4"%string
        else "4.0"%string in
      Some {| detected_dmp_version := detected_version;
              target_dmp_version := "4.0";
              version_mismatch := negb (String.eqb detected_version "4.0");
              version_indicators := indicators;
              namespaces := namespaces;
              creation_date := PyStr.contains "2020" filename;
              template_version := PyStr.contains "FINREP020400" filename;
              likely_dmp_version :=
                if PyStr.contains "2020" filename then "3.4" else "4.0";
              compatibility_score :=
                _calculate_compatibility_score indicators namespaces |}
  end.

(** The [type] of each suggestion of [suggest_compatibility_fixes], in
    order. *)
Definition suggest_compatibility_fixes (a : Analysis) : list string :=
  (if version_mismatch a then ["VERSION_MISMATCH"%string] else [])
  ++ (if compatibility_score a <? 50 then ["LOW_COMPATIBILITY"%string] else [])
  ++ (if creation_date a then ["OLD_SAMPLE"%string] else []).

End Compat.

(** ** Table discovery ([dmp_queries.py]) *)

Module Queries.

Definition expected_tables : list (string * list string) :=
  [("tConcept", ["tConcept"; "DimensionalItem"; "Item"; "PrimaryItem"; "Concept";
                 "concepts"; "tbl_Concept"]);
   ("tDataPoint", ["tDataPoint"; "TableItem"; "Cell"; "DataPoint"; "datapoints";
                   "tbl_DataPoint"]);
   ("tValidationRule", ["tValidationRule"; "ValidationRuleSet";
                        "HierarchyValidationRule"; "ValidationRule";
                        "validation_rules"; "tbl_ValidationRule"]);
   ("tTable", ["tTable"; "Table"; "tables"; "tbl_Table"]);
   ("tDimension", ["tDimension"; "Axis"; "Dimension"; "dimensions"; "tbl_Dimension"]);
   ("tMember", ["tMember"; "Member"; "members"; "tbl_Member"])].

(** [next(table for table in available_tables
          if table.lower() == possible_name.lower())] *)
Definition find_table (available_tables : list string) (possible_name : string)
  : option string :=
  List.find (fun table => String.eqb (PyStr.lower table) (PyStr.lower possible_name))
    available_tables.

(** [for possible_name in possible_names: if any(...): actual_name = ...; break] *)
Fixpoint first_available (available_tables possible_names : list string)
  : option string :=
  match possible_names with
  | [] => None
  | possible_name :: rest =>
      match find_table available_tables possible_name with
      | Some table => Some table
      | None => first_available available_tables rest
      end
  end.

(** [for expected_name, possible_names in expected_tables.items(): ...];
    an empty table name is falsy and is not recorded. *)
Definition discover (expected : list (string * list string))
  (available_tables : list string) : list (string * string) :=
  fold_left
    (fun table_mappings entry =>
       match first_available available_tables (snd entry) with
       | Some actual_name =>
           if String.eqb actual_name "" then table_mappings
           else Dict.set (fst entry) actual_name table_mappings
       | None => table_mappings
       end)
    expected [].

(** [_discover_table_mappings], on the tables [discover_tables] found. *)
Definition _discover_table_mappings (available_tables : list string)
  : list (string * string) :=
  discover expected_tables available_tables.

End Queries.

(** * Vocabulary of the statements and sample data *)






(** A raw rule as the loader of the newer generation hands it over, and
    extractors that find nothing. *)
Definition no_extractors : RuleParser.Extractors :=
  {| RuleParser._extract_concept_references := fun _ => [];
     RuleParser._extract_calculations := fun _ => [];
     RuleParser._extract_conditions := fun _ => [] |}.


Definition calculation_rule : RuleEvaluator.Rule :=
  [("RuleCode", VStr "v0002_m"); ("execution_method", VStr "calculation_check")].

Definition general_rule : RuleEvaluator.Rule :=
  [("RuleCode", VStr "v0003_m"); ("execution_method", VStr "general_validation")].

(** What [evaluate_rule] returns, as a function. *)
Definition rule_outcome (facts : RuleEvaluator.Facts) (concept_resolutions : PyVal)
  (rule : RuleEvaluator.Rule) : RuleEvaluator.RuleResult :=
  match RuleEvaluator.evaluate_rule rule facts concept_resolutions with
  | Ok r => r
  | Raise _ => RuleEvaluator.initial_result rule
  end.

(** A rule whose parsed expression is [None] makes the existence check
    raise; the rules around it are evaluated as usual. *)
Definition broken_rule : RuleEvaluator.Rule :=
  [("RuleCode", VStr "v0004_m");
   ("execution_method", VStr "existence_check");
   ("parsed_expression", VNone)].

Import Resolver.

(** The searches in a given order, up to and including the first that
    returns a concept. *)
Fixpoint first_hit (db : Store.Database) (concept_name : string)
  (order : list Strategy) : Ran :=
  match order with
  | [] => ([], None)
  | s :: rest =>
      match run_strategy db s concept_name with
      | Some c => ([s], Some c)
      | None =>
          let '(ran, r) := first_hit db concept_name rest in (s :: ran, r)
      end
  end.

(** A cache whose entries are what the cascade finds in the dictionary:
    the cache of a resolver that has only seen this dictionary. *)
Definition cache_coherent (db : Store.Database) (cache : gmap string Concept) : Prop :=
  forall n c, cache !! n = Some c -> snd (search_cascade db n) = Some c.

(** A store with a concept table whose first row matches [Assets] by
    substring and whose second row is the concept [eba_met:Assets]
    itself, and with a member table.  Text is compared as it stands and
    [LIKE] looks for the text between the two [%]. *)
Definition like_between_percents (pattern value : string) : bool :=
  match pattern with
  | String "%" rest =>
      PyStr.contains (Arelle.reverse
                        (match Arelle.reverse rest with
                         | String "%" inner => inner
                         | other => other
                         end)) value
  | _ => String.eqb pattern value
  end.

Definition sample_db : Store.Database :=
  {| Store.connect_ok := true;
     Store.tables :=
       [("tConcept", Store.ConceptRows
           [{| Store.col_ConceptCode := "fin:Assets_total";
               Store.col_ConceptLabel := "Total assets";
               Store.col_ConceptType := "Monetary";
               Store.col_MetricCode := "m1" |};
            {| Store.col_ConceptCode := "eba_met:Assets";
               Store.col_ConceptLabel := "Assets";
               Store.col_ConceptType := "Monetary";
               Store.col_MetricCode := "m2" |}]);
        ("tMember", Store.MemberRows
           [{| Store.col_MemberCode := "x1";
               Store.col_MemberXbrlCode := "eba_GA:x1";
               Store.col_MemberLabel := "Spain" |}])];
     Store.table_mappings := [("tConcept", "tConcept"); ("tMember", "tMember")];
     Store.sql_eq := String.eqb;
     Store.sql_like := like_between_percents |}.

Definition assets_concept : Concept :=
  {| ConceptCode := "eba_met:Assets"; ConceptLabel := "Assets";
     ConceptType := "Monetary"; MetricCode := "m2"; source := "tConcept";
     MemberXbrlCode := None; searchType := None |}.

Definition assets_total_concept : Concept :=
  {| ConceptCode := "fin:Assets_total"; ConceptLabel := "Total assets";
     ConceptType := "Monetary"; MetricCode := "m1"; source := "tConcept";
     MemberXbrlCode := None; searchType := None |}.

Import ValidationLogic.

Import Resolution.

(** The number of tenths in the rate, when the quotient is a number that
    is not negative. *)
Definition rate_tenths (resolved_count business_count : nat) : option Z :=
  match Prim2SF (rate_value resolved_count business_count) with
  | S754_zero false => Some 0%Z
  | S754_finite false m e => Some (PyFloat.tenths m e)
  | _ => None
  end.

(** [t] is a multiple of one tenth nearest to [100 * resolved / business]. *)
Definition nearest_tenth (t : Z) (resolved_count business_count : nat) : bool :=
  ((0 <=? t)
   && (Z.abs (2 * (t * Z.of_nat business_count - 1000 * Z.of_nat resolved_count))
       <=? Z.of_nat business_count))%Z.

(** The real number [m * 2^e]. *)
Definition F2R (m e : Z) : R := (IZR m * powerRZ 2 e)%R.

Definition sample_facts : list (string * PyVal) :=
  [("contexts", VDict []);
   ("eba_met:Assets", VDict [("prefix", VStr "eba_met"); ("value", VStr "1000000")]);
   ("eba_GA:x1", VList [VDict [("is_business_concept", VBool true)];
                        VDict [("is_business_concept", VBool true)]]);
   ("eba_met:qq9", VDict [("prefix", VStr "eba_met")]);
   ("link:schemaRef", VDict [("prefix", VStr "link")]);
   ("identifier", VDict [("is_business_concept", VBool true)])].

Import Synthesis.

(** The banding of the resolution rate. *)
Definition rate_band (resolution_rate : float) : string :=
  if (90 <=? resolution_rate)%float then "EXCELLENT"
  else if (75 <=? resolution_rate)%float then "VERY_GOOD"
  else if (60 <=? resolution_rate)%float then "GOOD"
  else if (40 <=? resolution_rate)%float then "PARTIAL"
  else "POOR".

(** Stages as [validate_hybrid] leaves them when the dictionary is
    available and the external validator is not. *)
Definition sample_stages : list (string * PyVal) :=
  [("fact_parsing", VDict [("status", VStr "completed"); ("total_facts", VInt 40)]);
   ("dmp_concept_resolution",
    VDict [("status", VStr "completed"); ("total_facts", VInt 40);
           ("resolution_rate", VStr "92.5%")]);
   ("dmp_rule_validation", VDict [("status", VStr "completed")]);
   ("dmp_validation", VDict [("status", VStr "completed")]);
   ("taxonomy_processing", VDict [("status", VStr "skipped")]);
   ("arelle_validation",
    VDict [("status", VStr "skipped"); ("reason", VStr "arelle_unavailable")])].

Ltac bind_ok H :=
  match type of H with
  | bind ?c _ = Ok _ =>
      let E := fresh "E" in
      destruct c eqn:E; cbn [bind] in H; [|discriminate H]
  end.

(** The [arelle_validation] stage of a run without the validator, and the
    adapter's answer when the validator times out. *)
Definition skipped_stage : PyVal :=
  VDict [("status", VStr "skipped"); ("reason", VStr "arelle_unavailable")].

Definition timeout_result (xbrl_path taxonomy_path entry_point : string)
  : list (string * PyVal) :=
  [("method", VStr "arelle_fallback");
   ("status", VStr "timeout");
   ("files", VDict [("xbrl_file", VStr (PyStr.basename xbrl_path));
                    ("taxonomy_file", VStr (PyStr.basename taxonomy_path))]);
   ("taxonomy_processing",
    VDict [("success", VBool true); ("entry_point", VStr entry_point)]);
   ("error", VStr "Arelle validation timed out after 120 seconds")].

Definition no_patterns : Arelle.Patterns :=
  {| Arelle.re_line_number := fun _ => None;
     Arelle.re_fact_name := fun _ => None;
     Arelle.re_rule_code := fun _ => None;
     Arelle.re_element_name := fun _ => None |}.

(** An installed validator that does not answer in time. *)
Definition timeout_world : Arelle.World :=
  {| Arelle.arelle_available := true;
     Arelle.processed_taxonomy := inl "taxonomy/finrep.xsd";
     Arelle.cached_result := None;
     Arelle.run := Arelle.TimedOut |}.

(** The stages before stage 6 when the dictionary is not available. *)
Definition stages_without_dictionary : list (string * PyVal) :=
  [("fact_parsing", VDict [("status", VStr "completed"); ("total_facts", VInt 12)]);
   ("dmp_concept_resolution",
    VDict [("status", VStr "skipped"); ("reason", VStr "dmp_unavailable")]);
   ("dmp_rule_validation",
    VDict [("status", VStr "skipped"); ("reason", VStr "dmp_unavailable")]);
   ("dmp_validation",
    VDict [("status", VStr "skipped"); ("reason", VStr "dmp_unavailable")]);
   ("taxonomy_processing",
    VDict [("status", VStr "skipped"); ("reason", VStr "no_taxonomy_or_processor")])].

(** The sample store without a connection, and a store of the older
    generation. *)
Definition offline_db : Store.Database :=
  {| Store.connect_ok := false;
     Store.tables := Store.tables sample_db;
     Store.table_mappings := Store.table_mappings sample_db;
     Store.sql_eq := String.eqb;
     Store.sql_like := like_between_percents |}.

Definition legacy_db : Store.Database :=
  {| Store.connect_ok := true;
     Store.tables :=
       [("DimensionalItem", Store.ItemRows
           [{| Store.col_Code := "eba_met:Assets"; Store.col_Label := "Assets" |}]);
        ("tConcept", Store.ConceptRows
           [{| Store.col_ConceptCode := "eba_met:Assets";
               Store.col_ConceptLabel := "Assets";
               Store.col_ConceptType := "Monetary";
               Store.col_MetricCode := "m2" |}])];
     Store.table_mappings := [("tConcept", "tConcept")];
     Store.sql_eq := String.eqb;
     Store.sql_like := like_between_percents |}.

(** The provenance a resolved concept can carry: the member table with
    the way it matched, or one of the other tables without. *)
Definition member_search_types : list string :=
  ["exact match"; "clean name exact match"; "concept name partial match";
   "clean name partial match"].

Definition provenance_ok (c : Concept) : Prop :=
  (source c = "tMember" /\ ConceptType c = "Member"
   /\ (exists code, MemberXbrlCode c = Some code)
   /\ exists search_type, searchType c = Some search_type
                          /\ In search_type member_search_types)
  \/ (In (source c) ["DimensionalItem"; "Item"; "PrimaryItem"; "tConcept"; "tDataPoint"]
      /\ searchType c = None /\ MemberXbrlCode c = None).

(** A fact name answers for a required concept: by substring or local
    name when it has a prefix, by equality when it has none. *)
Definition name_matches (concept fact_name : string) : bool :=
  if PyStr.contains ":" fact_name
  then PyStr.contains concept fact_name
       || String.eqb concept (PyStr.after_last_colon fact_name)
  else String.eqb concept fact_name.

(** The required concepts no fact name answers for, in their order. *)
Definition missing_among (concepts : list string) (fact_names : list string)
  : list string :=
  List.filter (fun c => negb (existsb (name_matches c) fact_names)) concepts.

Definition rule_statuses : list string := ["passed"; "failed"; "skipped"; "error"].

Definition execution_methods : list string :=
  ["calculation_check"; "existence_check"; "consistency_check"; "conditional_check";
   "general_validation"].

Definition count_status (s : string) (results : list RuleEvaluator.RuleResult) : nat :=
  List.length (List.filter (fun r => String.eqb (RuleEvaluator.status r) s) results).

Definition equity_rule : RuleEvaluator.Rule :=
  [("RuleCode", VStr "v1");
   ("execution_method", VStr "existence_check");
   ("parsed_expression",
    VDict [("type", VStr "existence");
           ("concepts", VList (map VStr ["Assets"; "Equity"; "Cash"]))])].

Definition balance_facts : RuleEvaluator.Facts :=
  [("ns1:Assets", VStr "1000000"); ("ns1:Liabilities", VStr "800000");
   ("Cash", VStr "5")].

Definition summing_rule : list (string * PyVal) :=
  [("RuleCode", VStr "v0100_m");
   ("RuleType", VStr "Existence");
   ("Expression", VStr "SUM(eba_met:mi1, eba_met:mi2) = eba_met:mi3")].

Definition null_type_rule : list (string * PyVal) :=
  [("RuleCode", VStr "v0101_m"); ("RuleType", VNone);
   ("Expression", VStr "exists(eba_met:mi1)")].

(** The parts of a processed rule the parser writes. *)
Definition written_keys : list string :=
  ["parsed_expression"; "execution_method"; "ErrorSeverity"].

Definition concept_free_rule : RuleEvaluator.Rule :=
  [("RuleCode", VStr "v0200_m"); ("execution_method", VStr "general_validation");
   ("parsed_expression", VDict [("type", VStr "unknown"); ("concepts", VList [])])].

(** A concept of a rule is met by the resolved codes or the fact names. *)
Definition concept_met (resolved_concepts fact_names : list string) (c : string)
  : bool :=
  existsb (String.eqb c) resolved_concepts
  || existsb (String.eqb c) fact_names
  || existsb (PyStr.contains c) fact_names.

Definition applicable_or_not (resolved_concepts fact_names : list string)
  (entry : string * RuleEvaluator.Rule) : bool :=
  match Engine._is_rule_applicable (snd entry) resolved_concepts fact_names with
  | Ok b => b
  | Raise _ => false
  end.

(** The same surroundings with another end of the validator's run. *)
Definition with_run (w : Arelle.World) (r : Arelle.Subprocess) : Arelle.World :=
  {| Arelle.arelle_available := Arelle.arelle_available w;
     Arelle.processed_taxonomy := Arelle.processed_taxonomy w;
     Arelle.cached_result := Arelle.cached_result w;
     Arelle.run := r |}.

Definition run_status (r : Arelle.Subprocess) : string :=
  match r with
  | Arelle.Completed _ _ _ => "completed"
  | Arelle.TimedOut => "timeout"
  | Arelle.Failed _ => "error"
  end.

(** The lines of the validator's output that are not blank. *)
Definition output_lines (stdout stderr : string) : list string :=
  List.filter (fun line => negb (String.eqb (Arelle.strip line) ""))
    (Arelle.split_lines (stdout ++ stderr)).

Definition failing_run : Arelle.Subprocess :=
  Arelle.Completed 1
    "[ERROR] calculation inconsistency in eba_v0001
[WARNING] label missing

[INFO] validation finished" "".

Definition failing_world : Arelle.World :=
  {| Arelle.arelle_available := true;
     Arelle.processed_taxonomy := inl "taxonomy/finrep.xsd";
     Arelle.cached_result := None;
     Arelle.run := failing_run |}.

(** A fact name with the prefix [prefix]. *)
Definition has_prefix (prefix fact_name : string) : bool :=
  PyStr.contains ":" fact_name && String.eqb (Hybrid.first_field fact_name) prefix.

Definition declares_4_0 : string :=
  "<xbrl xmlns:eba_met='http://www.eba.europa.eu/xbrl/crr/dict/met/2024-03-01'/>".

(** A store whose table names were discovered among those of an older
    dictionary. *)
Definition legacy_mapped_db : Store.Database :=
  {| Store.connect_ok := true;
     Store.tables := [];
     Store.table_mappings :=
       Queries._discover_table_mappings ["TableItem"; "dimensionalitem"; "Axis"];
     Store.sql_eq := String.eqb;
     Store.sql_like := fun _ _ => false |}.

(** * Properties *)

(** ** Strings *)

Lemma startswith_refl (s : string) : PyStr.startswith s s = true.
Proof.
  induction s as [|c s IH]; simpl; [reflexivity|].
  rewrite Ascii.eqb_refl. exact IH.
Qed.

Lemma startswith_app (p s : string) : PyStr.startswith p (p ++ s) = true.
Proof.
  induction p as [|c p IH]; simpl; [reflexivity|].
  rewrite Ascii.eqb_refl. exact IH.
Qed.

Lemma startswith_inv (p s : string) :
  PyStr.startswith p s = true -> exists t, s = (p ++ t)%string.
Proof.
  revert s. induction p as [|c p IH]; intros s H.
  - exists s. reflexivity.
  - destruct s as [|d s]; simpl in H; [discriminate|].
    apply andb_prop in H as [Hc Hp].
    apply Ascii.eqb_eq in Hc. subst d.
    destruct (IH _ Hp) as [t ->]. exists t. reflexivity.
Qed.

Lemma contains_unfold (sub s : string) :
  PyStr.contains sub s
  = PyStr.startswith sub s
    || match s with
       | EmptyString => false
       | String _ s' => PyStr.contains sub s'
       end.
Proof. destruct s; reflexivity. Qed.

(** [contains] is Python's [in]: some suffix of [s] starts with [sub]. *)
Lemma contains_spec (sub s : string) :
  PyStr.contains sub s = true <-> exists a b, s = (a ++ sub ++ b)%string.
Proof.
  split.
  - induction s as [|c s IH]; simpl; intros H.
    + rewrite orb_false_r in H. apply startswith_inv in H as [t Ht].
      exists EmptyString, t. exact Ht.
    + apply orb_prop in H as [H|H].
      * apply startswith_inv in H as [t Ht]. exists EmptyString, t. exact Ht.
      * destruct (IH H) as (a & b & ->). exists (String c a), b. reflexivity.
  - intros (a & b & ->). induction a as [|c a IH].
    + change (EmptyString ++ sub ++ b)%string with (sub ++ b)%string.
      rewrite contains_unfold, startswith_app. reflexivity.
    + simpl. rewrite IH. apply orb_true_r.
Qed.

(** ** Architecture detector *)

(** C3. For every path (so every file name, empty or garbled) and every
    way the parse of the document can end, in a document or in an
    exception, the detector returns normally, and what it returns is one
    of [arch_1_0], [arch_2_0] and [unknown]. *)
Theorem detect_architecture_version_closed
  (ET_parse : string -> result Arch.Document) (xbrl_path : string) :
  exists v, Arch.detect_architecture_version ET_parse xbrl_path = Ok v
            /\ In v Arch.architecture_ids.
Proof.
  unfold Arch.detect_architecture_version, Arch.detect_body, try_except, bind.
  unfold Arch.architecture_ids.
  destruct (PyStr.any_in _ (PyStr.lower (PyStr.basename xbrl_path))).
  - exists "arch_1_0". simpl. auto.
  - destruct (ET_parse xbrl_path) as [doc|e].
    + repeat match goal with
             | |- context [if ?b then _ else _] => destruct b
             end;
        eexists; (split; [reflexivity|]); simpl; auto.
    + exists "unknown". simpl. auto.
Qed.

(** A parse that fails on every path, and one that finds a document
    without namespace declarations. *)
Example detect_unparseable_empty_name :
  Arch.detect_architecture_version (fun _ => Raise (ParseError "syntax error")) ""
  = Ok "unknown".
Proof. reflexivity. Qed.

Example detect_legacy_filename :
  Arch.detect_architecture_version
    (fun _ => Ok {| Arch.root_attrib := []; Arch.descendants := [] |})
    "/uploads/DUMMY_FINREP_2020-12-31.xbrl"
  = Ok "arch_1_0".
Proof. reflexivity. Qed.

Example detect_legacy_date_token :
  Arch.detect_architecture_version
    (fun _ => Ok {| Arch.root_attrib := [("id", "r1")]; Arch.descendants := [] |})
    "report-2020.xml"
  = Ok "arch_1_0".
Proof. reflexivity. Qed.

Example detect_default_generation :
  Arch.detect_architecture_version
    (fun _ => Ok {| Arch.root_attrib := []; Arch.descendants := [] |}) "??"
  = Ok "arch_2_0".
Proof. reflexivity. Qed.

Example detect_namespace_of_root :
  Arch.detect_architecture_version
    (fun _ => Ok {| Arch.root_attrib :=
                      [("xmlns:eba_dim", "http://www.eba.europa.eu/xbrl/crr/dict/dpm/3.0")];
                    Arch.descendants := [] |})
    "instance.xbrl"
  = Ok "arch_1_0".
Proof. reflexivity. Qed.

(** ** Rule parser *)



(** A token of an earlier kind overrides the declared type, and a
    declared type of an earlier kind overrides the token. *)
Example token_wins_when_earlier :
  RuleParser._determine_execution_method "existence" "sum(a, b) = c"
  = "calculation_check".
Proof. reflexivity. Qed.

Example declared_type_wins_when_earlier :
  RuleParser._determine_execution_method "existence" "a > b" = "existence_check".
Proof. reflexivity. Qed.

(** The type recorded in the parsed expression follows the tokens alone. *)
Example parsed_type_follows_tokens :
  Dict.get "type"
    (match RuleParser._parse_rule_expression no_extractors "exists(eba_met:mi53)" with
     | VDict entries => entries
     | _ => []
     end)
  = Some (VStr "existence").
Proof. reflexivity. Qed.

(** ** Rule evaluator *)

Lemma eq_str_true (v : PyVal) (s : string) : Py.eq_str v s = true -> v = VStr s.
Proof.
  destruct v; simpl; try discriminate.
  intros H. apply String.eqb_eq in H. subst. reflexivity.
Qed.

(** C6. A rule compiled for calculation, consistency or conditional
    checking is evaluated to a result with status skipped, and one
    compiled for general validation to a result with status passed,
    whatever the facts and resolutions. *)
Theorem evaluate_rule_by_kind (rule : RuleEvaluator.Rule)
  (facts : RuleEvaluator.Facts) (concept_resolutions : PyVal) :
  ((RuleEvaluator.rule_get rule "execution_method" (VStr "general_validation")
      = VStr "calculation_check"
    \/ RuleEvaluator.rule_get rule "execution_method" (VStr "general_validation")
      = VStr "consistency_check"
    \/ RuleEvaluator.rule_get rule "execution_method" (VStr "general_validation")
      = VStr "conditional_check") ->
   exists r, RuleEvaluator.evaluate_rule rule facts concept_resolutions = Ok r
             /\ RuleEvaluator.status r = "skipped")
  /\ (RuleEvaluator.rule_get rule "execution_method" (VStr "general_validation")
        = VStr "general_validation" ->
      exists r, RuleEvaluator.evaluate_rule rule facts concept_resolutions = Ok r
                /\ RuleEvaluator.status r = "passed").
Proof.
  unfold RuleEvaluator.evaluate_rule, RuleEvaluator.dispatch.
  split.
  - intros [H|[H|H]]; rewrite H; simpl; eexists; split; reflexivity.
  - intros H; rewrite H; simpl; eexists; split; reflexivity.
Qed.

Lemma evaluate_rule_by_kind_witness :
  (exists r, RuleEvaluator.evaluate_rule calculation_rule [] VNone = Ok r
             /\ RuleEvaluator.status r = "skipped")
  /\ (exists r, RuleEvaluator.evaluate_rule general_rule [] VNone = Ok r
                /\ RuleEvaluator.status r = "passed").
Proof.
  split.
  - apply (proj1 (evaluate_rule_by_kind calculation_rule [] VNone)).
    left. reflexivity.
  - apply (proj2 (evaluate_rule_by_kind general_rule [] VNone)).
    reflexivity.
Defined.

(** A rule without an execution method is evaluated as a general one. *)
Example evaluate_unclassified_rule :
  option_map RuleEvaluator.status
    (match RuleEvaluator.evaluate_rule [("RuleCode", VStr "v9")] [] VNone with
     | Ok r => Some r | Raise _ => None end)
  = Some "passed".
Proof. reflexivity. Qed.

(** The existence check on two facts, with [Equity] required. *)
Example existence_rule_missing_equity :
  match RuleEvaluator.evaluate_rule
          [("RuleCode", VStr "v1");
           ("execution_method", VStr "existence_check");
           ("parsed_expression", VDict [("concepts", VList [VStr "Equity"])])]
          [("ns1:Assets", VStr "1000000"); ("ns1:Liabilities", VStr "800000")]
          VNone with
  | Ok r => (RuleEvaluator.status r, RuleEvaluator.message r)
  | Raise _ => ("", "")
  end = ("failed", "Missing required concepts: Equity").
Proof. reflexivity. Qed.

(** Evaluation of a list of rules, one by one: the result of each rule is
    the one [evaluate_rule] gives for it alone. *)
Lemma evaluate_rule_total (rule : RuleEvaluator.Rule) (facts : RuleEvaluator.Facts)
  (concept_resolutions : PyVal) :
  exists r, RuleEvaluator.evaluate_rule rule facts concept_resolutions = Ok r.
Proof.
  unfold RuleEvaluator.evaluate_rule, try_except, bind.
  destruct (RuleEvaluator.dispatch rule facts concept_resolutions); eexists; reflexivity.
Qed.

Lemma evaluate_rule_outcome (rule : RuleEvaluator.Rule) (facts : RuleEvaluator.Facts)
  (concept_resolutions : PyVal) :
  RuleEvaluator.evaluate_rule rule facts concept_resolutions
  = Ok (rule_outcome facts concept_resolutions rule).
Proof.
  unfold rule_outcome.
  destruct (evaluate_rule_total rule facts concept_resolutions) as [r ->].
  reflexivity.
Qed.

Lemma record_result_results (acc : RuleEvaluator.RuleValidation)
  (r : RuleEvaluator.RuleResult) :
  RuleEvaluator.rule_results (RuleEvaluator.record_result acc r)
  = RuleEvaluator.rule_results acc ++ [r].
Proof. reflexivity. Qed.

Lemma evaluate_rules_results (rules : list RuleEvaluator.Rule)
  (facts : RuleEvaluator.Facts) (concept_resolutions : PyVal)
  (acc : RuleEvaluator.RuleValidation) :
  exists v, RuleEvaluator.evaluate_rules rules facts concept_resolutions acc = Ok v
    /\ RuleEvaluator.rule_results v
       = RuleEvaluator.rule_results acc
         ++ map (rule_outcome facts concept_resolutions) rules.
Proof.
  revert acc. induction rules as [|rule rest IH]; intros acc; simpl.
  - exists acc. split; [reflexivity|]. symmetry. apply app_nil_r.
  - rewrite evaluate_rule_outcome. simpl.
    destruct (IH (RuleEvaluator.record_result acc
                    (rule_outcome facts concept_resolutions rule)))
      as (v & Hv & Hr).
    exists v. split; [exact Hv|].
    rewrite Hr, record_result_results, <- app_assoc. reflexivity.
Qed.

(** C7. Evaluation of a rule always returns a result.  When the
    evaluation proper raises an exception, the result carries the rule's
    code, status error and a message that quotes the exception.  In the
    engine's loop over the rules the results are those of the rules taken
    one by one, each at its place, so an exception in one rule leaves the
    results of the others as they are. *)
Theorem evaluate_rule_contains_exceptions (rule : RuleEvaluator.Rule)
  (facts : RuleEvaluator.Facts) (concept_resolutions : PyVal) :
  (exists r, RuleEvaluator.evaluate_rule rule facts concept_resolutions = Ok r)
  /\ (forall e,
        RuleEvaluator.dispatch rule facts concept_resolutions = Raise e ->
        exists r, RuleEvaluator.evaluate_rule rule facts concept_resolutions = Ok r
          /\ RuleEvaluator.status r = "error"
          /\ RuleEvaluator.message r
             = ("Rule evaluation failed: " ++ exn_str e)%string
          /\ RuleEvaluator.rule_code r = RuleEvaluator.rule_get rule "RuleCode" VNone)
  /\ (forall before after,
        exists v,
          RuleEvaluator.evaluate_rules (before ++ rule :: after) facts
            concept_resolutions RuleEvaluator.empty_validation = Ok v
          /\ RuleEvaluator.rule_results v
             = map (rule_outcome facts concept_resolutions) before
               ++ rule_outcome facts concept_resolutions rule
               :: map (rule_outcome facts concept_resolutions) after).
Proof.
  split; [apply evaluate_rule_total|]. split.
  - intros e He. unfold RuleEvaluator.evaluate_rule, try_except, bind.
    rewrite He. eexists. repeat split.
  - intros before after.
    destruct (evaluate_rules_results (before ++ rule :: after) facts
                concept_resolutions RuleEvaluator.empty_validation)
      as (v & Hv & Hr).
    exists v. split; [exact Hv|].
    rewrite Hr. simpl. rewrite map_app. reflexivity.
Qed.

Lemma evaluate_rule_contains_exceptions_witness :
  exists r, RuleEvaluator.evaluate_rule broken_rule [] VNone = Ok r
    /\ RuleEvaluator.status r = "error"
    /\ RuleEvaluator.message r
       = ("Rule evaluation failed: "
          ++ exn_str (AttributeError "'NoneType' object has no attribute 'get'"))%string
    /\ RuleEvaluator.rule_code r = RuleEvaluator.rule_get broken_rule "RuleCode" VNone.
Proof.
  apply (proj1 (proj2 (evaluate_rule_contains_exceptions broken_rule [] VNone))).
  reflexivity.
Defined.

Example broken_rule_between_others :
  match RuleEvaluator.evaluate_rules [general_rule; broken_rule; calculation_rule]
          [] VNone RuleEvaluator.empty_validation with
  | Ok v => (map RuleEvaluator.status (RuleEvaluator.rule_results v),
             RuleEvaluator.rules_passed v, RuleEvaluator.rules_skipped v)
  | Raise _ => ([], 0, 0)
  end = (["passed"; "error"; "skipped"], 1, 2).
Proof. reflexivity. Qed.

(** ** Concept resolver *)

Lemma py_or_hit (ran : list Strategy) (c : Concept) (b : unit -> Ran) :
  py_or (ran, Some c) b = (ran, Some c).
Proof. reflexivity. Qed.

Lemma py_or_miss (ran : list Strategy) (b : unit -> Ran) :
  py_or (ran, None) b = (ran ++ fst (b tt), snd (b tt)).
Proof. unfold py_or. destruct (b tt). reflexivity. Qed.

(** The [or] chain runs the searches in [cascade_order] and stops at the
    first hit. *)
Lemma search_cascade_first_hit (db : Store.Database) (concept_name : string) :
  search_cascade db concept_name = first_hit db concept_name cascade_order.
Proof.
  unfold search_cascade, cascade_order, first_hit, run_strategy, call.
  destruct (_search_by_exact_match db concept_name); [reflexivity|].
  rewrite py_or_miss; cbn [fst snd app].
  destruct (_search_by_clean_name db (_clean_concept_name concept_name));
    [reflexivity|].
  rewrite py_or_miss; cbn [fst snd app].
  destruct (_search_by_prefix_variants db concept_name); [reflexivity|].
  rewrite py_or_miss; cbn [fst snd app].
  destruct (_search_by_partial_match db (_clean_concept_name concept_name));
    [reflexivity|].
  rewrite py_or_miss; cbn [fst snd app].
  destruct (_search_in_member_table db concept_name); [reflexivity|].
  rewrite py_or_miss; cbn [fst snd app].
  destruct (_search_using_queries_manager db concept_name); reflexivity.
Qed.

(** What [first_hit] means: the searches that ran are a prefix of the
    order, the last of them is the one that returned the concept, and
    those before it returned nothing. *)
Lemma first_hit_stops (db : Store.Database) (concept_name : string)
  (order ran : list Strategy) (c : Concept) :
  first_hit db concept_name order = (ran, Some c) ->
  exists earlier s rest,
    ran = earlier ++ [s] /\ order = earlier ++ s :: rest
    /\ run_strategy db s concept_name = Some c
    /\ Forall (fun s' => run_strategy db s' concept_name = None) earlier.
Proof.
  revert ran. induction order as [|s order IH]; intros ran H; simpl in H.
  - discriminate.
  - destruct (run_strategy db s concept_name) as [c'|] eqn:Hs.
    + injection H as <- <-. exists [], s, order. repeat split; auto.
    + destruct (first_hit db concept_name order) as [ran' r] eqn:Hf.
      injection H as <- ->.
      destruct (IH ran' eq_refl) as (earlier & s' & rest & -> & -> & Hrun & Hall).
      exists (s :: earlier), s', rest. repeat split; auto.
Qed.

Lemma first_hit_none (db : Store.Database) (concept_name : string)
  (order ran : list Strategy) :
  first_hit db concept_name order = (ran, None) ->
  ran = order /\ Forall (fun s => run_strategy db s concept_name = None) order.
Proof.
  revert ran. induction order as [|s order IH]; intros ran H; simpl in H.
  - injection H as <-. split; [reflexivity|constructor].
  - destruct (run_strategy db s concept_name) as [c'|] eqn:Hs; [discriminate|].
    destruct (first_hit db concept_name order) as [ran' r] eqn:Hf.
    injection H as <- ->.
    destruct (IH ran' eq_refl) as [-> Hall].
    split; [reflexivity|]. constructor; assumption.
Qed.

Lemma resolve_cache_hit (db : Store.Database) (cache : gmap string Concept)
  (name : string) (c : Concept) :
  cache !! name = Some c ->
  resolve_concept_from_dmp db cache name
  = {| returned := Some c; cache_after := cache; searches_run := [] |}.
Proof. intros H. unfold resolve_concept_from_dmp. rewrite H. reflexivity. Qed.

Lemma resolve_cache_miss (db : Store.Database) (cache : gmap string Concept)
  (name : string) :
  cache !! name = None ->
  returned (resolve_concept_from_dmp db cache name) = snd (search_cascade db name)
  /\ searches_run (resolve_concept_from_dmp db cache name)
     = fst (search_cascade db name)
  /\ cache_after (resolve_concept_from_dmp db cache name)
     = match snd (search_cascade db name) with
       | Some c => <[name := c]> cache
       | None => cache
       end.
Proof.
  intros H. unfold resolve_concept_from_dmp. rewrite H.
  destruct (search_cascade db name) as [ran [c|]]; simpl; auto.
Qed.

(** A successful resolution is in the cache afterwards. *)
Lemma resolve_caches (db : Store.Database) (cache : gmap string Concept)
  (name : string) (c : Concept) :
  returned (resolve_concept_from_dmp db cache name) = Some c ->
  cache_after (resolve_concept_from_dmp db cache name) !! name = Some c.
Proof.
  destruct (cache !! name) as [c'|] eqn:Hc.
  - rewrite (resolve_cache_hit _ _ _ _ Hc). simpl. congruence.
  - destruct (resolve_cache_miss db cache name Hc) as (Hr & _ & Ha).
    rewrite Hr, Ha. intros ->. apply lookup_insert_eq.
Qed.

(** Resolving one name does not change what the resolver returns for
    another, or for the same. *)
Lemma resolve_returned_stable (db : Store.Database) (cache : gmap string Concept)
  (n m : string) :
  returned (resolve_concept_from_dmp db
              (cache_after (resolve_concept_from_dmp db cache n)) m)
  = returned (resolve_concept_from_dmp db cache m).
Proof.
  destruct (cache !! n) as [c|] eqn:Hn.
  - rewrite (resolve_cache_hit _ _ _ _ Hn). reflexivity.
  - destruct (resolve_cache_miss db cache n Hn) as (Hr & _ & Ha).
    rewrite Ha. destruct (snd (search_cascade db n)) as [c|] eqn:Hs; [|reflexivity].
    destruct (decide (n = m)) as [->|Hne].
    + rewrite (resolve_cache_hit db (<[m:=c]> cache) m c (lookup_insert_eq _ _ _)).
      simpl. congruence.
    + unfold resolve_concept_from_dmp.
      rewrite lookup_insert_ne by exact Hne.
      destruct (cache !! m); [reflexivity|].
      destruct (search_cascade db m) as [ran [c'|]]; reflexivity.
Qed.

Lemma cache_coherent_empty (db : Store.Database) : cache_coherent db ∅.
Proof. intros n c H. rewrite lookup_empty in H. discriminate. Qed.

Lemma resolve_keeps_coherent (db : Store.Database) (cache : gmap string Concept)
  (name : string) :
  cache_coherent db cache ->
  cache_coherent db (cache_after (resolve_concept_from_dmp db cache name)).
Proof.
  intros Hco. destruct (cache !! name) as [c|] eqn:Hn.
  - rewrite (resolve_cache_hit _ _ _ _ Hn). exact Hco.
  - destruct (resolve_cache_miss db cache name Hn) as (_ & _ & ->).
    destruct (snd (search_cascade db name)) as [c|] eqn:Hs; [|exact Hco].
    intros n c'. destruct (decide (name = n)) as [<-|Hne].
    + rewrite lookup_insert_eq. congruence.
    + rewrite lookup_insert_ne by exact Hne. apply Hco.
Qed.

(** C5. The cascade runs the searches in the order exact, clean name,
    prefix variants, partial, member table, fallback, and stops at the
    first that returns a concept.  So for a name the exact-match search
    answers, whatever the partial-match search would answer, the cascade
    runs the exact-match search only and the resolver returns the
    concept of that search, on a cache filled from the same dictionary. *)
Theorem exact_match_takes_precedence (db : Store.Database) :
  (forall name, search_cascade db name = first_hit db name cascade_order)
  /\ (forall (cache : gmap string Concept) name exact,
        cache_coherent db cache ->
        _search_by_exact_match db name = Some exact ->
        search_cascade db name = ([ExactMatch], Some exact)
        /\ returned (resolve_concept_from_dmp db cache name) = Some exact).
Proof.
  split; [apply search_cascade_first_hit|].
  intros cache name exact Hco Hex.
  assert (Hcas : search_cascade db name = ([ExactMatch], Some exact)).
  { unfold search_cascade, call. rewrite Hex. reflexivity. }
  split; [exact Hcas|].
  destruct (cache !! name) as [c|] eqn:Hn.
  - rewrite (resolve_cache_hit _ _ _ _ Hn). simpl.
    apply Hco in Hn. rewrite Hcas in Hn. simpl in Hn. congruence.
  - destruct (resolve_cache_miss db cache name Hn) as (-> & _ & _).
    rewrite Hcas. reflexivity.
Qed.

(** In the sample store the name [eba_met:Assets] is answered by the
    exact-match search with the second row and by the partial-match
    search with the first; the resolver returns the second. *)
Lemma exact_match_takes_precedence_witness :
  _search_by_exact_match sample_db "eba_met:Assets" = Some assets_concept
  /\ _search_by_partial_match sample_db (_clean_concept_name "eba_met:Assets")
     = Some assets_total_concept
  /\ search_cascade sample_db "eba_met:Assets" = ([ExactMatch], Some assets_concept)
  /\ returned (resolve_concept_from_dmp sample_db ∅ "eba_met:Assets")
     = Some assets_concept.
Proof.
  split; [vm_compute; reflexivity|].
  split; [vm_compute; reflexivity|].
  apply (proj2 (exact_match_takes_precedence sample_db) ∅ "eba_met:Assets"
           assets_concept).
  - apply cache_coherent_empty.
  - vm_compute. reflexivity.
Defined.

(** Later searches are reached only when the earlier ones find nothing. *)
Example cascade_reaches_member_table :
  search_cascade sample_db "eba_GA:x1"
  = ([ExactMatch; CleanName; PrefixVariants; PartialMatch; MemberTable],
     Some {| ConceptCode := "x1"; ConceptLabel := "Spain"; ConceptType := "Member";
             MetricCode := ""; source := "tMember";
             MemberXbrlCode := Some "eba_GA:x1";
             searchType := Some "exact match" |}).
Proof. vm_compute. reflexivity. Qed.

Example cascade_unresolved :
  search_cascade sample_db "eba_met:qq9" = (cascade_order, None).
Proof. vm_compute. reflexivity. Qed.

(** A store without connection: every search is skipped. *)
Example cascade_without_connection :
  search_cascade
    {| Store.connect_ok := false; Store.tables := Store.tables sample_db;
       Store.table_mappings := Store.table_mappings sample_db;
       Store.sql_eq := String.eqb; Store.sql_like := like_between_percents |}
    "eba_met:Assets" = (cascade_order, None).
Proof. vm_compute. reflexivity. Qed.

(** C10. When a call returns a concept, a second call with the same name
    returns the same concept; it is served from the cache, runs no
    search and leaves the cache as it is.  It stays so after calls for
    other names. *)
Theorem resolve_twice_same (db : Store.Database) (cache : gmap string Concept)
  (name : string) (c : Concept) :
  returned (resolve_concept_from_dmp db cache name) = Some c ->
  let cache' := cache_after (resolve_concept_from_dmp db cache name) in
  resolve_concept_from_dmp db cache' name
  = {| returned := Some c; cache_after := cache'; searches_run := [] |}
  /\ (forall other,
        returned (resolve_concept_from_dmp db
                    (cache_after (resolve_concept_from_dmp db cache' other)) name)
        = Some c).
Proof.
  intros H cache'. split.
  - apply resolve_cache_hit. apply resolve_caches. exact H.
  - intros other. rewrite resolve_returned_stable.
    unfold cache'. rewrite resolve_returned_stable. exact H.
Qed.

Lemma resolve_twice_same_witness :
  let cache' := cache_after (resolve_concept_from_dmp sample_db ∅ "eba_met:Assets") in
  resolve_concept_from_dmp sample_db cache' "eba_met:Assets"
  = {| returned := Some assets_concept; cache_after := cache'; searches_run := [] |}
  /\ (forall other,
        returned (resolve_concept_from_dmp sample_db
                    (cache_after (resolve_concept_from_dmp sample_db cache' other))
                    "eba_met:Assets")
        = Some assets_concept).
Proof.
  apply (resolve_twice_same sample_db ∅ "eba_met:Assets" assets_concept).
  vm_compute. reflexivity.
Defined.

(** ** Reconciliation with the external validator *)

Lemma dict_set_in {V : Type} (k k' : string) (v v' : V) (d : list (string * V)) :
  In (k, v) (Dict.set k' v' d) -> (k, v) = (k', v') \/ In (k, v) d.
Proof.
  induction d as [|[k0 v0] d IH]; simpl.
  - intros [H|[]]. left. congruence.
  - destruct (String.eqb k' k0) eqn:E.
    + apply String.eqb_eq in E. subst k0.
      intros [H|H]; [left; congruence | right; right; exact H].
    + intros [H|H]; [right; left; exact H|].
      destruct (IH H) as [H'|H']; [left; exact H' | right; right; exact H'].
Qed.

Lemma dict_set_has {V : Type} (k : string) (v : V) (d : list (string * V)) :
  In (k, v) (Dict.set k v d).
Proof.
  induction d as [|[k0 v0] d IH]; simpl.
  - left. reflexivity.
  - destruct (String.eqb k k0) eqn:E.
    + apply String.eqb_eq in E. subst k0. left. reflexivity.
    + right. exact IH.
Qed.

Lemma dict_set_keeps_key {V : Type} (k k' : string) (v v' : V) (d : list (string * V)) :
  In (k, v) d -> exists v2, In (k, v2) (Dict.set k' v' d).
Proof.
  induction d as [|[k0 v0] d IH]; simpl; [intros []|].
  destruct (String.eqb k' k0) eqn:E.
  - intros [H|H].
    + injection H as -> ->. exists v'. left. reflexivity.
    + exists v. right. exact H.
  - intros [H|H].
    + exists v. left. exact H.
    + destruct (IH H) as [v2 H2]. exists v2. right. exact H2.
Qed.

(** The first loop sorts the missing concepts by what the resolver
    returns for them. [answer] is that return value, which the calls of
    the loop do not change. *)
Lemma resolve_missing_sorts (db : Store.Database) (answer : string -> option Concept)
  (missing : list string) :
  forall (cache : gmap string Concept) (R : list (string * Concept)) (U : list string)
         R' U' cache',
  (forall m, returned (resolve_concept_from_dmp db cache m) = answer m) ->
  resolve_missing db cache missing R U = (R', U', cache') ->
  (forall k d, In (k, d) R' -> In (k, d) R \/ (In k missing /\ answer k = Some d))
  /\ (forall u, In u U' -> In u U \/ (In u missing /\ answer u = None))
  /\ (forall k d, In (k, d) R -> exists d', In (k, d') R')
  /\ (forall u, In u U -> In u U')
  /\ (forall k, In k missing ->
        match answer k with
        | Some _ => exists d', In (k, d') R'
        | None => In k U'
        end).
Proof.
  induction missing as [|concept rest IH]; intros cache R U R' U' cache' Hans H.
  - simpl in H. injection H as <- <- <-.
    repeat split; try tauto; eauto. intros k [].
  - simpl in H.
    assert (Hnext : forall m,
               returned (resolve_concept_from_dmp db
                 (cache_after (resolve_concept_from_dmp db cache concept)) m)
               = answer m).
    { intros m. rewrite resolve_returned_stable. apply Hans. }
    pose proof (Hans concept) as Hc.
    destruct (returned (resolve_concept_from_dmp db cache concept)) as [d0|] eqn:Hret.
    + destruct (IH _ _ _ _ _ _ Hnext H) as (H1 & H2 & H3 & H4 & H5).
      repeat split.
      * intros k d Hin. destruct (H1 k d Hin) as [Hs|[Hm Ha]].
        -- destruct (dict_set_in _ _ _ _ _ Hs) as [E|Hold].
           ++ injection E as -> ->. right. split; [left; reflexivity|congruence].
           ++ left. exact Hold.
        -- right. split; [right; exact Hm|exact Ha].
      * intros u Hin. destruct (H2 u Hin) as [Hu|[Hm Ha]].
        -- left. exact Hu.
        -- right. split; [right; exact Hm|exact Ha].
      * intros k d Hin.
        destruct (dict_set_keeps_key k concept d d0 R Hin) as [v2 Hv2].
        eapply H3. exact Hv2.
      * exact H4.
      * intros k [<-|Hk].
        -- rewrite <- Hc. eapply H3. apply dict_set_has.
        -- apply H5. exact Hk.
    + destruct (IH _ _ _ _ _ _ Hnext H) as (H1 & H2 & H3 & H4 & H5).
      repeat split.
      * intros k d Hin. destruct (H1 k d Hin) as [Hs|[Hm Ha]].
        -- left. exact Hs.
        -- right. split; [right; exact Hm|exact Ha].
      * intros u Hin. destruct (H2 u Hin) as [Hu|[Hm Ha]].
        -- apply in_app_or in Hu as [Hu|[<-|[]]].
           ++ left. exact Hu.
           ++ right. split; [left; reflexivity|congruence].
        -- right. split; [right; exact Hm|exact Ha].
      * exact H3.
      * intros u Hin. apply H4. apply in_or_app. left. exact Hin.
      * intros k [<-|Hk].
        -- rewrite <- Hc. apply H4. apply in_or_app. right. left. reflexivity.
        -- apply H5. exact Hk.
Qed.

(** The entries written for the resolved and for the unresolved concepts. *)
Lemma report_resolved_entries (items : list (string * Concept)) :
  forall issue_id errors results next_id,
  report_resolved issue_id items = (errors, results, next_id) ->
  (forall e, In e errors ->
     exists id k d, In (k, d) items /\ e = resolved_error_entry id k d)
  /\ (forall k d, In (k, d) items ->
        exists id, In (resolved_error_entry id k d) errors).
Proof.
  induction items as [|[k0 d0] items IH]; intros issue_id errors results next_id H;
    simpl in H.
  - injection H as <- <- <-. split; [intros e []|intros k d []].
  - destruct (report_resolved (S issue_id) items) as [[errs ress] nid] eqn:Hrec.
    injection H as <- <- <-.
    destruct (IH _ _ _ _ Hrec) as [H1 H2]. split.
    + intros e [<-|Hin].
      * exists issue_id, k0, d0. split; [left; reflexivity|reflexivity].
      * destruct (H1 e Hin) as (id & k & d & Hk & ->).
        exists id, k, d. split; [right; exact Hk|reflexivity].
    + intros k d [E|Hin].
      * injection E as -> ->. exists issue_id. left. reflexivity.
      * destruct (H2 k d Hin) as [id Hid]. exists id. right. exact Hid.
Qed.

Lemma report_unresolved_entries (concepts : list string) :
  forall issue_id errors results next_id,
  report_unresolved issue_id concepts = (errors, results, next_id) ->
  (forall e, In e errors ->
     exists id k, In k concepts /\ e = missing_error_entry id k)
  /\ (forall k, In k concepts -> exists id, In (missing_error_entry id k) errors).
Proof.
  induction concepts as [|k0 concepts IH]; intros issue_id errors results next_id H;
    simpl in H.
  - injection H as <- <- <-. split; [intros e []|intros k []].
  - destruct (report_unresolved (S issue_id) concepts) as [[errs ress] nid] eqn:Hrec.
    injection H as <- <- <-.
    destruct (IH _ _ _ _ Hrec) as [H1 H2]. split.
    + intros e [<-|Hin].
      * exists issue_id, k0. split; [left; reflexivity|reflexivity].
      * destruct (H1 e Hin) as (id & k & Hk & ->).
        exists id, k. split; [right; exact Hk|reflexivity].
    + intros k [<-|Hin].
      * exists issue_id. left. reflexivity.
      * destruct (H2 k Hin) as [id Hid]. exists id. right. exact Hid.
Qed.

Lemma resolved_severity_not_error (d : Concept) : resolved_severity d <> "error".
Proof. unfold resolved_severity. destruct (String.eqb _ _); discriminate. Qed.

(** The [errors] list of the processed output, entry by entry. *)
Lemma process_errors (db : Store.Database) (cache : gmap string Concept)
  (missing : list string) (returncode : Z) :
  let answer := fun m => returned (resolve_concept_from_dmp db cache m) in
  let out := process_arelle_output db cache missing returncode in
  (forall e, In e (errors out) ->
     (exists id d, In (e_concept e) missing /\ answer (e_concept e) = Some d
                   /\ e = resolved_error_entry id (e_concept e) d)
     \/ (exists id, In (e_concept e) missing /\ answer (e_concept e) = None
                    /\ e = missing_error_entry id (e_concept e)))
  /\ (forall k, In k missing -> exists e, In e (errors out) /\ e_concept e = k).
Proof.
  intros answer out. unfold out, process_arelle_output.
  destruct (resolve_missing db cache missing [] []) as [[R U] cache'] eqn:Hres.
  destruct (report_resolved 1 R) as [[errors1 results1] issue_id] eqn:Hr1.
  destruct (report_unresolved issue_id U) as [[errors2 results2] last_id] eqn:Hr2.
  cbn [errors].
  destruct (resolve_missing_sorts db answer missing cache [] [] R U cache'
              (fun m => eq_refl) Hres) as (H1 & H2 & _ & _ & H5).
  destruct (report_resolved_entries _ _ _ _ _ Hr1) as [E1 F1].
  destruct (report_unresolved_entries _ _ _ _ _ Hr2) as [E2 F2].
  split.
  - intros e Hin. apply in_app_or in Hin as [Hin|Hin].
    + destruct (E1 e Hin) as (id & k & d & Hk & ->).
      destruct (H1 k d Hk) as [[]|[Hm Ha]].
      left. exists id, d. auto.
    + destruct (E2 e Hin) as (id & k & Hk & ->).
      destruct (H2 k Hk) as [[]|[Hm Ha]].
      right. exists id. auto.
  - intros k Hk. specialize (H5 k Hk).
    destruct (answer k) as [d|] eqn:Ha.
    + destruct H5 as [d' Hd']. destruct (F1 k d' Hd') as [id Hid].
      exists (resolved_error_entry id k d'). split; [|reflexivity].
      apply in_or_app. left. exact Hid.
    + destruct (F2 k H5) as [id Hid].
      exists (missing_error_entry id k). split; [|reflexivity].
      apply in_or_app. right. exact Hid.
Qed.

(** C1, as stated, fails: a concept the validator reports missing and the
    resolver finds in the member table is recorded with severity info,
    not warning. *)
Lemma member_resolution_recorded_as_info :
  let out := process_arelle_output sample_db ∅ ["eba_GA:x1"] 1 in
  (exists d, returned (resolve_concept_from_dmp sample_db ∅ "eba_GA:x1") = Some d)
  /\ exists e, In e (errors out) /\ e_concept e = "eba_GA:x1"
               /\ e_severity e = "info" /\ e_severity e <> "warning".
Proof.
  split.
  - eexists. vm_compute. reflexivity.
  - eexists. split; [|split; [|split]].
    + vm_compute. left. reflexivity.
    + reflexivity.
    + reflexivity.
    + discriminate.
Qed.

(** C1, amended. Every concept the validator reports missing is recorded
    in the merged list.  When the resolver resolves it, each of its
    entries has severity info if the concept was found in the member
    table and severity warning otherwise, and never severity error; when
    the resolver does not resolve it, each of its entries has severity
    error. *)
Theorem missing_concept_severity (db : Store.Database)
  (cache : gmap string Concept) (missing_concepts : list string) (returncode : Z)
  (concept : string) :
  In concept missing_concepts ->
  let out := process_arelle_output db cache missing_concepts returncode in
  (exists e, In e (errors out) /\ e_concept e = concept)
  /\ (forall e, In e (errors out) -> e_concept e = concept ->
        match returned (resolve_concept_from_dmp db cache concept) with
        | Some dmp_concept =>
            e_severity e
            = (if String.eqb (source dmp_concept) "tMember" then "info" else "warning")
            /\ e_severity e <> "error"
        | None => e_severity e = "error"
        end).
Proof.
  intros Hin out.
  destruct (process_errors db cache missing_concepts returncode) as [Hall Hsome].
  split; [apply Hsome; exact Hin|].
  intros e He <-.
  destruct (Hall e He) as [(id & d & _ & Ha & ->)|(id & _ & Ha & ->)];
    cbn [e_concept resolved_error_entry missing_error_entry] in *;
    rewrite Ha; cbn [e_severity].
  - split; [reflexivity|apply resolved_severity_not_error].
  - reflexivity.
Qed.

(** One missing concept of each sort: found in the concept table, found
    in the member table, not found. *)
Lemma missing_concept_severity_witness :
  let out := process_arelle_output sample_db ∅
               ["eba_met:Assets"; "eba_GA:x1"; "eba_met:qq9"] 1 in
  (exists e, In e (errors out) /\ e_concept e = "eba_met:Assets")
  /\ (forall e, In e (errors out) -> e_concept e = "eba_met:Assets" ->
        match returned (resolve_concept_from_dmp sample_db ∅ "eba_met:Assets") with
        | Some dmp_concept =>
            e_severity e
            = (if String.eqb (source dmp_concept) "tMember" then "info" else "warning")
            /\ e_severity e <> "error"
        | None => e_severity e = "error"
        end).
Proof.
  apply (missing_concept_severity sample_db ∅
           ["eba_met:Assets"; "eba_GA:x1"; "eba_met:qq9"] 1 "eba_met:Assets").
  simpl. left. reflexivity.
Defined.

Example merged_severities :
  map (fun e => (e_concept e, e_severity e, e_code e))
    (errors (process_arelle_output sample_db ∅
               ["eba_met:qq9"; "eba_met:Assets"; "eba_GA:x1"] 1))
  = [("eba_met:Assets", "warning", "CONCEPT-RESOLVED-1");
     ("eba_GA:x1", "info", "CONCEPT-RESOLVED-2");
     ("eba_met:qq9", "error", "MISSING-CONCEPT-3")].
Proof. vm_compute. reflexivity. Qed.

(** ** Decimal rendering *)

Lemma is_digit_digit_char (d : N) : (d < 10)%N -> PyNum.is_digit (PyNum.digit_char d) = true.
Proof.
  intros H. unfold PyNum.is_digit, PyNum.digit_char.
  rewrite N_ascii_embedding by lia.
  apply andb_true_intro. split; apply N.leb_le; lia.
Qed.

Lemma all_digits_app (a b : string) :
  PyNum.all_digits (a ++ b) = PyNum.all_digits a && PyNum.all_digits b.
Proof.
  induction a as [|c a IH]; simpl; [reflexivity|].
  rewrite IH. apply andb_assoc.
Qed.

Lemma string_app_assoc (a b c : string) :
  ((a ++ b) ++ c)%string = (a ++ b ++ c)%string.
Proof.
  induction a as [|x a IH]; [reflexivity|].
  change (String x ((a ++ b) ++ c) = String x (a ++ b ++ c))%string.
  f_equal. exact IH.
Qed.

Lemma string_app_nil_r (a : string) : (a ++ EmptyString)%string = a.
Proof.
  induction a as [|x a IH]; [reflexivity|].
  change (String x (a ++ EmptyString) = String x a)%string.
  f_equal. exact IH.
Qed.

(** [digits_of] puts digits, at least one, in front of [acc]. *)
Lemma digits_of_prepends (fuel : nat) :
  forall n acc, exists pre,
    PyNum.digits_of fuel n acc = (pre ++ acc)%string
    /\ PyNum.all_digits pre = true
    /\ (fuel <> 0%nat -> pre <> EmptyString).
Proof.
  induction fuel as [|fuel IH]; intros n acc.
  - exists EmptyString. repeat split. intros H. contradiction.
  - simpl. assert (Hd : PyNum.is_digit (PyNum.digit_char (n mod 10)) = true).
    { apply is_digit_digit_char. apply N.mod_lt. discriminate. }
    destruct (n / 10 =? 0)%N.
    + exists (String (PyNum.digit_char (n mod 10)) EmptyString).
      simpl. rewrite Hd. repeat split. discriminate.
    + destruct (IH (n / 10)%N (String (PyNum.digit_char (n mod 10)) acc))
        as (pre & Hp & Hall & _).
      exists (pre ++ String (PyNum.digit_char (n mod 10)) EmptyString)%string.
      split; [|split].
      * rewrite Hp. rewrite string_app_assoc. reflexivity.
      * rewrite all_digits_app, Hall. simpl. rewrite Hd. reflexivity.
      * intros _. destruct pre; discriminate.
Qed.

Lemma str_of_N_digits (n : N) :
  PyNum.all_digits (PyNum.str_of_N n) = true /\ PyNum.str_of_N n <> EmptyString.
Proof.
  unfold PyNum.str_of_N.
  destruct (digits_of_prepends (S (N.to_nat (N.size n))) n EmptyString)
    as (pre & -> & Hall & Hne).
  rewrite string_app_nil_r. split; [exact Hall|]. apply Hne. discriminate.
Qed.

Example str_of_nat_samples :
  map PyNum.str_of_nat [0; 7; 10; 42; 100; 4096]%nat
  = ["0"; "7"; "10"; "42"; "100"; "4096"].
Proof. vm_compute. reflexivity. Qed.

(** ** One decimal place *)

Local Open Scope Z_scope.

Lemma round_half_even_nearest (num den : Z) :
  0 <= num -> 0 < den ->
  0 <= PyFloat.round_half_even num den
  /\ Z.abs (2 * (PyFloat.round_half_even num den * den - num)) <= den.
Proof.
  intros Hn Hd. unfold PyFloat.round_half_even.
  pose proof (Z.div_mod num den ltac:(lia)) as Hdm.
  pose proof (Z.mod_pos_bound num den Hd) as Hm.
  pose proof (Z.div_pos num den Hn Hd) as Hq.
  destruct (2 * (num mod den) <? den) eqn:E1.
  - apply Z.ltb_lt in E1. split; [lia|]. nia.
  - apply Z.ltb_ge in E1. destruct (den <? 2 * (num mod den)) eqn:E2.
    + apply Z.ltb_lt in E2. split; [lia|]. nia.
    + apply Z.ltb_ge in E2. destruct (Z.even (num / den)); split; try lia; nia.
Qed.

(** The number of tenths printed for [m * 2^e] is not negative and lies
    within half a tenth of it: with [m * 2^e = num / (10 * den)],
    [|tenths * den - num| <= den / 2]. *)
Lemma tenths_nearest (m : positive) (e : Z) :
  let num := 10 * Z.pos m * 2 ^ Z.max e 0 in
  let den := 2 ^ Z.max (- e) 0 in
  0 <= PyFloat.tenths m e
  /\ Z.abs (2 * (PyFloat.tenths m e * den - num)) <= den.
Proof.
  intros num den. unfold PyFloat.tenths, num, den.
  destruct (0 <=? e) eqn:E.
  - apply Z.leb_le in E.
    rewrite (Z.max_l e 0) by lia. rewrite (Z.max_r (- e) 0) by lia.
    assert (0 < 2 ^ e) by (apply Z.pow_pos_nonneg; lia).
    change (2 ^ 0) with 1. split; [nia|].
    replace (2 * (10 * Z.pos m * 2 ^ e * 1 - 10 * Z.pos m * 2 ^ e)) with 0 by ring.
    simpl. lia.
  - apply Z.leb_gt in E.
    rewrite (Z.max_r e 0) by lia. rewrite (Z.max_l (- e) 0) by lia.
    change (2 ^ 0) with 1. rewrite Z.mul_1_r.
    apply round_half_even_nearest; [lia|].
    apply Z.pow_pos_nonneg; lia.
Qed.

(** A number of tenths is rendered with its whole part, a dot, and one
    digit. *)
Lemma render_tenths_shape (t : Z) :
  0 <= t ->
  exists whole d,
    PyFloat.render_tenths t = (whole ++ "." ++ String d EmptyString)%string
    /\ PyNum.all_digits whole = true /\ whole <> EmptyString
    /\ PyNum.is_digit d = true.
Proof.
  intros Ht. unfold PyFloat.render_tenths.
  exists (PyNum.str_of_N (Z.to_N (t / 10))), (PyNum.digit_char (Z.to_N (t mod 10))).
  destruct (str_of_N_digits (Z.to_N (t / 10))) as [Hall Hne].
  repeat split; try assumption.
  apply is_digit_digit_char.
  pose proof (Z.mod_pos_bound t 10 ltac:(lia)). lia.
Qed.

(** [f"{x:.1f}"] of a finite number: an optional sign, digits, a dot and
    exactly one digit. *)
Lemma format_1f_shape (x : float) :
  PyFloat.finite x = true ->
  exists sign whole d,
    PyFloat.format_1f x = (sign ++ whole ++ "." ++ String d EmptyString)%string
    /\ (sign = EmptyString \/ sign = "-"%string)
    /\ PyNum.all_digits whole = true /\ whole <> EmptyString
    /\ PyNum.is_digit d = true.
Proof.
  unfold PyFloat.finite, PyFloat.format_1f.
  destruct (Prim2SF x) as [s|s| |s m e]; try discriminate; intros _.
  - destruct s.
    + exists "-"%string, "0"%string, "0"%char.
      split; [reflexivity|]. split; [right; reflexivity|].
      split; [reflexivity|]. split; [discriminate|reflexivity].
    + exists EmptyString, "0"%string, "0"%char.
      split; [reflexivity|]. split; [left; reflexivity|].
      split; [reflexivity|]. split; [discriminate|reflexivity].
  - destruct (tenths_nearest m e) as [Hpos _].
    destruct (render_tenths_shape _ Hpos) as (whole & d & -> & Hall & Hne & Hd).
    exists (if s then "-"%string else EmptyString), whole, d.
    split; [reflexivity|]. split; [destruct s; auto|].
    split; [exact Hall|]. split; [exact Hne|exact Hd].
Qed.

(** ** Binary64 arithmetic *)

(** *** Rounding ([SpecFloat.binary_round_aux]) *)

(** [digits2_pos m] is the number of binary digits of [m]. *)
Lemma digits2_pos_bounds (m : positive) :
  2 ^ (Z.pos (digits2_pos m) - 1) <= Z.pos m < 2 ^ Z.pos (digits2_pos m).
Proof.
  induction m as [m IH|m IH|]; cbn [digits2_pos].
  - rewrite Pos2Z.inj_succ.
    replace (Z.succ (Z.pos (digits2_pos m)) - 1) with (Z.succ (Z.pos (digits2_pos m) - 1))
      by lia.
    rewrite !Z.pow_succ_r by lia. lia.
  - rewrite Pos2Z.inj_succ.
    replace (Z.succ (Z.pos (digits2_pos m)) - 1) with (Z.succ (Z.pos (digits2_pos m) - 1))
      by lia.
    rewrite !Z.pow_succ_r by lia. lia.
  - cbn. lia.
Qed.

Lemma digits2_pos_unique (m : positive) (k : Z) :
  2 ^ (k - 1) <= Z.pos m < 2 ^ k -> Z.pos (digits2_pos m) = k.
Proof.
  intros [Hlo Hhi]. pose proof (digits2_pos_bounds m) as [Dlo Dhi].
  assert (0 < k).
  { destruct (Z_lt_le_dec 0 k) as [|Hk]; [assumption|].
    assert (2 ^ k <= 1).
    { destruct (Z.eq_dec k 0) as [->|]; [cbn; lia|].
      rewrite Z.pow_neg_r by lia. lia. }
    lia. }
  assert (Z.pos (digits2_pos m) - 1 < k).
  { apply (Z.pow_lt_mono_r_iff 2); lia. }
  assert (k - 1 < Z.pos (digits2_pos m)).
  { apply (Z.pow_lt_mono_r_iff 2); lia. }
  lia.
Qed.

(** Shifting right halves the mantissa, whatever the round and sticky
    bits become. *)
Lemma shr_1_m (mrs : shr_record) :
  0 <= shr_m mrs -> shr_m (shr_1 mrs) = shr_m mrs / 2.
Proof.
  destruct mrs as [m r s]. cbn [shr_m]. intros Hm.
  destruct m as [|[p|p|]|p]; cbn [shr_1 shr_m]; try lia.
  - reflexivity.
  - apply (Z.div_unique (Z.pos p~1) 2 (Z.pos p) 1); lia.
  - apply (Z.div_unique (Z.pos p~0) 2 (Z.pos p) 0); lia.
  - reflexivity.
Qed.

Lemma iter_shr_1_m (p : positive) :
  forall mrs, 0 <= shr_m mrs ->
  shr_m (SpecFloat.iter_pos shr_1 p mrs) = shr_m mrs / 2 ^ Z.pos p.
Proof.
  induction p as [p IH|p IH|]; intros mrs Hm; cbn [SpecFloat.iter_pos].
  - assert (H1 : 0 <= shr_m (shr_1 mrs)).
    { rewrite shr_1_m by exact Hm. apply Z.div_pos; lia. }
    assert (H2 : 0 <= shr_m (SpecFloat.iter_pos shr_1 p (shr_1 mrs))).
    { rewrite IH by exact H1. apply Z.div_pos; [exact H1|]. apply Z.pow_pos_nonneg; lia. }
    rewrite IH by exact H2. rewrite IH by exact H1. rewrite shr_1_m by exact Hm.
    assert (0 < 2 ^ Z.pos p) by (apply Z.pow_pos_nonneg; lia).
    rewrite !Z.div_div by lia.
    assert (E : 2 ^ Z.pos p~1 = 2 * (2 ^ Z.pos p * 2 ^ Z.pos p)).
    { replace (Z.pos p~1) with (1 + Z.pos p + Z.pos p) by lia.
      rewrite !Z.pow_add_r by lia. change (2 ^ 1) with 2. ring. }
    rewrite E. reflexivity.
  - assert (H2 : 0 <= shr_m (SpecFloat.iter_pos shr_1 p mrs)).
    { rewrite IH by exact Hm. apply Z.div_pos; [exact Hm|]. apply Z.pow_pos_nonneg; lia. }
    rewrite IH by exact H2. rewrite IH by exact Hm.
    assert (0 < 2 ^ Z.pos p) by (apply Z.pow_pos_nonneg; lia).
    rewrite Z.div_div by lia.
    assert (E : 2 ^ Z.pos p~0 = 2 ^ Z.pos p * 2 ^ Z.pos p).
    { replace (Z.pos p~0) with (Z.pos p + Z.pos p) by lia.
      rewrite !Z.pow_add_r by lia. reflexivity. }
    rewrite E. reflexivity.
  - rewrite shr_1_m by exact Hm. reflexivity.
Qed.

Lemma shr_record_of_loc_m (m : Z) (l : location) : shr_m (shr_record_of_loc m l) = m.
Proof. destruct l as [|[]]; reflexivity. Qed.

(** [shr_fexp] on a mantissa of at least 53 digits in the normal range:
    the mantissa is divided by [2 ^ (d - 53)]. *)
Lemma shr_fexp_m (m : positive) (e : Z) (l : location) :
  let d := Z.pos (digits2_pos m) in
  53 <= d -> -1074 <= d + e - 53 ->
  exists mrs,
    shr_fexp 53 1024 (Z.pos m) e l = (mrs, e + (d - 53))
    /\ shr_m mrs = Z.pos m / 2 ^ (d - 53)
    /\ (d = 53 -> mrs = shr_record_of_loc (Z.pos m) l).
Proof.
  intros d Hd He. unfold shr_fexp, shr, fexp, emin. cbn [Zdigits2]. fold d.
  replace (Z.max (d + e - 53) (3 - 1024 - 53) - e) with (d - 53) by lia.
  destruct (d - 53) as [|p|p] eqn:E; try lia.
  - eexists. split; [rewrite Z.add_0_r; reflexivity|]. split.
    + rewrite shr_record_of_loc_m. cbn. rewrite Z.div_1_r. reflexivity.
    + reflexivity.
  - eexists. split; [reflexivity|]. split.
    + rewrite iter_shr_1_m; rewrite shr_record_of_loc_m; [reflexivity|lia].
    + lia.
Qed.

(** Rounding keeps the truncated mantissa or takes the next one. *)
Lemma round_nearest_even_cases (m : Z) (l : location) :
  round_nearest_even m l = m \/ round_nearest_even m l = m + 1.
Proof.
  destruct l as [|[]]; cbn [round_nearest_even]; auto.
  destruct (Z.even m); auto.
Qed.

(** Rounding a positive mantissa of at least 53 digits in the normal
    range: the result is a normal number, and it lies, like the mantissa
    itself, between two neighbours on the grid of step [2 ^ (d - 53)]. *)
Lemma binary_round_aux_bounds (s : bool) (mx : positive) (ex : Z) (lx : location) :
  let d := Z.pos (digits2_pos mx) in
  let n := d - 53 in
  let lo := Z.pos mx / 2 ^ n * 2 ^ n in
  53 <= d -> -1074 <= d + ex - 53 -> d + ex <= 1023 ->
  exists m3 e3,
    binary_round_aux 53 1024 s (Z.pos mx) ex lx = S754_finite s m3 e3
    /\ 2 ^ 52 <= Z.pos m3 < 2 ^ 53
    /\ ex + n <= e3 <= ex + n + 1
    /\ lo <= Z.pos m3 * 2 ^ (e3 - ex) <= lo + 2 ^ n
    /\ lo <= Z.pos mx < lo + 2 ^ n
    /\ (lx = loc_Exact -> d = 53 -> m3 = mx /\ e3 = ex).
Proof.
  intros d n lo Hd Hlow Hhigh.
  pose proof (digits2_pos_bounds mx) as [Dlo Dhi]. fold d in Dlo, Dhi.
  assert (Hn : 0 <= n) by (unfold n; lia).
  assert (P : 0 < 2 ^ n) by (apply Z.pow_pos_nonneg; lia).
  assert (Hm1 : 2 ^ 52 <= Z.pos mx / 2 ^ n < 2 ^ 53).
  { replace d with (53 + n) in Dhi by (unfold n; lia).
    replace (d - 1) with (52 + n) in Dlo by (unfold n; lia).
    rewrite Z.pow_add_r in Dlo, Dhi by lia. split.
    - apply Z.div_le_lower_bound; lia.
    - apply Z.div_lt_upper_bound; lia. }
  assert (Hmx : lo <= Z.pos mx < lo + 2 ^ n).
  { unfold lo. pose proof (Z.div_mod (Z.pos mx) (2 ^ n) ltac:(lia)).
    pose proof (Z.mod_pos_bound (Z.pos mx) (2 ^ n) P). lia. }
  unfold binary_round_aux.
  destruct (shr_fexp_m mx ex lx Hd Hlow) as (mrs & -> & Hmrs & Hsame).
  fold d n in Hmrs, Hsame |- *.
  set (m2 := round_nearest_even (shr_m mrs) (loc_of_shr_record mrs)).
  assert (Hm2 : m2 = Z.pos mx / 2 ^ n \/ m2 = Z.pos mx / 2 ^ n + 1).
  { unfold m2. rewrite <- Hmrs. apply round_nearest_even_cases. }
  assert (Hm2pos : 0 < m2) by lia.
  destruct m2 as [|p2|p2] eqn:Ep2; try lia.
  assert (Hcases : Z.pos p2 < 2 ^ 53 \/ Z.pos p2 = 2 ^ 53) by lia.
  destruct Hcases as [Hlt|Heq].
  - assert (D2 : Z.pos (digits2_pos p2) = 53).
    { apply digits2_pos_unique. change (53 - 1) with 52. lia. }
    destruct (shr_fexp_m p2 (ex + n) loc_Exact) as (mrs2 & -> & Hmrs2 & Hsame2);
      [lia|lia|].
    rewrite D2 in Hmrs2 |- *. change (53 - 53) with 0 in Hmrs2 |- *.
    change (2 ^ 0) with 1 in Hmrs2. rewrite Z.div_1_r in Hmrs2.
    rewrite Hmrs2.
    replace (ex + n + 0 <=? 1024 - 53) with true by (symmetry; apply Z.leb_le; lia).
    exists p2, (ex + n + 0). split; [reflexivity|].
    split; [lia|]. split; [lia|].
    replace (ex + n + 0 - ex) with n by lia.
    split; [unfold lo; nia|]. split; [exact Hmx|].
    intros -> Hd53. split; [|lia].
    assert (n = 0) by (unfold n; lia).
    assert (Hrec : mrs = shr_record_of_loc (Z.pos mx) loc_Exact) by (apply Hsame; lia).
    assert (Z.pos p2 = Z.pos mx).
    { rewrite <- Ep2. unfold m2. rewrite Hrec. reflexivity. }
    congruence.
  - assert (D2 : Z.pos (digits2_pos p2) = 54).
    { apply digits2_pos_unique. change (54 - 1) with 53. rewrite Heq.
      split; [lia|]. apply Z.pow_lt_mono_r; lia. }
    destruct (shr_fexp_m p2 (ex + n) loc_Exact) as (mrs2 & -> & Hmrs2 & _);
      [lia|lia|].
    rewrite D2 in Hmrs2 |- *. change (54 - 53) with 1 in Hmrs2 |- *.
    rewrite Heq in Hmrs2.
    change (2 ^ 53 / 2 ^ 1) with (Z.pos (2 ^ 52)) in Hmrs2.
    rewrite Hmrs2.
    replace (ex + n + 1 <=? 1024 - 53) with true by (symmetry; apply Z.leb_le; lia).
    exists (2 ^ 52)%positive, (ex + n + 1). split; [reflexivity|].
    split; [cbn; lia|]. split; [lia|].
    replace (ex + n + 1 - ex) with (n + 1) by lia.
    rewrite Z.pow_add_r by lia. change (2 ^ 1) with 2.
    change (Z.pos (2 ^ 52)) with (2 ^ 52).
    split; [unfold lo; nia|]. split; [exact Hmx|].
    intros -> Hd53. exfalso.
    assert (n = 0) by (unfold n; lia).
    assert (Hrec : mrs = shr_record_of_loc (Z.pos mx) loc_Exact) by (apply Hsame; lia).
    assert (Z.pos p2 = Z.pos mx).
    { rewrite <- Ep2. unfold m2. rewrite Hrec. reflexivity. }
    lia.
Qed.

(** *** Conversion, division and product *)

Lemma pos_iter_xO (p k : positive) :
  Z.pos (Pos.iter xO p k) = Z.pos p * 2 ^ Z.pos k.
Proof.
  induction k as [|k IH] using Pos.peano_ind.
  - cbn. lia.
  - rewrite Pos.iter_succ, Pos2Z.inj_xO, IH, Pos2Z.inj_succ, Z.pow_succ_r by lia. ring.
Qed.

(** A count below [2^53] is converted without rounding. *)
Lemma of_nat_exact (n : nat) :
  0 < Z.of_nat n < 2 ^ 53 ->
  exists m e,
    Prim2SF (PyFloat.of_nat n) = S754_finite false m e
    /\ 2 ^ 52 <= Z.pos m < 2 ^ 53
    /\ -52 <= e <= 0
    /\ Z.pos m = Z.of_nat n * 2 ^ (- e).
Proof.
  intros Hn. unfold PyFloat.of_nat. rewrite of_uint63_spec, of_Z_spec.
  rewrite Z.mod_small by (change wB with (2 ^ 63); lia).
  destruct (Z.of_nat n) as [|p|p] eqn:Ep; try lia.
  cbn [binary_normalize]. unfold binary_round.
  pose proof (digits2_pos_bounds p) as [Dlo Dhi].
  set (d := Z.pos (digits2_pos p)) in *.
  assert (Hd : 1 <= d <= 53).
  { split; [unfold d; lia|].
    destruct (Z_le_gt_dec d 53) as [|Hgt]; [assumption|].
    assert (2 ^ 53 <= 2 ^ (d - 1)) by (apply Z.pow_le_mono_r; lia). lia. }
  unfold fexp, emin, prec, emax.
  replace (Z.max (d + 0 - 53) (3 - 1024 - 53)) with (d - 53) by lia.
  unfold shl_align.
  destruct (d - 53 - 0) as [|k|k] eqn:Ek; try lia.
  - assert (D53 : Z.pos (digits2_pos p) = 53) by (fold d; lia).
    destruct (binary_round_aux_bounds false p 0 loc_Exact)
      as (m3 & e3 & -> & Hm3 & _ & _ & _ & Hex); [lia|lia|lia|].
    destruct (Hex eq_refl D53) as [-> ->].
    exists p, 0. split; [reflexivity|]. split; [lia|]. split; [lia|].
    cbn. lia.
  - assert (Hk : Z.pos k = 53 - d) by lia.
    assert (Hmz : Z.pos (Pos.iter xO p k) = Z.pos p * 2 ^ (53 - d)).
    { rewrite pos_iter_xO, Hk. reflexivity. }
    assert (P : 2 ^ (d - 1) * 2 ^ (53 - d) = 2 ^ 52).
    { rewrite <- Z.pow_add_r by lia. f_equal. lia. }
    assert (P' : 2 ^ d * 2 ^ (53 - d) = 2 ^ 53).
    { rewrite <- Z.pow_add_r by lia. f_equal. lia. }
    assert (P0 : 0 < 2 ^ (53 - d)) by (apply Z.pow_pos_nonneg; lia).
    assert (Hrange : 2 ^ 52 <= Z.pos (Pos.iter xO p k) < 2 ^ 53).
    { rewrite Hmz. nia. }
    assert (D53 : Z.pos (digits2_pos (Pos.iter xO p k)) = 53).
    { apply digits2_pos_unique. exact Hrange. }
    destruct (binary_round_aux_bounds false (Pos.iter xO p k) (d - 53) loc_Exact)
      as (m3 & e3 & -> & Hm3 & _ & _ & _ & Hex); [lia|lia|lia|].
    destruct (Hex eq_refl D53) as [-> ->].
    exists (Pos.iter xO p k), (d - 53). split; [reflexivity|].
    split; [exact Hrange|]. split; [lia|].
    rewrite Hmz. f_equal. f_equal. lia.
Qed.

(** The quotient of two normal numbers: in units of [2 ^ (ex - ey - 53)],
    the result differs from the exact quotient by at most [2 ^ -52] of
    itself. *)
Lemma SFdiv_bounds (mx my : positive) (ex ey : Z) :
  2 ^ 52 <= Z.pos mx < 2 ^ 53 -> 2 ^ 52 <= Z.pos my < 2 ^ 53 ->
  -400 <= ex - ey <= 400 ->
  exists m3 e3,
    SFdiv 53 1024 (S754_finite false mx ex) (S754_finite false my ey)
    = S754_finite false m3 e3
    /\ 2 ^ 52 <= Z.pos m3 < 2 ^ 53
    /\ ex - ey - 53 <= e3 <= ex - ey - 51
    /\ 2 ^ 52 * Z.abs (Z.pos m3 * 2 ^ (e3 - (ex - ey - 53)) * Z.pos my
                       - Z.pos mx * 2 ^ 53)
       <= Z.pos m3 * 2 ^ (e3 - (ex - ey - 53)) * Z.pos my.
Proof.
  intros Hx Hy He. cbn [SFdiv xorb]. unfold SFdiv_core_binary. cbn [Zdigits2].
  rewrite (digits2_pos_unique mx 53) by exact Hx.
  rewrite (digits2_pos_unique my 53) by exact Hy.
  unfold fexp, emin.
  replace (Z.min (Z.max (53 + ex - (53 + ey) - 53) (3 - 1024 - 53)) (ex - ey))
    with (ex - ey - 53) by lia.
  replace (ex - ey - (ex - ey - 53)) with 53 by lia.
  rewrite Z.shiftl_mul_pow2 by lia.
  set (m' := Z.pos mx * 2 ^ 53).
  pose proof (Z.div_mod m' (Z.pos my) ltac:(lia)) as Hdm.
  pose proof (Z.mod_pos_bound m' (Z.pos my) ltac:(lia)) as Hmod.
  unfold Z.div, Z.modulo in Hdm, Hmod.
  destruct (Z.div_eucl m' (Z.pos my)) as [q0 r0].
  assert (Hq : 2 ^ 52 <= q0 < 2 ^ 54).
  { unfold m' in Hdm. change (2 ^ 54) with (2 * 2 ^ 53). nia. }
  destruct q0 as [|pq|pq]; try lia.
  assert (Hd : Z.pos (digits2_pos pq) = 53 \/ Z.pos (digits2_pos pq) = 54).
  { destruct (Z_lt_le_dec (Z.pos pq) (2 ^ 53)).
    - left. apply digits2_pos_unique. change (53 - 1) with 52. lia.
    - right. apply digits2_pos_unique. change (54 - 1) with 53. lia. }
  destruct (binary_round_aux_bounds false pq (ex - ey - 53)
              (new_location (Z.pos my) r0))
    as (m3 & e3 & -> & Hm3 & He3 & Hlo & Hq0 & _); [lia|lia|lia|].
  exists m3, e3. split; [reflexivity|]. split; [exact Hm3|].
  split; [lia|].
  set (n := Z.pos (digits2_pos pq) - 53) in *.
  set (lo := Z.pos pq / 2 ^ n * 2 ^ n) in *.
  set (Rq := Z.pos m3 * 2 ^ (e3 - (ex - ey - 53))) in *.
  assert (Hn : 0 <= n <= 1) by (unfold n; lia).
  assert (Pn : 0 < 2 ^ n) by (apply Z.pow_pos_nonneg; lia).
  assert (HRq : 2 ^ 52 * 2 ^ n <= Rq).
  { unfold Rq.
    assert (2 ^ n <= 2 ^ (e3 - (ex - ey - 53))) by (apply Z.pow_le_mono_r; lia).
    nia. }
  assert (U1 : Rq * Z.pos my <= (Z.pos pq + 2 ^ n) * Z.pos my)
    by (apply Z.mul_le_mono_nonneg_r; lia).
  assert (U2 : (Z.pos pq + 1) * Z.pos my <= (Rq + 2 ^ n) * Z.pos my)
    by (apply Z.mul_le_mono_nonneg_r; lia).
  assert (U3 : 2 ^ 52 * 2 ^ n * Z.pos my <= Rq * Z.pos my)
    by (apply Z.mul_le_mono_nonneg_r; lia).
  lia.
Qed.

(** The product of two normal numbers: in units of [2 ^ (ex + ey)], the
    result differs from the exact product by at most [2 ^ -52] of
    itself. *)
Lemma SFmul_bounds (mx my : positive) (ex ey : Z) :
  2 ^ 52 <= Z.pos mx < 2 ^ 53 -> 2 ^ 52 <= Z.pos my < 2 ^ 53 ->
  -400 <= ex + ey <= 400 ->
  exists m3 e3,
    SFmul 53 1024 (S754_finite false mx ex) (S754_finite false my ey)
    = S754_finite false m3 e3
    /\ 2 ^ 52 <= Z.pos m3 < 2 ^ 53
    /\ ex + ey + 52 <= e3 <= ex + ey + 54
    /\ 2 ^ 52 * Z.abs (Z.pos m3 * 2 ^ (e3 - (ex + ey)) - Z.pos mx * Z.pos my)
       <= Z.pos m3 * 2 ^ (e3 - (ex + ey)).
Proof.
  intros Hx Hy He. cbn [SFmul xorb].
  assert (HM : 2 ^ 104 <= Z.pos (mx * my) < 2 ^ 106).
  { rewrite Pos2Z.inj_mul.
    change (2 ^ 104) with (2 ^ 52 * 2 ^ 52). change (2 ^ 106) with (2 ^ 53 * 2 ^ 53).
    nia. }
  assert (Hd : Z.pos (digits2_pos (mx * my)) = 105
               \/ Z.pos (digits2_pos (mx * my)) = 106).
  { destruct (Z_lt_le_dec (Z.pos (mx * my)) (2 ^ 105)).
    - left. apply digits2_pos_unique. change (105 - 1) with 104. lia.
    - right. apply digits2_pos_unique. change (106 - 1) with 105. lia. }
  destruct (binary_round_aux_bounds false (mx * my) (ex + ey) loc_Exact)
    as (m3 & e3 & -> & Hm3 & He3 & Hlo & HM0 & _); [lia|lia|lia|].
  exists m3, e3. split; [reflexivity|]. split; [exact Hm3|].
  split; [lia|].
  set (n := Z.pos (digits2_pos (mx * my)) - 53) in *.
  set (lo := Z.pos (mx * my) / 2 ^ n * 2 ^ n) in *.
  set (Rp := Z.pos m3 * 2 ^ (e3 - (ex + ey))) in *.
  assert (Hn : 52 <= n <= 53) by (unfold n; lia).
  assert (Pn : 0 < 2 ^ n) by (apply Z.pow_pos_nonneg; lia).
  assert (HRp : 2 ^ 52 * 2 ^ n <= Rp).
  { unfold Rp.
    assert (2 ^ n <= 2 ^ (e3 - (ex + ey))) by (apply Z.pow_le_mono_r; lia).
    nia. }
  rewrite <- Pos2Z.inj_mul. lia.
Qed.

(** *** The value of a binary64 number as a real number *)

Lemma pow2_IZR (k : Z) : 0 <= k -> powerRZ 2 k = IZR (2 ^ k).
Proof.
  intros Hk. destruct k as [|p|p]; [reflexivity| |lia].
  symmetry. apply (Zpower_pos_powerRZ 2 p).
Qed.

Lemma pow2_pos (e : Z) : (0 < powerRZ 2 e)%R.
Proof. apply powerRZ_lt. lra. Qed.

Lemma F2R_shift (m e k : Z) : 0 <= k -> F2R (m * 2 ^ k) e = F2R m (e + k).
Proof.
  intros Hk. unfold F2R.
  rewrite mult_IZR, powerRZ_add, <- (pow2_IZR k Hk) by lra. ring.
Qed.

Lemma F2R_mul (m1 e1 m2 e2 : Z) :
  (F2R m1 e1 * F2R m2 e2)%R = F2R (m1 * m2) (e1 + e2).
Proof. unfold F2R. rewrite mult_IZR, powerRZ_add by lra. ring. Qed.

Lemma F2R_0 (m : Z) : F2R m 0 = IZR m.
Proof. unfold F2R. cbn [powerRZ]. ring. Qed.

Lemma F2R_minus (a b e : Z) : F2R (a - b) e = (F2R a e - F2R b e)%R.
Proof. unfold F2R. rewrite minus_IZR. ring. Qed.

Lemma F2R_le (a b e : Z) : a <= b -> (F2R a e <= F2R b e)%R.
Proof.
  intros H. unfold F2R. apply Rmult_le_compat_r.
  - left. apply pow2_pos.
  - apply IZR_le. exact H.
Qed.

Lemma F2R_pos (m : positive) (e : Z) : (0 < F2R (Z.pos m) e)%R.
Proof.
  unfold F2R. apply Rmult_lt_0_compat; [|apply pow2_pos].
  apply IZR_lt. lia.
Qed.

(** The value of a converted count is the count. *)
Lemma of_nat_value (n : nat) :
  0 < Z.of_nat n < 2 ^ 53 ->
  exists m e,
    Prim2SF (PyFloat.of_nat n) = S754_finite false m e
    /\ 2 ^ 52 <= Z.pos m < 2 ^ 53 /\ -52 <= e <= 0
    /\ F2R (Z.pos m) e = IZR (Z.of_nat n).
Proof.
  intros Hn. destruct (of_nat_exact n Hn) as (m & e & H & Hm & He & Hv).
  exists m, e. split; [exact H|]. split; [exact Hm|]. split; [exact He|].
  rewrite Hv, F2R_shift by lia. replace (e + - e) with 0 by lia. apply F2R_0.
Qed.

(** Division of normal numbers is accurate to [2^-52] of the result. *)
Lemma SFdiv_value (mx my : positive) (ex ey : Z) :
  2 ^ 52 <= Z.pos mx < 2 ^ 53 -> 2 ^ 52 <= Z.pos my < 2 ^ 53 ->
  -400 <= ex - ey <= 400 ->
  exists mq eq,
    SFdiv 53 1024 (S754_finite false mx ex) (S754_finite false my ey)
    = S754_finite false mq eq
    /\ 2 ^ 52 <= Z.pos mq < 2 ^ 53
    /\ ex - ey - 53 <= eq <= ex - ey - 51
    /\ (- (F2R (Z.pos mq) eq * F2R (Z.pos my) ey / 2 ^ 52)
        <= F2R (Z.pos mq) eq * F2R (Z.pos my) ey - F2R (Z.pos mx) ex
        <= F2R (Z.pos mq) eq * F2R (Z.pos my) ey / 2 ^ 52)%R.
Proof.
  intros Hx Hy He.
  destruct (SFdiv_bounds mx my ex ey Hx Hy He) as (mq & eq & H & Hm & Heq & Hb).
  exists mq, eq. split; [exact H|]. split; [exact Hm|]. split; [exact Heq|].
  set (k := eq - (ex - ey - 53)) in *.
  assert (Hk : 0 <= k) by (unfold k; lia).
  set (N := Z.pos mq * 2 ^ k * Z.pos my) in *.
  set (M := Z.pos mx * 2 ^ 53) in *.
  assert (E1 : (F2R (Z.pos mq) eq * F2R (Z.pos my) ey)%R = F2R N (ex - 53)).
  { rewrite F2R_mul. unfold N.
    replace (Z.pos mq * 2 ^ k * Z.pos my) with (Z.pos mq * Z.pos my * 2 ^ k) by ring.
    rewrite F2R_shift by exact Hk. f_equal. unfold k. lia. }
  assert (E2 : F2R (Z.pos mx) ex = F2R M (ex - 53)).
  { unfold M. rewrite F2R_shift by lia. f_equal. lia. }
  rewrite E1, E2, <- F2R_minus.
  assert (Hb1 : 2 ^ 52 * (N - M) <= N) by lia.
  assert (Hb2 : - N <= 2 ^ 52 * (N - M)) by lia.
  assert (L1 : (F2R (2 ^ 52 * (N - M)) (ex - 53) <= F2R N (ex - 53))%R)
    by (apply F2R_le; assumption).
  assert (L2 : (F2R (- N) (ex - 53) <= F2R (2 ^ 52 * (N - M)) (ex - 53))%R)
    by (apply F2R_le; assumption).
  unfold F2R in *. rewrite mult_IZR in L1, L2. rewrite opp_IZR in L2.
  change (2 ^ 52) with 4503599627370496 in L1, L2.
  lra.
Qed.

(** Multiplication of normal numbers is accurate to [2^-52] of the
    result. *)
Lemma SFmul_value (mx my : positive) (ex ey : Z) :
  2 ^ 52 <= Z.pos mx < 2 ^ 53 -> 2 ^ 52 <= Z.pos my < 2 ^ 53 ->
  -400 <= ex + ey <= 400 ->
  exists mp ep,
    SFmul 53 1024 (S754_finite false mx ex) (S754_finite false my ey)
    = S754_finite false mp ep
    /\ 2 ^ 52 <= Z.pos mp < 2 ^ 53
    /\ ex + ey + 52 <= ep <= ex + ey + 54
    /\ (- (F2R (Z.pos mp) ep / 2 ^ 52)
        <= F2R (Z.pos mp) ep - F2R (Z.pos mx) ex * F2R (Z.pos my) ey
        <= F2R (Z.pos mp) ep / 2 ^ 52)%R.
Proof.
  intros Hx Hy He.
  destruct (SFmul_bounds mx my ex ey Hx Hy He) as (mp & ep & H & Hm & Hep & Hb).
  exists mp, ep. split; [exact H|]. split; [exact Hm|]. split; [exact Hep|].
  set (k := ep - (ex + ey)) in *.
  assert (Hk : 0 <= k) by (unfold k; lia).
  set (N := Z.pos mp * 2 ^ k) in *.
  set (M := Z.pos mx * Z.pos my) in *.
  assert (E1 : F2R (Z.pos mp) ep = F2R N (ex + ey)).
  { unfold N. rewrite F2R_shift by exact Hk. f_equal. unfold k. lia. }
  rewrite F2R_mul. fold M. rewrite E1, <- F2R_minus.
  assert (Hb1 : 2 ^ 52 * (N - M) <= N) by lia.
  assert (Hb2 : - N <= 2 ^ 52 * (N - M)) by lia.
  assert (L1 : (F2R (2 ^ 52 * (N - M)) (ex + ey) <= F2R N (ex + ey))%R)
    by (apply F2R_le; assumption).
  assert (L2 : (F2R (- N) (ex + ey) <= F2R (2 ^ 52 * (N - M)) (ex + ey))%R)
    by (apply F2R_le; assumption).
  unfold F2R in *. rewrite mult_IZR in L1, L2. rewrite opp_IZR in L2.
  change (2 ^ 52) with 4503599627370496 in L1, L2.
  lra.
Qed.

(** The number of tenths printed is within one half of ten times the
    value. *)
Lemma tenths_value (m : positive) (e : Z) :
  0 <= PyFloat.tenths m e
  /\ (- (1 / 2) <= IZR (PyFloat.tenths m e) - 10 * F2R (Z.pos m) e <= 1 / 2)%R.
Proof.
  destruct (tenths_nearest m e) as [Hpos Hb]. split; [exact Hpos|].
  cbv zeta in Hb. apply Z.abs_le in Hb. destruct Hb as [Hb1 Hb2].
  set (t := PyFloat.tenths m e) in *.
  set (den := 2 ^ Z.max (- e) 0) in *.
  assert (Pd : 0 < den) by (apply Z.pow_pos_nonneg; lia).
  assert (E : (F2R (Z.pos m) e * IZR den)%R = IZR (Z.pos m * 2 ^ Z.max e 0)).
  { rewrite <- (F2R_0 den), F2R_mul. unfold den.
    rewrite F2R_shift by lia. rewrite Z.add_0_r.
    rewrite <- (F2R_0 (Z.pos m * 2 ^ Z.max e 0)), F2R_shift by lia.
    f_equal. lia. }
  apply IZR_le in Hb1, Hb2.
  rewrite ?mult_IZR, ?minus_IZR, ?mult_IZR in Hb1, Hb2. rewrite opp_IZR in Hb1.
  rewrite mult_IZR in E.
  assert (Pd' : (0 < IZR den)%R) by (apply IZR_lt; exact Pd).
  set (v := F2R (Z.pos m) e) in *.
  set (D := IZR den) in *.
  set (T := IZR t) in *.
  assert (Hb1' : (- D <= 2 * (T * D - 10 * (v * D)))%R) by (rewrite E; lra).
  assert (Hb2' : (2 * (T * D - 10 * (v * D)) <= D)%R) by (rewrite E; lra).
  split; nra.
Qed.

Local Close Scope Z_scope.

(** ** Resolution rate *)

Lemma rate_string_zero (resolved_count : nat) : rate_string resolved_count 0 = "0%".
Proof. reflexivity. Qed.

Lemma rate_string_positive (resolved_count business_count : nat) :
  (0 < business_count)%nat ->
  rate_string resolved_count business_count
  = (PyFloat.format_1f (rate_value resolved_count business_count) ++ "%")%string.
Proof.
  intros H. unfold rate_string.
  destruct (0 <? business_count)%nat eqn:E; [reflexivity|].
  apply Nat.ltb_ge in E. lia.
Qed.

Lemma format_1f_tenths (resolved_count business_count : nat) (t : Z) :
  rate_tenths resolved_count business_count = Some t ->
  PyFloat.format_1f (rate_value resolved_count business_count)
  = PyFloat.render_tenths t.
Proof.
  unfold rate_tenths, PyFloat.format_1f.
  destruct (Prim2SF (rate_value resolved_count business_count)) as [[]|[]| |[] m e];
    try discriminate; intros H; injection H as <-; reflexivity.
Qed.

(** Every business fact is counted as resolved or as unresolved. *)
Lemma resolve_loop_counts (db : Store.Database) (facts : list (string * PyVal)) :
  forall acc acc',
  resolve_loop db facts acc = Ok acc' ->
  (t_resolved acc + t_unresolved acc = t_business acc)%nat ->
  (t_resolved acc' + t_unresolved acc' = t_business acc')%nat.
Proof.
  induction facts as [|[name fact_data] facts IH]; intros acc acc' H Hinv;
    cbn [resolve_loop] in H.
  - injection H as <-. exact Hinv.
  - destruct (existsb (String.eqb name) structural_elements); [eauto|].
    destruct (is_business_concept name fact_data) as [business|e];
      cbn [bind] in H; [|discriminate].
    destruct business; cbn [negb] in H; [|eauto].
    destruct (PyStr.contains ":" name); cbn [negb] in H; [|eauto].
    apply (IH _ _ H). unfold resolve_fact.
    destruct (returned (resolve_concept_from_dmp db (t_cache acc) name));
      cbn [t_resolved t_unresolved t_business]; lia.
Qed.

Local Open Scope Z_scope.

(** *** The rate in binary64 *)

Lemma of_nat_zero : Prim2SF (PyFloat.of_nat 0) = S754_zero false.
Proof. unfold PyFloat.of_nat. rewrite of_uint63_spec, of_Z_spec. reflexivity. Qed.

(** The rate of [r] resolved among [b] business facts, [b] below [2^53]:
    the number printed is a number [t] of tenths between 0 and 1000 with
    [|t/10 - 100 r/b| <= (1 + 2^-38) / 20]. *)
Lemma rate_tenths_near (r b : nat) :
  (r <= b)%nat -> 0 < Z.of_nat b < 2 ^ 53 ->
  exists t,
    rate_tenths r b = Some t
    /\ 0 <= t <= 1000
    /\ 2 ^ 38 * Z.abs (2 * (t * Z.of_nat b - 1000 * Z.of_nat r))
       <= (2 ^ 38 + 1) * Z.of_nat b.
Proof.
  intros Hrb Hb. unfold rate_tenths, rate_value.
  rewrite FloatAxioms.mul_spec, FloatAxioms.div_spec. unfold SF64mul, SF64div, prec, emax.
  destruct (of_nat_value b Hb) as (my & ey & -> & Hmy & Hey & Vy).
  destruct (of_nat_value 100 ltac:(cbn; lia)) as (mh & eh & -> & Hmh & Heh & Vh).
  destruct r as [|r'].
  - rewrite of_nat_zero. cbn [SFdiv SFmul xorb].
    exists 0. split; [reflexivity|]. split; [lia|].
    change (Z.of_nat 0) with 0. lia.
  - set (r := S r') in *.
    destruct (of_nat_value r ltac:(unfold r in *; lia)) as (mx & ex & -> & Hmx & Hex & Vx).
    destruct (SFdiv_value mx my ex ey Hmx Hmy ltac:(lia))
      as (mq & eq & -> & Hmq & Heq & Vq).
    destruct (SFmul_value mq mh eq eh Hmq Hmh ltac:(lia))
      as (mp & ep & -> & Hmp & Hep & Vp).
    destruct (tenths_value mp ep) as [Ht0 Vt].
    exists (PyFloat.tenths mp ep). split; [reflexivity|].
    set (t := PyFloat.tenths mp ep) in *.
    rewrite Vx, Vy in Vq. rewrite Vh in Vp.
    pose proof (F2R_pos mq eq) as Pq. pose proof (F2R_pos mp ep) as Pp.
    set (vq := F2R (Z.pos mq) eq) in *. set (vp := F2R (Z.pos mp) ep) in *.
    assert (PB : (0 < IZR (Z.of_nat b))%R) by (apply IZR_lt; lia).
    assert (PR : (0 < IZR (Z.of_nat r) <= IZR (Z.of_nat b))%R).
    { split; [apply IZR_lt; unfold r; lia|apply IZR_le; lia]. }
    set (B := IZR (Z.of_nat b)) in *. set (R_ := IZR (Z.of_nat r)) in *.
    set (T := IZR t) in *.
    change (IZR (Z.of_nat 100)) with 100%R in Vp.
    assert (Vp1 : (vp * B - 100 * (vq * B) <= vp * B / 2 ^ 52)%R) by nra.
    assert (Vp2 : (- (vp * B / 2 ^ 52) <= vp * B - 100 * (vq * B))%R) by nra.
    assert (Vt1 : (T * B - 10 * (vp * B) <= B / 2)%R) by nra.
    assert (Vt2 : (- (B / 2) <= T * B - 10 * (vp * B))%R) by nra.
    set (w := (vq * B)%R) in *. set (u := (vp * B)%R) in *. set (s := (T * B)%R) in *.
    assert (Near : (- (B / 2 + B / 2 ^ 39) <= s - 1000 * R_ <= B / 2 + B / 2 ^ 39)%R)
      by (split; lra).
    assert (Hs : s = IZR (t * Z.of_nat b)) by (unfold s, T, B; rewrite mult_IZR; reflexivity).
    split.
    + split; [exact Ht0|].
      destruct (Z_le_gt_dec t 1000) as [|Hgt]; [assumption|exfalso].
      assert ((1001 <= T)%R) by (apply IZR_le; lia).
      assert ((1001 * B <= s)%R) by (unfold s; nra).
      lra.
    + assert (G1 : 2 ^ 38 * (2 * (t * Z.of_nat b - 1000 * Z.of_nat r))
                   <= (2 ^ 38 + 1) * Z.of_nat b).
      { apply le_IZR. change (2 ^ 38) with 274877906944.
        rewrite !mult_IZR, minus_IZR, !mult_IZR, plus_IZR.
        fold B R_ T. fold s. lra. }
      assert (G2 : - ((2 ^ 38 + 1) * Z.of_nat b)
                   <= 2 ^ 38 * (2 * (t * Z.of_nat b - 1000 * Z.of_nat r))).
      { apply le_IZR. change (2 ^ 38) with 274877906944.
        rewrite opp_IZR, !mult_IZR, minus_IZR, !mult_IZR, plus_IZR.
        fold B R_ T. fold s. lra. }
      lia.
Qed.

(** Below [2^38] business facts the number printed is exactly a tenth
    nearest to the quotient. *)
Lemma near_is_nearest (t : Z) (r b : nat) :
  0 <= t -> Z.of_nat b < 2 ^ 38 ->
  2 ^ 38 * Z.abs (2 * (t * Z.of_nat b - 1000 * Z.of_nat r))
  <= (2 ^ 38 + 1) * Z.of_nat b ->
  nearest_tenth t r b = true.
Proof.
  intros Ht Hb H. unfold nearest_tenth.
  apply andb_true_intro. split; [apply Z.leb_le; exact Ht|].
  apply Z.leb_le. lia.
Qed.

Local Close Scope Z_scope.

(** The business facts are among the facts given. *)
Lemma resolve_loop_business_le (db : Store.Database) (facts : list (string * PyVal)) :
  forall acc acc',
  resolve_loop db facts acc = Ok acc' ->
  (t_business acc' <= t_business acc + List.length facts)%nat.
Proof.
  induction facts as [|[name fact_data] facts IH]; intros acc acc' H;
    cbn [resolve_loop] in H; cbn [List.length].
  - injection H as <-. lia.
  - assert (Hskip : resolve_loop db facts acc = Ok acc' ->
                    (t_business acc' <= t_business acc + S (List.length facts))%nat).
    { intros H'. specialize (IH _ _ H'). lia. }
    destruct (existsb (String.eqb name) structural_elements); [exact (Hskip H)|].
    destruct (is_business_concept name fact_data) as [business|e];
      cbn [bind] in H; [|discriminate].
    destruct business; cbn [negb] in H; [|exact (Hskip H)].
    destruct (PyStr.contains ":" name); cbn [negb] in H; [|exact (Hskip H)].
    specialize (IH _ _ H). revert IH. unfold resolve_fact.
    destruct (returned (resolve_concept_from_dmp db (t_cache acc) name));
      cbn [t_business]; lia.
Qed.

(** C4. The rate reported by a resolution run is the text [0%] when
    there is no business fact.  Otherwise it is [f"{x:.1f}%"] of the
    quotient of the resolved facts by the business facts, times 100, in
    binary64.  The business facts are never more than the facts given,
    and with fewer than [2^53] of them, the counts a binary64 number
    holds exactly, the rate is a number [t] of tenths between 0 and 1000,
    printed with digits, a dot and exactly one digit before the percent
    sign, and [t/10] differs from the exact [100 * resolved / business]
    by at most [(1 + 2^-38) / 20]; below [2^38] business facts [t] is a
    tenth nearest to the exact quotient. *)
Theorem resolution_rate_one_decimal (db : Store.Database)
  (cache : gmap string Concept) (facts : list (string * PyVal))
  (results : Results) (cache' : gmap string Concept) :
  _resolve_concepts_in_dmp db cache facts = Ok (results, cache') ->
  let r := resolved_facts results in
  let b := business_facts results in
  (r + unresolved_facts results = b)%nat
  /\ (b <= List.length facts)%nat
  /\ (b = 0%nat -> resolution_rate results = "0%")
  /\ ((0 < b)%nat ->
      resolution_rate results = (PyFloat.format_1f (rate_value r b) ++ "%")%string
      /\ ((Z.of_nat b < 2 ^ 53)%Z ->
          exists t whole d,
            resolution_rate results = (PyFloat.render_tenths t ++ "%")%string
            /\ resolution_rate results
               = (whole ++ "." ++ String d EmptyString ++ "%")%string
            /\ PyNum.all_digits whole = true /\ whole <> EmptyString
            /\ PyNum.is_digit d = true
            /\ (0 <= t <= 1000)%Z
            /\ (2 ^ 38 * Z.abs (2 * (t * Z.of_nat b - 1000 * Z.of_nat r))
                <= (2 ^ 38 + 1) * Z.of_nat b)%Z
            /\ ((Z.of_nat b < 2 ^ 38)%Z -> nearest_tenth t r b = true))).
Proof.
  unfold _resolve_concepts_in_dmp, bind.
  destruct (resolve_loop db facts _) as [acc|e] eqn:Hloop; [|discriminate].
  intros H. injection H as <- <-. cbn [resolved_facts business_facts
    unresolved_facts resolution_rate].
  assert (Hcount : (t_resolved acc + t_unresolved acc = t_business acc)%nat).
  { apply (resolve_loop_counts _ _ _ _ Hloop). reflexivity. }
  assert (Hle : (t_business acc <= List.length facts)%nat).
  { apply (resolve_loop_business_le _ _ _ _ Hloop). }
  split; [exact Hcount|]. split; [exact Hle|]. split.
  - intros ->. apply rate_string_zero.
  - intros Hb. rewrite (rate_string_positive _ _ Hb).
    split; [reflexivity|]. intros Hsmall.
    destruct (rate_tenths_near (t_resolved acc) (t_business acc))
      as (t & Ht & Hrange & Hnear); [lia|lia|].
    destruct (render_tenths_shape t (proj1 Hrange)) as (whole & d & Hsh & Ha & Hn & Hd).
    exists t, whole, d.
    rewrite (format_1f_tenths _ _ _ Ht).
    split; [reflexivity|]. split.
    { rewrite Hsh, !string_app_assoc. reflexivity. }
    split; [exact Ha|]. split; [exact Hn|]. split; [exact Hd|].
    split; [exact Hrange|]. split; [exact Hnear|].
    intros Hb38. apply near_is_nearest; [exact (proj1 Hrange)|exact Hb38|exact Hnear].
Qed.

Lemma resolution_rate_one_decimal_witness :
  match _resolve_concepts_in_dmp sample_db ∅ sample_facts with
  | Ok (results, _) =>
      (business_facts results, resolved_facts results, resolution_rate results)
      = (3%nat, 2%nat, "66.7%")
      /\ (resolved_facts results + unresolved_facts results
          = business_facts results)%nat
      /\ exists t,
           resolution_rate results = (PyFloat.render_tenths t ++ "%")%string
           /\ nearest_tenth t (resolved_facts results) (business_facts results) = true
  | Raise _ => False
  end.
Proof.
  assert (Hv : match _resolve_concepts_in_dmp sample_db ∅ sample_facts with
               | Ok (results, _) =>
                   Some (business_facts results, resolved_facts results,
                         resolution_rate results)
               | Raise _ => None
               end = Some (3%nat, 2%nat, "66.7%")).
  { vm_compute. reflexivity. }
  destruct (_resolve_concepts_in_dmp sample_db ∅ sample_facts)
    as [[results cache']|e] eqn:H; [|discriminate Hv].
  destruct (resolution_rate_one_decimal sample_db ∅ sample_facts results cache' H)
    as (Hcount & _ & _ & Hrate).
  injection Hv as Hb Hr Hs.
  split; [rewrite Hb, Hr, Hs; reflexivity|]. split; [exact Hcount|].
  destruct Hrate as [_ Hrate]; [rewrite Hb; lia|].
  destruct Hrate as (t & whole & d & Ht & _ & _ & _ & _ & _ & _ & Hnearest);
    [rewrite Hb; vm_compute; reflexivity|].
  exists t. split; [exact Ht|]. apply Hnearest. rewrite Hb. vm_compute. reflexivity.
Defined.

Example rate_samples :
  map (fun rb => rate_string (fst rb) (snd rb))
    [(0, 0); (0, 5); (1, 3); (2, 3); (1, 1); (1, 8); (1, 16); (1, 80); (1, 2000);
     (199, 200)]%nat
  = ["0%"; "0.0%"; "33.3%"; "66.7%"; "100.0%"; "12.5%"; "6.2%"; "1.2%"; "0.1%";
     "99.5%"].
Proof. vm_compute. reflexivity. Qed.

(** ** Result synthesis *)

Lemma determine_status_cases (n_errors n_warnings : nat) (resolution_rate : float) :
  ((0 < n_errors)%nat ->
   fst (determine_status n_errors n_warnings resolution_rate) = "VALIDATION_FAILED")
  /\ (n_errors = 0%nat -> (0 < n_warnings)%nat ->
      fst (determine_status n_errors n_warnings resolution_rate)
      = "VALIDATION_WARNINGS")
  /\ (n_errors = 0%nat -> n_warnings = 0%nat ->
      fst (determine_status n_errors n_warnings resolution_rate)
      = rate_band resolution_rate).
Proof.
  unfold determine_status, rate_band. repeat split.
  - intros H. destruct (0 <? n_errors)%nat eqn:E; [reflexivity|].
    apply Nat.ltb_ge in E. lia.
  - intros -> H. change (0 <? 0)%nat with false. cbv iota.
    destruct (0 <? n_warnings)%nat eqn:E; [reflexivity|].
    apply Nat.ltb_ge in E. lia.
  - intros -> ->. change (0 <? 0)%nat with false. cbv iota.
    repeat match goal with
           | |- context [if ?b then _ else _] => destruct b; try reflexivity
           end.
Qed.

Lemma determine_status_in_statuses (n_errors n_warnings : nat)
  (resolution_rate : float) :
  In (fst (determine_status n_errors n_warnings resolution_rate)) statuses.
Proof.
  unfold determine_status, statuses.
  repeat match goal with
         | |- context [if ?b then _ else _] => destruct b
         end; simpl; auto 10.
Qed.

(** The issues made from the validator's diagnostics carry the severity
    they were made with. *)
Lemma arelle_issues_count (type severity default_message sev : string)
  (items : list PyVal) :
  forall issues,
  arelle_issues type severity default_message items = Ok issues ->
  count_with_severity sev issues
  = Ok (if String.eqb severity sev then List.length issues else 0%nat).
Proof.
  induction items as [|item items IH]; intros issues H; cbn [arelle_issues] in H.
  - injection H as <-. destruct (String.eqb severity sev); reflexivity.
  - bind_ok H. bind_ok H. injection H as <-.
    unfold arelle_issue in E.
    bind_ok E. bind_ok E. bind_ok E. bind_ok E. injection E as <-.
    cbn [count_with_severity Py.get Dict.get String.eqb Ascii.eqb Bool.eqb bind].
    rewrite (IH _ eq_refl). cbn [bind Py.eq_str List.length].
    destruct (String.eqb severity sev); reflexivity.
Qed.

Lemma count_with_severity_app (sev : string) (a b : list PyVal) (na nb : nat) :
  count_with_severity sev a = Ok na ->
  count_with_severity sev b = Ok nb ->
  count_with_severity sev (a ++ b) = Ok (na + nb)%nat.
Proof.
  revert na. induction a as [|x a IH]; intros na Ha Hb.
  - injection Ha as <-. exact Hb.
  - cbn [count_with_severity] in Ha. bind_ok Ha. bind_ok Ha. injection Ha as <-.
    cbn [app count_with_severity]. rewrite E. cbn [bind].
    rewrite (IH _ eq_refl Hb). cbn [bind].
    destruct (Py.eq_str a0 sev); reflexivity.
Qed.

Lemma extract_dmp_counts (dmp_validation : PyVal) (results : list PyVal)
  (n_errors n_warnings : nat) :
  extract_dmp dmp_validation = Ok (results, n_errors, n_warnings) ->
  count_with_severity "error" results = Ok n_errors
  /\ count_with_severity "warning" results = Ok n_warnings.
Proof.
  unfold extract_dmp. intros H.
  destruct dmp_validation as [| | | | |entries];
    try (injection H as <- <- <-; split; reflexivity).
  destruct (Dict.get "validation_results" entries) as [v|];
    [|injection H as <- <- <-; split; reflexivity].
  bind_ok H. bind_ok H. bind_ok H. injection H as <- <- <-. auto.
Qed.

Lemma extract_arelle_counts (arelle_results : PyVal)
  (error_issues warning_issues : list PyVal) :
  extract_arelle arelle_results = Ok (error_issues, warning_issues) ->
  count_with_severity "error" error_issues = Ok (List.length error_issues)
  /\ count_with_severity "warning" error_issues = Ok 0%nat
  /\ count_with_severity "error" warning_issues = Ok 0%nat
  /\ count_with_severity "warning" warning_issues = Ok (List.length warning_issues).
Proof.
  unfold extract_arelle. intros H.
  destruct arelle_results as [| | | | |entries];
    try (injection H as <- <-; repeat split; reflexivity).
  destruct (match Dict.get "status" entries with
            | Some v => Py.eq_str v "completed"
            | None => false
            end); [|injection H as <- <-; repeat split; reflexivity].
  bind_ok H. bind_ok H. bind_ok H. bind_ok H. injection H as <- <-.
  repeat split.
  - apply (arelle_issues_count _ "error" _ "error" _ _ E0).
  - apply (arelle_issues_count _ "error" _ "warning" _ _ E0).
  - apply (arelle_issues_count _ "warning" _ "error" _ _ E2).
  - apply (arelle_issues_count _ "warning" _ "warning" _ _ E2).
Qed.

(** A report, taken apart. *)
Lemma synthesize_parts (py_float : string -> result float)
  (stages : list (string * PyVal)) (report : Report) :
  _synthesize_results py_float stages = Ok report ->
  exists error_issues warning_issues dmp_results dmp_errors dmp_warnings rate,
    extract_arelle (stage stages "arelle_validation")
    = Ok (error_issues, warning_issues)
    /\ extract_dmp (stage stages "dmp_validation")
       = Ok (dmp_results, dmp_errors, dmp_warnings)
    /\ parse_resolution_rate py_float (stage stages "dmp_concept_resolution") = Ok rate
    /\ stage_summary report = summarize stages []
    /\ validation_results report = error_issues ++ warning_issues ++ dmp_results
    /\ total_errors report = (List.length error_issues + dmp_errors)%nat
    /\ total_warnings report = (List.length warning_issues + dmp_warnings)%nat
    /\ overall_status report
       = fst (determine_status (total_errors report) (total_warnings report) rate).
Proof.
  unfold _synthesize_results. intros H.
  bind_ok H. destruct a as [error_issues warning_issues].
  bind_ok H. destruct a as [[dmp_results dmp_errors] dmp_warnings].
  bind_ok H.
  destruct (determine_status (List.length error_issues + dmp_errors)
              (List.length warning_issues + dmp_warnings) a) as [overall advice] eqn:Hs.
  bind_ok H. bind_ok H. bind_ok H. bind_ok H. injection H as <-.
  exists error_issues, warning_issues, dmp_results, dmp_errors, dmp_warnings, a.
  cbn [stage_summary validation_results total_errors total_warnings overall_status].
  rewrite Hs. repeat split; reflexivity.
Qed.

(** C2. In every synthesized report the status follows a strict
    precedence.  A positive count of merged errors gives the failed
    status; otherwise a positive count of warnings gives the warnings
    status; otherwise the status depends on the resolution rate alone:
    EXCELLENT from 90, VERY_GOOD from 75, GOOD from 60, PARTIAL from 40,
    POOR below.  The two counts are those of the merged results with
    severity error and warning. *)
Theorem overall_status_precedence (py_float : string -> result float)
  (stages : list (string * PyVal)) (report : Report) :
  _synthesize_results py_float stages = Ok report ->
  count_with_severity "error" (validation_results report) = Ok (total_errors report)
  /\ count_with_severity "warning" (validation_results report)
     = Ok (total_warnings report)
  /\ ((0 < total_errors report)%nat -> overall_status report = "VALIDATION_FAILED")
  /\ (total_errors report = 0%nat -> (0 < total_warnings report)%nat ->
      overall_status report = "VALIDATION_WARNINGS")
  /\ exists rate,
       parse_resolution_rate py_float (stage stages "dmp_concept_resolution") = Ok rate
       /\ (total_errors report = 0%nat -> total_warnings report = 0%nat ->
           overall_status report = rate_band rate
           /\ ((90 <=? rate)%float = true -> overall_status report = "EXCELLENT")
           /\ ((90 <=? rate)%float = false -> (75 <=? rate)%float = true ->
               overall_status report = "VERY_GOOD")
           /\ ((90 <=? rate)%float = false -> (75 <=? rate)%float = false ->
               (60 <=? rate)%float = true -> overall_status report = "GOOD")
           /\ ((90 <=? rate)%float = false -> (75 <=? rate)%float = false ->
               (60 <=? rate)%float = false -> (40 <=? rate)%float = true ->
               overall_status report = "PARTIAL")
           /\ ((90 <=? rate)%float = false -> (75 <=? rate)%float = false ->
               (60 <=? rate)%float = false -> (40 <=? rate)%float = false ->
               overall_status report = "POOR")).
Proof.
  intros H.
  destruct (synthesize_parts _ _ _ H)
    as (ei & wi & dr & ne & nw & rate & Ha & Hd & Hp & _ & Hv & He & Hw & Ho).
  destruct (extract_arelle_counts _ _ _ Ha) as (A1 & A2 & A3 & A4).
  destruct (extract_dmp_counts _ _ _ _ Hd) as (D1 & D2).
  destruct (determine_status_cases (total_errors report) (total_warnings report) rate)
    as (S1 & S2 & S3).
  split.
  { rewrite Hv, He.
    rewrite (count_with_severity_app "error" ei (wi ++ dr) (List.length ei) (0 + ne) A1).
    - reflexivity.
    - apply count_with_severity_app; assumption. }
  split.
  { rewrite Hv, Hw.
    rewrite (count_with_severity_app "warning" ei (wi ++ dr) 0 (List.length wi + nw) A2).
    - reflexivity.
    - apply count_with_severity_app; assumption. }
  split; [intros G; rewrite Ho; apply S1; exact G|].
  split; [intros G1 G2; rewrite Ho; apply S2; assumption|].
  exists rate. split; [exact Hp|].
  intros G1 G2. rewrite Ho, (S3 G1 G2). unfold rate_band.
  split; [reflexivity|].
  repeat split; intros;
    repeat match goal with
           | E : (_ <=? rate)%float = _ |- _ => rewrite E; clear E
           end; reflexivity.
Qed.

Lemma overall_status_precedence_witness :
  exists report,
    _synthesize_results PyFloatRead.float_of_decimal sample_stages = Ok report
    /\ count_with_severity "error" (validation_results report)
       = Ok (total_errors report)
    /\ total_errors report = 0%nat /\ total_warnings report = 0%nat
    /\ overall_status report = "EXCELLENT".
Proof.
  destruct (_synthesize_results PyFloatRead.float_of_decimal sample_stages)
    as [report|e] eqn:H.
  - exists report. split; [reflexivity|].
    split; [exact (proj1 (overall_status_precedence _ _ _ H))|].
    vm_compute in H. injection H as <-. repeat split.
  - vm_compute in H. discriminate.
Defined.

Example status_samples :
  map (fun x => fst (determine_status (fst (fst x)) (snd (fst x)) (snd x)))
    [(3%nat, 5%nat, 100%float); (0%nat, 5%nat, 100%float);
     (0%nat, 0%nat, 90%float); (0%nat, 0%nat, 89.5%float);
     (0%nat, 0%nat, 75%float); (0%nat, 0%nat, 60%float);
     (0%nat, 0%nat, 59.5%float); (0%nat, 0%nat, 40%float);
     (0%nat, 0%nat, 39.5%float); (0%nat, 0%nat, 0%float)]
  = ["VALIDATION_FAILED"; "VALIDATION_WARNINGS"; "EXCELLENT"; "VERY_GOOD"; "VERY_GOOD";
     "GOOD"; "PARTIAL"; "PARTIAL"; "POOR"; "POOR"].
Proof. vm_compute. reflexivity. Qed.

(** ** Time-out of the external validator *)

Lemma dict_get_set_eq {V : Type} (k : string) (v : V) (d : list (string * V)) :
  Dict.get k (Dict.set k v d) = Some v.
Proof.
  induction d as [|[k0 v0] d IH]; simpl.
  - rewrite String.eqb_refl. reflexivity.
  - destruct (String.eqb k k0) eqn:E; simpl; rewrite E; [reflexivity|exact IH].
Qed.

Lemma dict_get_set_ne {V : Type} (k k' : string) (v : V) (d : list (string * V)) :
  k <> k' -> Dict.get k' (Dict.set k v d) = Dict.get k' d.
Proof.
  intros Hne. induction d as [|[k0 v0] d IH]; simpl.
  - destruct (String.eqb k' k) eqn:E; [|reflexivity].
    apply String.eqb_eq in E. congruence.
  - destruct (String.eqb k k0) eqn:E; simpl.
    + apply String.eqb_eq in E. subst k0.
      destruct (String.eqb k' k) eqn:E'; [|reflexivity].
      apply String.eqb_eq in E'. congruence.
    + destruct (String.eqb k' k0); [reflexivity|exact IH].
Qed.

Lemma stage_set_eq (k : string) (v : PyVal) (stages : list (string * PyVal)) :
  stage (Dict.set k v stages) k = v.
Proof. unfold stage. rewrite dict_get_set_eq. reflexivity. Qed.

Lemma stage_set_ne (k k' : string) (v : PyVal) (stages : list (string * PyVal)) :
  k <> k' -> stage (Dict.set k v stages) k' = stage stages k'.
Proof. intros H. unfold stage. rewrite dict_get_set_ne by exact H. reflexivity. Qed.

Lemma dict_set_keys {V : Type} (k : string) (v : V) (d : list (string * V)) :
  Dict.keys (Dict.set k v d)
  = if Dict.mem k d then Dict.keys d else Dict.keys d ++ [k].
Proof.
  unfold Dict.keys, Dict.mem. induction d as [|[k0 v0] d IH]; simpl; [reflexivity|].
  destruct (String.eqb k k0) eqn:E; simpl; [reflexivity|].
  rewrite IH. destruct (Dict.get k d); reflexivity.
Qed.

Lemma dict_get_none_notin {V : Type} (k : string) (d : list (string * V)) :
  Dict.get k d = None -> ~ In k (Dict.keys d).
Proof.
  unfold Dict.keys. induction d as [|[k0 v0] d IH]; simpl; [tauto|].
  destruct (String.eqb k k0) eqn:E; [discriminate|].
  intros H [->|Hin]; [rewrite String.eqb_refl in E; discriminate|].
  exact (IH H Hin).
Qed.

Lemma dict_set_nodup {V : Type} (k : string) (v : V) (d : list (string * V)) :
  List.NoDup (Dict.keys d) -> List.NoDup (Dict.keys (Dict.set k v d)).
Proof.
  intros H. rewrite dict_set_keys. unfold Dict.mem.
  destruct (Dict.get k d) eqn:E; [exact H|].
  apply dict_get_none_notin in E. revert H E.
  generalize (Dict.keys d) as l. clear.
  induction l as [|x l IH]; intros Hnd Hk; simpl.
  - apply List.NoDup_cons; [intros []|apply List.NoDup_nil].
  - apply List.NoDup_cons_iff in Hnd as [Hx Hnd].
    apply List.NoDup_cons_iff. split.
    + intros Hin. apply in_app_or in Hin as [Hin|[<-|[]]]; [exact (Hx Hin)|].
      apply Hk. left. reflexivity.
    + apply IH; [exact Hnd|]. intros Hin. apply Hk. right. exact Hin.
Qed.

Lemma summarize_get_notin (stages : list (string * PyVal)) :
  forall summary k,
  ~ In k (Dict.keys stages) ->
  Dict.get k (summarize stages summary) = Dict.get k summary.
Proof.
  induction stages as [|[name data] stages IH]; intros summary k Hk; [reflexivity|].
  assert (Hne : name <> k) by (intros ->; apply Hk; left; reflexivity).
  assert (Hrest : ~ In k (Dict.keys stages)) by (intros Hin; apply Hk; right; exact Hin).
  destruct data; cbn [summarize]; rewrite (IH _ _ Hrest); try reflexivity.
  apply dict_get_set_ne. exact Hne.
Qed.

(** The summary gives, for a stage that is a dictionary, its status. *)
Lemma summarize_get_in (stages : list (string * PyVal)) :
  forall summary k entries,
  List.NoDup (Dict.keys stages) ->
  In (k, VDict entries) stages ->
  Dict.get k (summarize stages summary)
  = Some (match Dict.get "status" entries with
          | Some v => v
          | None => VStr "unknown"
          end).
Proof.
  induction stages as [|[name data] stages IH]; intros summary k entries Hnd Hin;
    [destruct Hin|].
  cbn [Dict.keys map fst] in Hnd. apply List.NoDup_cons_iff in Hnd as [Hnotin Hnd].
  destruct Hin as [E|Hin].
  - injection E as -> ->. cbn [summarize].
    rewrite (summarize_get_notin _ _ _ Hnotin). apply dict_get_set_eq.
  - destruct data; cbn [summarize]; apply IH; assumption.
Qed.

Lemma validate_with_arelle_timeout (re : Arelle.Patterns) (w : Arelle.World)
  (xbrl_path taxonomy_path entry_point : string) :
  Arelle.arelle_available w = true ->
  Arelle.processed_taxonomy w = inl entry_point ->
  Arelle.cached_result w = None ->
  Arelle.run w = Arelle.TimedOut ->
  Arelle.validate_with_arelle re w xbrl_path taxonomy_path
  = timeout_result xbrl_path taxonomy_path entry_point.
Proof.
  intros Ha Hp Hc Hr. unfold Arelle.validate_with_arelle.
  rewrite Ha, Hp, Hc, Hr. reflexivity.
Qed.

(** C8, as stated, fails: with a validator that times out the run ends
    with a report that holds no issue at all, so not one error issue for
    the time-out; its status is the one of the resolution rate. *)
Lemma timeout_leaves_no_issue :
  exists stages report,
    finish_validation PyFloatRead.float_of_decimal no_patterns true timeout_world
      "instance.xbrl" "taxonomy.zip" stages_without_dictionary
    = Finished stages report
    /\ validation_results report = []
    /\ timeout_errors report = []
    /\ List.length (timeout_errors report) <> 1%nat
    /\ total_errors report = 0%nat
    /\ overall_status report = "POOR".
Proof.
  eexists. eexists. split; [vm_compute; reflexivity|].
  repeat split. discriminate.
Qed.

(** C8, amended. When the external validator times out, the adapter
    answers with status timeout and an error text, without a list of
    errors.  If the run with the validator skipped ends with a report, so
    does the run with the time-out: its stage summary shows the stage as
    timeout, and its issues, counts and status are those of the run with
    the validator skipped; the issues are the ones of the dictionary
    validation alone, and the status is one of the seven statuses. *)
Theorem timeout_reported_as_skipped (py_float : string -> result float)
  (re : Arelle.Patterns) (w : Arelle.World)
  (xbrl_path taxonomy_path entry_point : string)
  (stages : list (string * PyVal)) (report0 : Report) :
  Arelle.arelle_available w = true ->
  Arelle.processed_taxonomy w = inl entry_point ->
  Arelle.cached_result w = None ->
  Arelle.run w = Arelle.TimedOut ->
  List.NoDup (Dict.keys stages) ->
  _synthesize_results py_float (Dict.set "arelle_validation" skipped_stage stages)
  = Ok report0 ->
  let adapter := Arelle.validate_with_arelle re w xbrl_path taxonomy_path in
  Dict.get "status" adapter = Some (VStr "timeout")
  /\ Dict.get "error" adapter
     = Some (VStr "Arelle validation timed out after 120 seconds")
  /\ Dict.get "errors" adapter = None
  /\ exists stages' report,
       finish_validation py_float re true w xbrl_path taxonomy_path stages
       = Finished stages' report
       /\ Dict.get "arelle_validation" (stage_summary report) = Some (VStr "timeout")
       /\ validation_results report = validation_results report0
       /\ total_errors report = total_errors report0
       /\ total_warnings report = total_warnings report0
       /\ overall_status report = overall_status report0
       /\ In (overall_status report) statuses
       /\ exists dmp_results dmp_errors dmp_warnings,
            extract_dmp (stage stages "dmp_validation")
            = Ok (dmp_results, dmp_errors, dmp_warnings)
            /\ validation_results report = dmp_results
            /\ total_errors report = dmp_errors.
Proof.
  intros Ha Hp Hc Hr Hnd H0 adapter. unfold adapter.
  rewrite (validate_with_arelle_timeout re w _ _ _ Ha Hp Hc Hr).
  split; [reflexivity|]. split; [reflexivity|]. split; [reflexivity|].
  unfold finish_validation, arelle_stage.
  rewrite (validate_with_arelle_timeout re w _ _ _ Ha Hp Hc Hr).
  set (X := timeout_result xbrl_path taxonomy_path entry_point).
  assert (Hsum : Dict.get "arelle_validation"
                   (summarize (Dict.set "arelle_validation" (VDict X) stages) [])
                 = Some (VStr "timeout")).
  { rewrite (summarize_get_in _ [] "arelle_validation" X).
    - reflexivity.
    - apply dict_set_nodup. exact Hnd.
    - apply dict_set_has. }
  revert H0 Hsum. unfold _synthesize_results.
  cbn [count_completed]. unfold stage_status.
  rewrite !stage_set_eq.
  rewrite !(stage_set_ne "arelle_validation" "dmp_validation") by discriminate.
  rewrite !(stage_set_ne "arelle_validation" "dmp_concept_resolution") by discriminate.
  rewrite !(stage_set_ne "arelle_validation" "dmp_rule_validation") by discriminate.
  change (extract_arelle skipped_stage) with (@Ok (list PyVal * list PyVal) ([], [])).
  change (extract_arelle (VDict X)) with (@Ok (list PyVal * list PyVal) ([], [])).
  change (Py.get skipped_stage "status" VNone) with (Ok (VStr "skipped")).
  change (Py.get (VDict X) "status" VNone) with (Ok (VStr "timeout")).
  cbn [bind].
  destruct (extract_dmp (stage stages "dmp_validation"))
    as [[[dmp_results dmp_errors] dmp_warnings]|e] eqn:Hd; cbn [bind];
    [|discriminate].
  destruct (parse_resolution_rate py_float (stage stages "dmp_concept_resolution"))
    as [rate|e] eqn:Hrate; cbn [bind]; [|discriminate].
  destruct (determine_status (List.length (@nil PyVal) + dmp_errors)
              (List.length (@nil PyVal) + dmp_warnings) rate)
    as [overall advice] eqn:Hs.
  destruct (Py.get (stage stages "dmp_concept_resolution") "resolution_rate"
              (VStr "0%")) as [rate_text|e]; cbn [bind]; [|discriminate].
  destruct (Py.get (stage stages "dmp_concept_resolution") "total_facts" (VInt 0))
    as [facts_processed|e]; cbn [bind]; [|discriminate].
  destruct (Py.get (stage stages "dmp_concept_resolution") "status" VNone)
    as [s1|e]; cbn [bind]; [|discriminate].
  destruct (Py.get (stage stages "dmp_rule_validation") "status" VNone)
    as [s2|e]; cbn [bind]; [|discriminate].
  destruct (Py.get (stage stages "dmp_validation") "status" VNone)
    as [s3|e]; cbn [bind]; [|discriminate].
  intros H0 Hsum. injection H0 as <-.
  eexists. eexists. split; [reflexivity|].
  cbn [stage_summary validation_results total_errors total_warnings overall_status].
  split; [exact Hsum|].
  repeat (split; [reflexivity|]).
  split.
  - pose proof (determine_status_in_statuses (List.length (@nil PyVal) + dmp_errors)
                  (List.length (@nil PyVal) + dmp_warnings) rate) as Hin.
    rewrite Hs in Hin. exact Hin.
  - exists dmp_results, dmp_errors, dmp_warnings. repeat split.
Qed.

Lemma timeout_reported_as_skipped_witness :
  exists stages' report,
    finish_validation PyFloatRead.float_of_decimal no_patterns true timeout_world
      "instance.xbrl" "taxonomy.zip" stages_without_dictionary
    = Finished stages' report
    /\ Dict.get "arelle_validation" (stage_summary report) = Some (VStr "timeout")
    /\ In (overall_status report) statuses.
Proof.
  destruct (_synthesize_results PyFloatRead.float_of_decimal
              (Dict.set "arelle_validation" skipped_stage stages_without_dictionary))
    as [report0|e] eqn:H0; [|vm_compute in H0; discriminate].
  destruct (timeout_reported_as_skipped PyFloatRead.float_of_decimal no_patterns
              timeout_world "instance.xbrl" "taxonomy.zip" "taxonomy/finrep.xsd"
              stages_without_dictionary report0
              eq_refl eq_refl eq_refl eq_refl)
    as (_ & _ & _ & stages' & report & Hf & Hsum & _ & _ & _ & _ & Hin & _).
  - repeat constructor; simpl; intuition discriminate.
  - exact H0.
  - exists stages', report. auto.
Defined.

(** * Further properties *)

(** ** Architecture detector, continued *)



(** X2. The scan of the elements is bounded: once more than five namespaces
    are known after an element, the elements after it are not looked at,
    whatever they declare. *)
Theorem scan_elements_stops (before : list Arch.Attrib) (element : Arch.Attrib)
  (after : list Arch.Attrib) (namespaces : list (string * string)) :
  (5 < List.length (Arch.scan_elements (before ++ [element]) namespaces))%nat ->
  Arch.scan_elements (before ++ element :: after) namespaces
  = Arch.scan_elements (before ++ [element]) namespaces.
Proof.
  revert namespaces. induction before as [|b before IH]; intros namespaces H.
  - simpl in *.
    destruct (5 <? List.length (Arch.collect_xmlns element namespaces))%nat eqn:E;
      [reflexivity|].
    apply Nat.ltb_ge in E. lia.
  - simpl in *.
    destruct (5 <? List.length (Arch.collect_xmlns b namespaces))%nat;
      [reflexivity|]. apply IH. exact H.
Qed.

Lemma scan_elements_stops_witness :
  let declares := fun p : string => [(("xmlns:" ++ p)%string, ("http://x/" ++ p)%string)] in
  Arch.scan_elements
    ([declares "a"; declares "b"; declares "c"; declares "d"; declares "e"]
     ++ declares "f" :: [declares "eba_met"; declares "find"]) []
  = Arch.scan_elements
      ([declares "a"; declares "b"; declares "c"; declares "d"; declares "e"]
       ++ [declares "f"]) [].
Proof.
  intros declares.
  apply (scan_elements_stops
           [declares "a"; declares "b"; declares "c"; declares "d"; declares "e"]
           (declares "f") [declares "eba_met"; declares "find"] []).
  vm_compute. lia.
Defined.

(** ** Concept resolver, continued *)

(** X3. A name the resolver could not resolve is not put in the cache, so
    the next call searches again; a call changes the cache at most at its
    own name and never drops or changes an entry. *)
Theorem resolve_caches_successes_only (db : Store.Database)
  (cache : gmap string Concept) (name : string) :
  let o := resolve_concept_from_dmp db cache name in
  (returned o = None -> cache_after o = cache /\ cache !! name = None)
  /\ (forall m c, cache !! m = Some c -> cache_after o !! m = Some c)
  /\ (forall m, m <> name -> cache_after o !! m = cache !! m).
Proof.
  intros o. unfold o.
  destruct (cache !! name) as [c0|] eqn:Hn.
  - rewrite (resolve_cache_hit _ _ _ _ Hn). cbn [returned cache_after].
    split; [intros H; discriminate H|]. split; auto.
  - destruct (resolve_cache_miss db cache name Hn) as (Hr & _ & Ha).
    rewrite Hr, Ha.
    destruct (snd (search_cascade db name)) as [c|].
    + split; [intros H; discriminate H|]. split.
      * intros m c' Hm. destruct (decide (name = m)) as [<-|Hne].
        -- rewrite Hn in Hm. discriminate Hm.
        -- rewrite lookup_insert_ne by exact Hne. exact Hm.
      * intros m Hne. apply lookup_insert_ne. congruence.
    + split; [intros _; split; reflexivity|]. split; auto.
Qed.

Lemma resolve_caches_successes_only_witness :
  cache_after (resolve_concept_from_dmp sample_db ∅ "eba_met:qq9") = ∅
  /\ (∅ : gmap string Concept) !! "eba_met:qq9" = None.
Proof.
  apply (proj1 (resolve_caches_successes_only sample_db ∅ "eba_met:qq9")).
  vm_compute. reflexivity.
Defined.

(** X4. Without a connection to the store every search of the cascade runs
    and finds nothing, without an exception; the resolver then returns
    what its cache holds for the name. *)
Theorem no_connection_resolves_nothing (db : Store.Database)
  (cache : gmap string Concept) (name : string) :
  Store.connect_ok db = false ->
  search_cascade db name = (cascade_order, None)
  /\ returned (resolve_concept_from_dmp db cache name) = cache !! name
  /\ cache_after (resolve_concept_from_dmp db cache name) = cache.
Proof.
  intros Hc.
  assert (Hcas : search_cascade db name = (cascade_order, None)).
  { rewrite search_cascade_first_hit.
    unfold cascade_order, first_hit, run_strategy,
      _search_by_exact_match, _search_by_clean_name, _search_by_partial_match,
      _search_in_member_table, _search_using_queries_manager,
      _search_by_prefix_variants, Store.get_connection.
    rewrite Hc. cbn [bind none_on_error].
    destruct (PyStr.split_colon_once name) as [[prefix local_name]|]; reflexivity. }
  split; [exact Hcas|].
  destruct (cache !! name) as [c|] eqn:Hn.
  - rewrite (resolve_cache_hit _ _ _ _ Hn). split; reflexivity.
  - destruct (resolve_cache_miss db cache name Hn) as (-> & _ & ->).
    rewrite Hcas. split; reflexivity.
Qed.

Lemma no_connection_resolves_nothing_witness :
  search_cascade offline_db "eba_met:Assets" = (cascade_order, None)
  /\ returned (resolve_concept_from_dmp offline_db ∅ "eba_met:Assets")
     = (∅ : gmap string Concept) !! "eba_met:Assets"
  /\ cache_after (resolve_concept_from_dmp offline_db ∅ "eba_met:Assets") = ∅.
Proof.
  apply (no_connection_resolves_nothing offline_db ∅ "eba_met:Assets").
  reflexivity.
Defined.

(** X5. On a store of the older generation, recognised by its
    [DimensionalItem] table, the prefix-variant and the partial-match
    searches are skipped for every name. *)
Theorem legacy_store_skips_two_searches (db : Store.Database) (name : string)
  (t : Store.Table) :
  Dict.get "DimensionalItem" (Store.tables db) = Some t ->
  _detect_database_version db = dmp_3_3
  /\ _search_by_prefix_variants db name = None
  /\ _search_by_partial_match db (_clean_concept_name name) = None.
Proof.
  intros Ht.
  assert (Hv : _detect_database_version db = dmp_3_3).
  { unfold _detect_database_version, Store.probe_table. rewrite Ht. reflexivity. }
  split; [exact Hv|]. split.
  - unfold _search_by_prefix_variants.
    destruct (PyStr.split_colon_once name) as [[prefix local_name]|]; [|reflexivity].
    rewrite Hv. destruct (Store.get_connection db); reflexivity.
  - unfold _search_by_partial_match. rewrite Hv.
    destruct (Store.get_connection db); reflexivity.
Qed.

Lemma legacy_store_skips_two_searches_witness :
  _detect_database_version legacy_db = dmp_3_3
  /\ _search_by_prefix_variants legacy_db "eba_met:Assets" = None
  /\ _search_by_partial_match legacy_db (_clean_concept_name "eba_met:Assets") = None.
Proof.
  apply (legacy_store_skips_two_searches legacy_db "eba_met:Assets"
           (Store.ItemRows
              [{| Store.col_Code := "eba_met:Assets"; Store.col_Label := "Assets" |}])).
  reflexivity.
Defined.

Lemma provenance_item (table : string) (r : Store.ItemRow) :
  In table ["DimensionalItem"; "Item"; "PrimaryItem"] ->
  provenance_ok (concept_of_item table r).
Proof.
  intros H. right. cbn [concept_of_item source searchType MemberXbrlCode].
  split; [|split; reflexivity].
  simpl in *. intuition.
Qed.

Lemma provenance_row (r : Store.ConceptRow) : provenance_ok (concept_of_row r).
Proof. right. simpl. intuition. Qed.

Lemma provenance_datapoint (r : Store.DataPointRow) :
  provenance_ok (concept_of_datapoint r).
Proof. right. simpl. intuition. Qed.

Lemma try_variants_provenance (db : Store.Database) (concept_table local_name : string)
  (variants : list string) (c : Concept) :
  try_variants db concept_table local_name variants = Ok (Some c) -> provenance_ok c.
Proof.
  induction variants as [|v variants IH]; cbn [try_variants]; [discriminate|].
  destruct (Store.fetchone_concept db concept_table _) as [[r|]|e]; cbn [bind].
  - intros H. injection H as <-. apply provenance_row.
  - exact IH.
  - discriminate.
Qed.

Lemma try_patterns_provenance (db : Store.Database) (concept_table : string)
  (patterns : list string) (c : Concept) :
  try_patterns db concept_table patterns = Ok (Some c) -> provenance_ok c.
Proof.
  induction patterns as [|p patterns IH]; cbn [try_patterns]; [discriminate|].
  destruct (Store.fetchone_concept db concept_table _) as [[r|]|e]; cbn [bind].
  - intros H. injection H as <-. apply provenance_row.
  - exact IH.
  - discriminate.
Qed.

Lemma try_member_patterns_provenance (db : Store.Database) (member_table : string)
  (search_patterns : list (string * string)) (c : Concept) :
  try_member_patterns db member_table search_patterns = Ok (Some c) ->
  exists search_type r,
    c = concept_of_member search_type r /\ In search_type (map snd search_patterns).
Proof.
  induction search_patterns as [|[pattern search_type] rest IH];
    cbn [try_member_patterns]; [discriminate|].
  destruct (Store.fetchone_member db member_table _) as [[r|]|e]; cbn [bind].
  - intros H. injection H as <-. exists search_type, r.
    split; [reflexivity|left; reflexivity].
  - intros H. destruct (IH H) as (st & r & -> & Hin).
    exists st, r. split; [reflexivity|right; exact Hin].
  - discriminate.
Qed.

Lemma run_strategy_provenance (db : Store.Database) (s : Strategy) (name : string)
  (c : Concept) :
  run_strategy db s name = Some c -> provenance_ok c.
Proof.
  destruct s; cbn [run_strategy].
  - unfold _search_by_exact_match.
    destruct (Store.get_connection db); cbn [bind none_on_error]; [|discriminate].
    destruct (_detect_database_version db).
    + destruct (Store.fetchone_item db "DimensionalItem" _) as [[r|]|e];
        cbn [none_on_error].
      * intros H. injection H as <-. apply provenance_item. simpl. auto.
      * discriminate.
      * destruct (Store.fetchone_item db "Item" _) as [[r|]|e']; cbn [none_on_error];
          try discriminate.
        intros H. injection H as <-. apply provenance_item. simpl. auto.
    + destruct (Store.in_mapping_values db _); cbn [none_on_error]; [|discriminate].
      destruct (Store.fetchone_concept db _ _) as [[r|]|e];
        cbn [bind option_map none_on_error]; try discriminate.
      intros H. injection H as <-. apply provenance_row.
  - unfold _search_by_clean_name.
    destruct (Store.get_connection db); cbn [bind none_on_error]; [|discriminate].
    destruct (_detect_database_version db).
    + destruct (Store.fetchone_item db "DimensionalItem" _) as [[r|]|e].
      * cbn [none_on_error]. intros H. injection H as <-.
        apply provenance_item. simpl. auto.
      * destruct (Store.fetchone_item db "PrimaryItem" _) as [[r|]|e'];
          cbn [none_on_error]; try discriminate.
        intros H. injection H as <-. apply provenance_item. simpl. auto.
      * destruct (Store.fetchone_item db "PrimaryItem" _) as [[r|]|e'];
          cbn [none_on_error]; try discriminate.
        intros H. injection H as <-. apply provenance_item. simpl. auto.
    + destruct (if Store.in_mapping_values db _ then _ else _) as [[r|]|e];
        cbn [bind none_on_error]; try discriminate.
      * intros H. injection H as <-. apply provenance_row.
      * destruct (Store.in_mapping_values db _); cbn [none_on_error]; [|discriminate].
        destruct (Store.fetchone_datapoint db _ _) as [[r|]|e];
          cbn [bind option_map none_on_error]; try discriminate.
        intros H. injection H as <-. apply provenance_datapoint.
  - unfold _search_by_prefix_variants.
    destruct (PyStr.split_colon_once name) as [[prefix local_name]|];
      cbn [none_on_error]; [|discriminate].
    destruct (Store.get_connection db); cbn [bind none_on_error]; [|discriminate].
    destruct (_detect_database_version db); cbn [none_on_error]; [discriminate|].
    destruct (negb _); cbn [none_on_error]; [discriminate|].
    destruct (try_variants db _ _ _) as [[c'|]|e] eqn:E; cbn [none_on_error];
      try discriminate.
    intros H. injection H as <-. exact (try_variants_provenance _ _ _ _ _ E).
  - unfold _search_by_partial_match.
    destruct (Store.get_connection db); cbn [bind none_on_error]; [|discriminate].
    destruct (_detect_database_version db); cbn [none_on_error]; [discriminate|].
    destruct (Store.in_mapping_values db _); cbn [none_on_error]; [|discriminate].
    destruct (try_patterns db _ _) as [[c'|]|e] eqn:E; cbn [none_on_error];
      try discriminate.
    intros H. injection H as <-. exact (try_patterns_provenance _ _ _ _ E).
  - unfold _search_in_member_table.
    destruct (Store.get_connection db); cbn [bind none_on_error]; [|discriminate].
    destruct (negb _); cbn [none_on_error]; [discriminate|].
    destruct (try_member_patterns db _ _) as [[c'|]|e] eqn:E; cbn [none_on_error];
      try discriminate.
    intros H. injection H as <-.
    destruct (try_member_patterns_provenance _ _ _ _ E) as (st & r & -> & Hin).
    left. cbn [concept_of_member source ConceptType MemberXbrlCode searchType].
    split; [reflexivity|]. split; [reflexivity|]. split; [eexists; reflexivity|].
    exists st. split; [reflexivity|exact Hin].
  - discriminate.
Qed.

(** X6. Whatever the resolver returns on a cache filled by itself carries a
    provenance: either the member table, with type Member, the member's
    XBRL code and one of the four ways of matching, or one of the five
    other tables, without those two fields. *)
Theorem resolved_concept_provenance (db : Store.Database)
  (cache : gmap string Concept) (name : string) (c : Concept) :
  cache_coherent db cache ->
  returned (resolve_concept_from_dmp db cache name) = Some c ->
  provenance_ok c.
Proof.
  intros Hco Hret.
  assert (Hcas : snd (search_cascade db name) = Some c).
  { destruct (cache !! name) as [c0|] eqn:Hn.
    - rewrite (resolve_cache_hit _ _ _ _ Hn) in Hret. cbn [returned] in Hret.
      injection Hret as <-. exact (Hco _ _ Hn).
    - destruct (resolve_cache_miss db cache name Hn) as (Hr & _ & _). congruence. }
  rewrite search_cascade_first_hit in Hcas.
  destruct (first_hit db name cascade_order) as [ran r] eqn:Hf.
  cbn [snd] in Hcas. subst r.
  destruct (first_hit_stops _ _ _ _ _ Hf) as (earlier & s & rest & _ & _ & Hrun & _).
  exact (run_strategy_provenance _ _ _ _ Hrun).
Qed.

Lemma resolved_concept_provenance_witness :
  provenance_ok
    {| ConceptCode := "x1"; ConceptLabel := "Spain"; ConceptType := "Member";
       MetricCode := ""; source := "tMember"; MemberXbrlCode := Some "eba_GA:x1";
       searchType := Some "exact match" |}.
Proof.
  apply (resolved_concept_provenance sample_db ∅ "eba_GA:x1").
  - apply cache_coherent_empty.
  - vm_compute. reflexivity.
Defined.

(** On a cache filled from the dictionary the resolver returns what the
    cascade finds. *)
Lemma resolve_is_cascade (db : Store.Database) (cache : gmap string Concept)
  (name : string) :
  cache_coherent db cache ->
  returned (resolve_concept_from_dmp db cache name) = snd (search_cascade db name).
Proof.
  intros Hco. destruct (cache !! name) as [c|] eqn:Hn.
  - rewrite (resolve_cache_hit _ _ _ _ Hn). symmetry. exact (Hco _ _ Hn).
  - exact (proj1 (resolve_cache_miss db cache name Hn)).
Qed.

Lemma batch_from_results (db : Store.Database) (concept_list : list string) :
  forall (cache : gmap string Concept) (results : list (string * option Concept)),
  (forall n, In n concept_list ->
     Dict.get n (fst (batch_from db cache concept_list results))
     = Some (returned (resolve_concept_from_dmp db cache n)))
  /\ (forall n, ~ In n concept_list ->
        Dict.get n (fst (batch_from db cache concept_list results))
        = Dict.get n results)
  /\ (cache_coherent db cache ->
      cache_coherent db (snd (batch_from db cache concept_list results))).
Proof.
  induction concept_list as [|concept rest IH]; intros cache results;
    cbn [batch_from].
  - split; [intros n []|]. split; [reflexivity|]. intros H. exact H.
  - destruct (IH (cache_after (resolve_concept_from_dmp db cache concept))
                (Dict.set concept (returned (resolve_concept_from_dmp db cache concept))
                   results)) as (Hin & Hout & Hco).
    split; [|split].
    + intros n Hn.
      destruct (in_dec String.string_dec n rest) as [Hrest|Hrest].
      * rewrite (Hin n Hrest). rewrite resolve_returned_stable. reflexivity.
      * destruct Hn as [<-|Hn]; [|contradiction].
        rewrite (Hout _ Hrest). apply dict_get_set_eq.
    + intros n Hn. rewrite Hout by (intros H; apply Hn; right; exact H).
      apply dict_get_set_ne. intros ->. apply Hn. left. reflexivity.
    + intros H. apply Hco. apply resolve_keeps_coherent. exact H.
Qed.

(** X7. Resolving a list of names in one batch gives, for every name of the
    list, what resolving that name alone gives; nothing else is in the
    result.  From an empty cache this is what the cascade finds, however
    often and in whatever order the names occur. *)
Theorem batch_resolves_like_single_calls (db : Store.Database)
  (cache : gmap string Concept) (concept_list : list string) (n : string) :
  (In n concept_list ->
   Dict.get n (fst (batch_resolve_concepts db cache concept_list))
   = Some (returned (resolve_concept_from_dmp db cache n)))
  /\ (~ In n concept_list ->
      Dict.get n (fst (batch_resolve_concepts db cache concept_list)) = None)
  /\ (In n concept_list ->
      Dict.get n (fst (batch_resolve_concepts db ∅ concept_list))
      = Some (snd (search_cascade db n))).
Proof.
  unfold batch_resolve_concepts.
  destruct (batch_from_results db concept_list cache []) as (Hin & Hout & _).
  destruct (batch_from_results db concept_list ∅ []) as (Hin0 & _ & _).
  split; [exact (Hin n)|]. split; [exact (Hout n)|].
  intros H. rewrite (Hin0 n H).
  rewrite (resolve_is_cascade db ∅ n (cache_coherent_empty db)). reflexivity.
Qed.

Lemma batch_resolves_like_single_calls_witness :
  Dict.get "eba_met:Assets"
    (fst (batch_resolve_concepts sample_db ∅
            ["eba_met:qq9"; "eba_met:Assets"; "eba_met:qq9"; "eba_met:Assets"]))
  = Some (returned (resolve_concept_from_dmp sample_db ∅ "eba_met:Assets")).
Proof.
  apply (proj1 (batch_resolves_like_single_calls sample_db ∅
                  ["eba_met:qq9"; "eba_met:Assets"; "eba_met:qq9"; "eba_met:Assets"]
                  "eba_met:Assets")).
  simpl. auto.
Defined.

(** X8. The cache a resolver builds from an empty one stays coherent with
    the dictionary, so that a cached answer is never different from a
    fresh one. *)
Theorem cached_answer_is_fresh_answer (db : Store.Database)
  (concept_list : list string) (name : string) :
  let cache := snd (batch_resolve_concepts db ∅ concept_list) in
  cache_coherent db cache
  /\ returned (resolve_concept_from_dmp db cache name)
     = returned (resolve_concept_from_dmp db ∅ name).
Proof.
  intros cache.
  assert (Hco : cache_coherent db cache).
  { unfold cache, batch_resolve_concepts.
    apply (batch_from_results db concept_list ∅ []). apply cache_coherent_empty. }
  split; [exact Hco|].
  rewrite (resolve_is_cascade _ _ _ Hco).
  rewrite (resolve_is_cascade db ∅ name (cache_coherent_empty db)). reflexivity.
Qed.

(** ** Rule evaluator and rule engine, continued *)

Lemma existence_statuses (rule : RuleEvaluator.Rule) (facts : RuleEvaluator.Facts)
  (cr : PyVal) (ev : RuleEvaluator.Evaluation) :
  RuleEvaluator._evaluate_existence_rule rule facts cr = Ok ev ->
  RuleEvaluator.ev_status ev = "passed" \/ RuleEvaluator.ev_status ev = "failed".
Proof.
  unfold RuleEvaluator._evaluate_existence_rule. intros H.
  bind_ok H. bind_ok H. bind_ok H.
  destruct a1 as [|x l].
  - injection H as <-. left. reflexivity.
  - bind_ok H. injection H as <-. right. reflexivity.
Qed.

(** X9. Every result of [evaluate_rule] has one of the four statuses
    passed, failed, skipped and error, whatever the rule holds. *)
Theorem evaluate_rule_status_closed (rule : RuleEvaluator.Rule)
  (facts : RuleEvaluator.Facts) (concept_resolutions : PyVal) :
  exists r, RuleEvaluator.evaluate_rule rule facts concept_resolutions = Ok r
            /\ In (RuleEvaluator.status r) rule_statuses.
Proof.
  unfold RuleEvaluator.evaluate_rule, try_except, bind, rule_statuses.
  destruct (RuleEvaluator.dispatch rule facts concept_resolutions) as [ev|e] eqn:Hd.
  - eexists. split; [reflexivity|].
    cbn [RuleEvaluator.status RuleEvaluator.update].
    unfold RuleEvaluator.dispatch in Hd.
    repeat match type of Hd with
           | (if ?b then _ else _) = _ => destruct b
           end;
      try (injection Hd as <-; simpl; tauto).
    destruct (existence_statuses _ _ _ _ Hd) as [-> | ->]; simpl; tauto.
  - eexists. split; [reflexivity|]. simpl. tauto.
Qed.

Lemma concept_found_string (concept : string) (fact_names : list string) :
  RuleEvaluator.concept_found (VStr concept) fact_names
  = Ok (existsb (name_matches concept) fact_names).
Proof.
  induction fact_names as [|fact_name rest IH]; [reflexivity|].
  cbn [RuleEvaluator.concept_found existsb].
  unfold RuleEvaluator.fact_matches, name_matches at 1.
  destruct (PyStr.contains ":" fact_name); cbn [Py.in_str Py.eq_str bind].
  - destruct (PyStr.contains concept fact_name); cbn [orb]; [reflexivity|].
    destruct (String.eqb concept (PyStr.after_last_colon fact_name)); cbn [orb];
      [reflexivity|exact IH].
  - destruct (String.eqb concept fact_name); cbn [orb]; [reflexivity|exact IH].
Qed.

Lemma find_missing_strings (concepts : list string) (fact_names : list string) :
  RuleEvaluator.find_missing (map VStr concepts) fact_names
  = Ok (map VStr (missing_among concepts fact_names)).
Proof.
  induction concepts as [|c concepts IH]; [reflexivity|].
  cbn [map RuleEvaluator.find_missing]. rewrite concept_found_string, IH.
  cbn [bind]. unfold missing_among. cbn [List.filter].
  destruct (existsb (name_matches c) fact_names); reflexivity.
Qed.

Lemma join_items_strings (index : nat) (l : list string) :
  Py.join_items index (map VStr l) = Ok l.
Proof.
  revert index. induction l as [|x l IH]; intros index; [reflexivity|].
  cbn [map Py.join_items]. rewrite IH. reflexivity.
Qed.

(** X10. An existence rule whose required concepts are strings passes exactly
    when every one of them is answered by a fact name, where a fact name
    with a prefix answers by substring or by its local name and a fact
    name without a prefix by equality only; otherwise it fails and its
    message lists the concepts not answered, in their order. *)
Theorem existence_rule_outcome (rule : RuleEvaluator.Rule)
  (facts : RuleEvaluator.Facts) (concept_resolutions : PyVal)
  (entries : list (string * PyVal)) (concepts : list string) :
  RuleEvaluator.rule_get rule "execution_method" (VStr "general_validation")
  = VStr "existence_check" ->
  RuleEvaluator.rule_get rule "parsed_expression" (VDict []) = VDict entries ->
  Dict.get "concepts" entries = Some (VList (map VStr concepts)) ->
  exists r,
    RuleEvaluator.evaluate_rule rule facts concept_resolutions = Ok r
    /\ match missing_among concepts (Dict.keys facts) with
       | [] => RuleEvaluator.status r = "passed"
               /\ RuleEvaluator.message r = "All required concepts found"
       | missing =>
           RuleEvaluator.status r = "failed"
           /\ RuleEvaluator.message r
              = ("Missing required concepts: " ++ PyStr.join ", " missing)%string
           /\ RuleEvaluator.details r
              = [("missing_concepts", VList (map VStr missing))]
       end.
Proof.
  intros Hm Hp Hc.
  unfold RuleEvaluator.evaluate_rule, RuleEvaluator.dispatch.
  rewrite Hm. cbn [Py.eq_str String.eqb Ascii.eqb Bool.eqb].
  unfold RuleEvaluator._evaluate_existence_rule.
  rewrite Hp. cbn [Py.get]. rewrite Hc. cbn [bind Py.iterate].
  rewrite find_missing_strings. cbn [bind].
  destruct (missing_among concepts (Dict.keys facts)) as [|m missing] eqn:E.
  - cbn [map bind try_except]. eexists. split; [reflexivity|]. split; reflexivity.
  - change (map VStr (m :: missing)) with (VStr m :: map VStr missing).
    cbv iota. change (VStr m :: map VStr missing) with (map VStr (m :: missing)).
    unfold Py.join. rewrite join_items_strings. cbn [bind try_except].
    eexists. split; [reflexivity|]. repeat split.
Qed.

Lemma existence_rule_outcome_witness :
  exists r,
    RuleEvaluator.evaluate_rule equity_rule balance_facts VNone = Ok r
    /\ RuleEvaluator.status r = "failed"
    /\ RuleEvaluator.message r = "Missing required concepts: Equity"
    /\ RuleEvaluator.details r = [("missing_concepts", VList [VStr "Equity"])].
Proof.
  exact (existence_rule_outcome equity_rule balance_facts VNone
           [("type", VStr "existence");
            ("concepts", VList (map VStr ["Assets"; "Equity"; "Cash"]))]
           ["Assets"; "Equity"; "Cash"] eq_refl eq_refl eq_refl).
Defined.

Lemma record_result_counts (acc : RuleEvaluator.RuleValidation)
  (r : RuleEvaluator.RuleResult) :
  let acc' := RuleEvaluator.record_result acc r in
  RuleEvaluator.total_rules_evaluated acc' = S (RuleEvaluator.total_rules_evaluated acc)
  /\ RuleEvaluator.rules_passed acc'
     = (RuleEvaluator.rules_passed acc + count_status "passed" [r])%nat
  /\ RuleEvaluator.rules_failed acc'
     = (RuleEvaluator.rules_failed acc + count_status "failed" [r])%nat
  /\ (RuleEvaluator.rules_passed acc' + RuleEvaluator.rules_failed acc'
      + RuleEvaluator.rules_skipped acc'
      = S (RuleEvaluator.rules_passed acc + RuleEvaluator.rules_failed acc
           + RuleEvaluator.rules_skipped acc))%nat.
Proof.
  unfold RuleEvaluator.record_result, count_status.
  cbn [RuleEvaluator.total_rules_evaluated RuleEvaluator.rules_passed
       RuleEvaluator.rules_failed RuleEvaluator.rules_skipped List.filter].
  destruct (String.eqb (RuleEvaluator.status r) "passed") eqn:Ep.
  - apply String.eqb_eq in Ep. rewrite Ep. cbn. repeat split; lia.
  - destruct (String.eqb (RuleEvaluator.status r) "failed"); cbn; repeat split; lia.
Qed.

Lemma count_status_app (s : string) (a b : list RuleEvaluator.RuleResult) :
  count_status s (a ++ b) = (count_status s a + count_status s b)%nat.
Proof. unfold count_status. rewrite List.filter_app, List.length_app. reflexivity. Qed.

Lemma evaluate_rules_counts (rules : list RuleEvaluator.Rule)
  (facts : RuleEvaluator.Facts) (cr : PyVal) :
  forall acc v,
  RuleEvaluator.evaluate_rules rules facts cr acc = Ok v ->
  RuleEvaluator.total_rules_evaluated v
  = (RuleEvaluator.total_rules_evaluated acc + List.length rules)%nat
  /\ RuleEvaluator.rules_passed v
     = (RuleEvaluator.rules_passed acc
        + count_status "passed" (map (rule_outcome facts cr) rules))%nat
  /\ RuleEvaluator.rules_failed v
     = (RuleEvaluator.rules_failed acc
        + count_status "failed" (map (rule_outcome facts cr) rules))%nat
  /\ (RuleEvaluator.rules_passed v + RuleEvaluator.rules_failed v
      + RuleEvaluator.rules_skipped v
      = RuleEvaluator.rules_passed acc + RuleEvaluator.rules_failed acc
        + RuleEvaluator.rules_skipped acc + List.length rules)%nat.
Proof.
  induction rules as [|rule rest IH]; intros acc v H; cbn [RuleEvaluator.evaluate_rules] in H.
  - injection H as <-. cbn. repeat split; lia.
  - rewrite evaluate_rule_outcome in H. cbn [bind] in H.
    destruct (IH _ _ H) as (H1 & H2 & H3 & H4).
    destruct (record_result_counts acc (rule_outcome facts cr rule))
      as (R1 & R2 & R3 & R4).
    cbn [map List.length].
    change (rule_outcome facts cr rule :: map (rule_outcome facts cr) rest)
      with ([rule_outcome facts cr rule] ++ map (rule_outcome facts cr) rest).
    rewrite !count_status_app.
    repeat split; lia.
Qed.

(** X11. The counters of the engine's loop add up: every rule is counted
    once, as passed, failed or skipped, and there is one result per rule.
    A rule whose evaluation ended with status error is among the skipped:
    the skipped are all the results that neither passed nor failed. *)
Theorem engine_counters_add_up (rules : list RuleEvaluator.Rule)
  (facts : RuleEvaluator.Facts) (concept_resolutions : PyVal) :
  exists v,
    RuleEvaluator.evaluate_rules rules facts concept_resolutions
      RuleEvaluator.empty_validation = Ok v
    /\ RuleEvaluator.total_rules_evaluated v = List.length rules
    /\ List.length (RuleEvaluator.rule_results v) = List.length rules
    /\ RuleEvaluator.rules_passed v = count_status "passed" (RuleEvaluator.rule_results v)
    /\ RuleEvaluator.rules_failed v = count_status "failed" (RuleEvaluator.rule_results v)
    /\ (RuleEvaluator.rules_passed v + RuleEvaluator.rules_failed v
        + RuleEvaluator.rules_skipped v = List.length rules)%nat
    /\ (count_status "error" (RuleEvaluator.rule_results v)
        <= RuleEvaluator.rules_skipped v)%nat.
Proof.
  destruct (evaluate_rules_results rules facts concept_resolutions
              RuleEvaluator.empty_validation) as (v & Hv & Hr).
  cbn [RuleEvaluator.rule_results RuleEvaluator.empty_validation app] in Hr.
  destruct (evaluate_rules_counts _ _ _ _ _ Hv) as (H1 & H2 & H3 & H4).
  cbn in H1, H2, H3, H4.
  exists v. split; [exact Hv|]. rewrite Hr.
  split; [exact H1|]. split; [apply List.length_map|].
  split; [exact H2|]. split; [exact H3|]. split; [exact H4|].
  assert (Hsum : forall l : list RuleEvaluator.RuleResult,
             (count_status "passed" l + count_status "failed" l
              + count_status "error" l <= List.length l)%nat).
  { clear. unfold count_status. induction l as [|r l IH]; cbn [List.filter List.length];
      [lia|].
    destruct (String.eqb (RuleEvaluator.status r) "passed") eqn:E1;
      destruct (String.eqb (RuleEvaluator.status r) "failed") eqn:E2;
      destruct (String.eqb (RuleEvaluator.status r) "error") eqn:E3;
      cbn [List.length]; try lia;
      repeat match goal with
             | E : String.eqb _ _ = true |- _ => apply String.eqb_eq in E
             end; congruence. }
  specialize (Hsum (map (rule_outcome facts concept_resolutions) rules)).
  rewrite List.length_map in Hsum. lia.
Qed.

(** ** Rule parser, continued *)

Lemma determine_execution_method_closed (rule_type expression : string) :
  In (RuleParser._determine_execution_method rule_type expression) execution_methods.
Proof.
  unfold RuleParser._determine_execution_method, execution_methods.
  repeat match goal with
         | |- context [if ?b then _ else _] => destruct b
         end; simpl; tauto.
Qed.

Lemma default_severity_get (k : string) (d : list (string * PyVal)) :
  k <> "ErrorSeverity" ->
  Dict.get k (match Dict.get "ErrorSeverity" d with
              | Some v => if Py.truthy v then d
                          else Dict.set "ErrorSeverity" (VStr "ERROR") d
              | None => Dict.set "ErrorSeverity" (VStr "ERROR") d
              end) = Dict.get k d.
Proof.
  intros Hk. destruct (Dict.get "ErrorSeverity" d) as [v|].
  - destruct (Py.truthy v); [reflexivity|]. apply dict_get_set_ne. congruence.
  - apply dict_get_set_ne. congruence.
Qed.

(** X12. A rule that comes out of [process_rule] has an execution method, one
    of the five, and a severity that is not empty, ERROR when the raw
    rule had none; all fields but the three the parser writes are those
    of the raw rule. *)
Theorem process_rule_output (ex : RuleParser.Extractors)
  (rule_dict processed : list (string * PyVal)) :
  RuleParser.process_rule ex rule_dict = Ok processed ->
  (exists method, Dict.get "execution_method" processed = Some (VStr method)
                  /\ In method execution_methods)
  /\ (exists severity, Dict.get "ErrorSeverity" processed = Some severity
                       /\ Py.truthy severity = true)
  /\ (Dict.get "ErrorSeverity" rule_dict = None ->
      Dict.get "ErrorSeverity" processed = Some (VStr "ERROR"))
  /\ (forall k, ~ In k written_keys -> Dict.get k processed = Dict.get k rule_dict).
Proof.
  unfold RuleParser.process_rule. intros H.
  bind_ok H. bind_ok H. bind_ok H. injection H as <-.
  set (d := Dict.set "execution_method" (VStr a1) a) in *.
  assert (Hmethod : In a1 execution_methods).
  { destruct (match Dict.get "Expression" rule_dict with
              | Some v => v | None => VStr "" end) as [| | |e| |];
      try (destruct (PyStr.contains "calculation" (PyStr.lower a0));
           [injection E1 as <-; simpl; tauto|discriminate E1]).
    injection E1 as <-. apply determine_execution_method_closed. }
  assert (Ha : forall k, k <> "parsed_expression" -> Dict.get k a = Dict.get k rule_dict).
  { intros k Hk.
    destruct (Py.truthy _) in E; [|injection E as <-; reflexivity].
    destruct (match Dict.get "Expression" rule_dict with
              | Some v => v | None => VStr "" end); try discriminate E.
    injection E as <-. apply dict_get_set_ne. congruence. }
  split; [|split; [|split]].
  - exists a1. split; [|exact Hmethod].
    rewrite default_severity_get by discriminate. apply dict_get_set_eq.
  - destruct (Dict.get "ErrorSeverity" d) as [v|] eqn:Es.
    + destruct (Py.truthy v) eqn:Et.
      * exists v. split; assumption.
      * exists (VStr "ERROR"). split; [apply dict_get_set_eq|reflexivity].
    + exists (VStr "ERROR"). split; [apply dict_get_set_eq|reflexivity].
  - intros Hnone.
    assert (Hd : Dict.get "ErrorSeverity" d = None).
    { unfold d. rewrite dict_get_set_ne by discriminate.
      rewrite Ha by discriminate. exact Hnone. }
    rewrite Hd. apply dict_get_set_eq.
  - intros k Hk. rewrite default_severity_get.
    + unfold d. rewrite dict_get_set_ne.
      * apply Ha. intros ->. apply Hk. simpl. tauto.
      * intros <-. apply Hk. simpl. tauto.
    + intros ->. apply Hk. simpl. tauto.
Qed.

Lemma process_rule_output_witness :
  exists processed,
    RuleParser.process_rule no_extractors summing_rule = Ok processed
    /\ Dict.get "execution_method" processed = Some (VStr "calculation_check")
    /\ Dict.get "ErrorSeverity" processed = Some (VStr "ERROR")
    /\ Dict.get "RuleCode" processed = Some (VStr "v0100_m").
Proof.
  destruct (RuleParser.process_rule no_extractors summing_rule) as [processed|e] eqn:H;
    [|vm_compute in H; discriminate H].
  exists processed. split; [reflexivity|].
  destruct (process_rule_output _ _ _ H) as (_ & _ & Hsev & Hkeep).
  split; [vm_compute in H; injection H as <-; reflexivity|].
  split; [apply Hsev; reflexivity|].
  rewrite Hkeep; [reflexivity|]. simpl. intuition discriminate.
Defined.

(** X13. A raw rule whose type column is NULL is refused by the parser with
    an [AttributeError], whatever its expression: the type is lower-cased
    without a test for [None]. *)
Theorem process_rule_null_type_raises (ex : RuleParser.Extractors)
  (rule_dict : list (string * PyVal)) :
  Dict.get "RuleType" rule_dict = Some VNone ->
  exists msg, RuleParser.process_rule ex rule_dict = Raise (AttributeError msg).
Proof.
  intros Ht. unfold RuleParser.process_rule, RuleParser.get_text. rewrite Ht.
  destruct (Py.truthy _).
  - destruct (match Dict.get "Expression" rule_dict with
              | Some v => v | None => VStr "" end);
      cbn [bind]; eexists; reflexivity.
  - cbn [bind]. eexists. reflexivity.
Qed.

Lemma process_rule_null_type_raises_witness :
  exists msg, RuleParser.process_rule no_extractors null_type_rule
              = Raise (AttributeError msg).
Proof.
  apply (process_rule_null_type_raises no_extractors null_type_rule).
  reflexivity.
Defined.

Lemma processed_method (ex : RuleParser.Extractors)
  (rule_dict processed : list (string * PyVal)) (rule_type e : string) :
  Dict.get "Expression" rule_dict = Some (VStr e) ->
  RuleParser.get_text rule_dict "RuleType" "lower" = Ok rule_type ->
  RuleParser.process_rule ex rule_dict = Ok processed ->
  RuleEvaluator.rule_get processed "execution_method" (VStr "general_validation")
  = VStr (RuleParser._determine_execution_method (PyStr.lower rule_type) e).
Proof.
  intros He Ht H.
  unfold RuleParser.process_rule in H. rewrite He, Ht in H.
  bind_ok H. cbn [bind] in H. injection H as <-.
  unfold RuleEvaluator.rule_get.
  rewrite default_severity_get by discriminate.
  rewrite dict_get_set_eq. reflexivity.
Qed.

(** X14. Parser and evaluator together: a raw rule whose expression contains
    [sum(], in any letter case, is reported as skipped whatever its
    declared type and the facts are; it is never reported as passed. *)
Theorem summing_rule_is_skipped (ex : RuleParser.Extractors)
  (rule_dict processed : list (string * PyVal)) (e : string)
  (facts : RuleEvaluator.Facts) (concept_resolutions : PyVal) :
  Dict.get "Expression" rule_dict = Some (VStr e) ->
  PyStr.contains "sum(" (PyStr.lower e) = true ->
  RuleParser.process_rule ex rule_dict = Ok processed ->
  exists r, RuleEvaluator.evaluate_rule processed facts concept_resolutions = Ok r
            /\ RuleEvaluator.status r = "skipped".
Proof.
  intros He Hsum H.
  assert (Ht : exists rule_type,
             RuleParser.get_text rule_dict "RuleType" "lower" = Ok rule_type).
  { unfold RuleParser.process_rule in H. bind_ok H. bind_ok H.
    exists a0. reflexivity. }
  destruct Ht as [rule_type Ht].
  pose proof (processed_method _ _ _ _ _ He Ht H) as Hm.
  unfold RuleParser._determine_execution_method in Hm.
  rewrite Hsum, orb_true_r in Hm.
  unfold RuleEvaluator.evaluate_rule, RuleEvaluator.dispatch. rewrite Hm.
  eexists. split; reflexivity.
Qed.

Lemma summing_rule_is_skipped_witness :
  exists processed r,
    RuleParser.process_rule no_extractors summing_rule = Ok processed
    /\ RuleEvaluator.evaluate_rule processed balance_facts VNone = Ok r
    /\ RuleEvaluator.status r = "skipped".
Proof.
  destruct (RuleParser.process_rule no_extractors summing_rule) as [processed|e] eqn:H;
    [|vm_compute in H; discriminate H].
  destruct (summing_rule_is_skipped no_extractors summing_rule processed
              "SUM(eba_met:mi1, eba_met:mi2) = eba_met:mi3" balance_facts VNone
              eq_refl eq_refl H) as (r & Hr & Hs).
  exists processed, r. auto.
Defined.

(** ** Applicable rules *)

Lemma any_concept_matches_strings (concepts : list string)
  (resolved_concepts fact_names : list string) :
  Engine.any_concept_matches (map VStr concepts) resolved_concepts fact_names
  = Ok (existsb (concept_met resolved_concepts fact_names) concepts).
Proof.
  induction concepts as [|c concepts IH]; [reflexivity|].
  cbn [map Engine.any_concept_matches existsb Engine.in_set bind].
  unfold concept_met at 1.
  destruct (existsb (String.eqb c) resolved_concepts); cbn [orb]; [reflexivity|].
  destruct (existsb (String.eqb c) fact_names); cbn [orb]; [reflexivity|].
  assert (Hany : Engine.in_any (VStr c) fact_names
                 = Ok (existsb (PyStr.contains c) fact_names)).
  { destruct fact_names; reflexivity. }
  rewrite Hany. cbn [bind].
  destruct (existsb (PyStr.contains c) fact_names); [reflexivity|exact IH].
Qed.

(** X15. A rule that names no concept is applicable to every set of facts; a
    rule that names concepts is applicable exactly when one of them is a
    resolved concept code, a fact name, or a part of a fact name. *)
Theorem rule_applicability (rule : RuleEvaluator.Rule)
  (entries : list (string * PyVal)) (concepts : list string)
  (resolved_concepts fact_names : list string) :
  RuleEvaluator.rule_get rule "parsed_expression" (VDict []) = VDict entries ->
  (Dict.get "concepts" entries = None
   -> Engine._is_rule_applicable rule resolved_concepts fact_names = Ok true)
  /\ (Dict.get "concepts" entries = Some (VList (map VStr concepts)) ->
      Engine._is_rule_applicable rule resolved_concepts fact_names
      = Ok (match concepts with
            | [] => true
            | _ => existsb (concept_met resolved_concepts fact_names) concepts
            end)).
Proof.
  intros Hp. unfold Engine._is_rule_applicable. rewrite Hp. cbn [Py.get].
  split; intros Hc; rewrite Hc; cbn [bind].
  - reflexivity.
  - destruct concepts as [|c concepts]; [reflexivity|].
    cbn [map Py.truthy negb Py.iterate bind].
    apply (any_concept_matches_strings (c :: concepts)).
Qed.

Lemma rule_applicability_witness :
  Engine._is_rule_applicable concept_free_rule [] [] = Ok true
  /\ Engine._is_rule_applicable equity_rule [] ["ns1:Assets"; "Assets"] = Ok true
  /\ Engine._is_rule_applicable equity_rule ["mi53"] ["ns1:Liabilities"; "Liabilities"]
     = Ok false.
Proof.
  split; [|split].
  - exact (proj2 (rule_applicability concept_free_rule
                    [("type", VStr "unknown"); ("concepts", VList [])] [] [] []
                    eq_refl) eq_refl).
  - exact (proj2 (rule_applicability equity_rule
                    [("type", VStr "existence");
                     ("concepts", VList (map VStr ["Assets"; "Equity"; "Cash"]))]
                    ["Assets"; "Equity"; "Cash"] [] ["ns1:Assets"; "Assets"]
                    eq_refl) eq_refl).
  - exact (proj2 (rule_applicability equity_rule
                    [("type", VStr "existence");
                     ("concepts", VList (map VStr ["Assets"; "Equity"; "Cash"]))]
                    ["Assets"; "Equity"; "Cash"] ["mi53"]
                    ["ns1:Liabilities"; "Liabilities"] eq_refl) eq_refl).
Defined.

(** X16. The applicable rules are reported by their codes in the order of the
    rule cache, one code per applicable entry. *)
Theorem applicable_rules_in_cache_order
  (rules_cache : list (string * RuleEvaluator.Rule)) (facts : RuleEvaluator.Facts)
  (concept_resolutions : Resolution.Results) (codes : list string) :
  Engine._find_applicable_rules rules_cache facts concept_resolutions = Ok codes ->
  codes
  = map fst
      (List.filter
         (applicable_or_not
            (Engine.resolved_codes (Resolution.resolution_details concept_resolutions))
            (Engine.names_with_local facts))
         rules_cache).
Proof.
  unfold Engine._find_applicable_rules.
  generalize (Engine.resolved_codes (Resolution.resolution_details concept_resolutions))
    as rc, (Engine.names_with_local facts) as fn.
  intros rc fn. revert codes.
  induction rules_cache as [|[code rule] rest IH]; intros codes H;
    cbn [Engine.applicable_codes] in H.
  - injection H as <-. reflexivity.
  - bind_ok H. bind_ok H. injection H as <-.
    cbn [List.filter]. unfold applicable_or_not at 1. cbn [snd]. rewrite E.
    rewrite (IH _ eq_refl). destruct a; reflexivity.
Qed.

Lemma applicable_rules_in_cache_order_witness :
  Engine._find_applicable_rules
    [("v1", equity_rule); ("v0200_m", concept_free_rule); ("v0002_m", calculation_rule)]
    [("ns1:Liabilities", VStr "800000")]
    {| Resolution.status := "completed"; Resolution.total_facts := 1;
       Resolution.business_facts := 1; Resolution.resolved_facts := 0;
       Resolution.unresolved_facts := 1; Resolution.resolution_details := [];
       Resolution.resolution_by_source := []; Resolution.resolution_rate := "0.0%" |}
  = Ok ["v0200_m"; "v0002_m"].
Proof.
  assert (H : exists codes,
             Engine._find_applicable_rules
               [("v1", equity_rule); ("v0200_m", concept_free_rule);
                ("v0002_m", calculation_rule)]
               [("ns1:Liabilities", VStr "800000")]
               {| Resolution.status := "completed"; Resolution.total_facts := 1;
                  Resolution.business_facts := 1; Resolution.resolved_facts := 0;
                  Resolution.unresolved_facts := 1; Resolution.resolution_details := [];
                  Resolution.resolution_by_source := [];
                  Resolution.resolution_rate := "0.0%" |} = Ok codes).
  { eexists. vm_compute. reflexivity. }
  destruct H as [codes H]. rewrite H. f_equal.
  rewrite (applicable_rules_in_cache_order _ _ _ _ H). vm_compute. reflexivity.
Defined.

(** ** The merged list of the reconciliation *)

Lemma count_severity_app (sev : string) (a b : list ErrorEntry) :
  count_severity sev (a ++ b) = (count_severity sev a + count_severity sev b)%nat.
Proof. unfold count_severity. rewrite List.filter_app, List.length_app. reflexivity. Qed.

Lemma report_resolved_lines (items : list (string * Concept)) :
  forall issue_id errors results next_id,
  report_resolved issue_id items = (errors, results, next_id) ->
  map e_line errors = seq issue_id (List.length items)
  /\ next_id = (issue_id + List.length items)%nat
  /\ List.length results = List.length items
  /\ count_severity "error" errors = 0%nat
  /\ (count_severity "warning" errors + count_severity "info" errors)%nat
     = List.length items.
Proof.
  induction items as [|[k0 d0] items IH]; intros issue_id errors results next_id H;
    cbn [report_resolved] in H.
  - injection H as <- <- <-. cbn [List.length]. repeat split. lia.
  - destruct (report_resolved (S issue_id) items) as [[errs ress] nid] eqn:Hrec.
    injection H as <- <- <-.
    destruct (IH _ _ _ _ Hrec) as (H1 & H2 & H3 & H4 & H5).
    cbn [map e_line resolved_error_entry List.length seq].
    rewrite H1, H3. split; [reflexivity|]. split; [lia|]. split; [reflexivity|].
    unfold count_severity in *.
    cbn [List.filter e_severity resolved_error_entry].
    unfold resolved_severity.
    destruct (String.eqb (source d0) "tMember");
      cbn [String.eqb Ascii.eqb Bool.eqb List.length]; lia.
Qed.

Lemma report_unresolved_lines (concepts : list string) :
  forall issue_id errors results next_id,
  report_unresolved issue_id concepts = (errors, results, next_id) ->
  map e_line errors = seq issue_id (List.length concepts)
  /\ List.length results = List.length concepts
  /\ count_severity "error" errors = List.length concepts
  /\ count_severity "warning" errors = 0%nat
  /\ count_severity "info" errors = 0%nat.
Proof.
  induction concepts as [|k0 concepts IH]; intros issue_id errors results next_id H;
    cbn [report_unresolved] in H.
  - injection H as <- <- <-. repeat split.
  - destruct (report_unresolved (S issue_id) concepts) as [[errs ress] nid] eqn:Hrec.
    injection H as <- <- <-.
    destruct (IH _ _ _ _ Hrec) as (H1 & H2 & H3 & H4 & H5).
    cbn [map e_line missing_error_entry List.length seq].
    rewrite H1, H2. split; [reflexivity|]. split; [reflexivity|].
    unfold count_severity in *.
    cbn [List.filter e_severity missing_error_entry String.eqb Ascii.eqb Bool.eqb
         List.length].
    rewrite H3, H4, H5. repeat split.
Qed.

(** The parts of the processed output. *)
Lemma process_output_parts (db : Store.Database) (cache : gmap string Concept)
  (missing_concepts : list string) (returncode : Z) :
  let out := process_arelle_output db cache missing_concepts returncode in
  map e_line (errors out) = seq 1 (List.length (errors out))
  /\ List.length (dmpResults out) = List.length (errors out)
  /\ List.length (errors out)
     = (List.length (ValidationLogic.resolved out) + List.length (unresolved out))%nat
  /\ totalErrorsDetected out = List.length (unresolved out)
  /\ (totalWarningsDetected out + totalInfoDetected out)%nat
     = List.length (ValidationLogic.resolved out)
  /\ isValid out
     = (List.length (unresolved out) =? 0)%nat && (returncode =? 0)%Z
  /\ ValidationLogic.status out = (if isValid out then "valid" else "invalid").
Proof.
  intros out. unfold out, process_arelle_output.
  destruct (resolve_missing db cache missing_concepts [] []) as [[R U] cache'].
  destruct (report_resolved 1 R) as [[errors1 results1] issue_id] eqn:Hr1.
  destruct (report_unresolved issue_id U) as [[errors2 results2] last_id] eqn:Hr2.
  cbn [errors dmpResults ValidationLogic.resolved unresolved totalErrorsDetected
       totalWarningsDetected totalInfoDetected isValid ValidationLogic.status].
  destruct (report_resolved_lines _ _ _ _ _ Hr1) as (A1 & A2 & A3 & A4 & A5).
  destruct (report_unresolved_lines _ _ _ _ _ Hr2) as (B1 & B2 & B3 & B4 & B5).
  assert (L1 : List.length errors1 = List.length R).
  { rewrite <- (List.length_map e_line), A1. apply List.length_seq. }
  assert (L2 : List.length errors2 = List.length U).
  { rewrite <- (List.length_map e_line), B1. apply List.length_seq. }
  rewrite !count_severity_app, List.map_app, !List.length_app, A1, B1, A2, A3, A4,
    B2, B3, B4, B5, L1, L2.
  split; [symmetry; apply List.seq_app|].
  repeat split; lia.
Qed.

(** X17. The entries of the merged list are numbered 1, 2, ... in the order of
    the list; there is one record per entry; the entries are those of the
    resolved concepts and those of the unresolved ones; the count of errors
    is the number of unresolved concepts, and the warnings and infos
    together are as many as the resolved concepts. *)
Theorem merged_list_numbering (db : Store.Database) (cache : gmap string Concept)
  (missing_concepts : list string) (returncode : Z) :
  let out := process_arelle_output db cache missing_concepts returncode in
  map e_line (errors out) = seq 1 (List.length (errors out))
  /\ List.length (dmpResults out) = List.length (errors out)
  /\ List.length (errors out)
     = (List.length (ValidationLogic.resolved out) + List.length (unresolved out))%nat
  /\ totalErrorsDetected out = List.length (unresolved out)
  /\ (totalWarningsDetected out + totalInfoDetected out)%nat
     = List.length (ValidationLogic.resolved out).
Proof.
  intros out.
  destruct (process_output_parts db cache missing_concepts returncode)
    as (H1 & H2 & H3 & H4 & H5 & _).
  auto.
Qed.

(** X18. The processed output is valid exactly when the validator's exit code
    is 0 and the resolver resolves every concept reported missing; its
    status is ['valid'] then and ['invalid'] otherwise. *)
Theorem output_valid_iff_all_resolved (db : Store.Database)
  (cache : gmap string Concept) (missing_concepts : list string) (returncode : Z) :
  let out := process_arelle_output db cache missing_concepts returncode in
  (isValid out = true
   <-> returncode = 0%Z
       /\ forall concept, In concept missing_concepts ->
            returned (resolve_concept_from_dmp db cache concept) <> None)
  /\ ValidationLogic.status out = (if isValid out then "valid" else "invalid").
Proof.
  intros out.
  destruct (process_output_parts db cache missing_concepts returncode)
    as (_ & _ & _ & _ & _ & Hv & Hs).
  fold out in Hv, Hs. split; [|exact Hs]. rewrite Hv.
  assert (Hu : unresolved out = []
               <-> forall concept, In concept missing_concepts ->
                     returned (resolve_concept_from_dmp db cache concept) <> None).
  { unfold out, process_arelle_output.
    destruct (resolve_missing db cache missing_concepts [] []) as [[R U] cache'] eqn:Hres.
    destruct (report_resolved 1 R) as [[errors1 results1] issue_id].
    destruct (report_unresolved issue_id U) as [[errors2 results2] last_id].
    cbn [unresolved].
    destruct (resolve_missing_sorts db
                (fun m => returned (resolve_concept_from_dmp db cache m))
                missing_concepts cache [] [] R U cache' (fun m => eq_refl) Hres)
      as (_ & H2 & _ & _ & H5).
    split.
    - intros -> concept Hin Hnone. specialize (H5 concept Hin). cbv beta in H5.
      rewrite Hnone in H5. destruct H5.
    - intros Hall. destruct U as [|u U]; [reflexivity|].
      destruct (H2 u (or_introl eq_refl)) as [[]|[Hin Hnone]].
      destruct (Hall u Hin Hnone). }
  rewrite andb_true_iff, Nat.eqb_eq, Z.eqb_eq, List.length_zero_iff_nil, Hu. tauto.
Qed.

(** ** Resolution details *)

Lemma bump_total (source : string) (by_source : list (string * nat)) :
  list_sum (map snd (bump source by_source)) = S (list_sum (map snd by_source)).
Proof.
  unfold bump, list_sum. induction by_source as [|[k n] d IH].
  - cbn. lia.
  - cbn [Dict.get Dict.set]. destruct (String.eqb source k).
    + cbn [map snd fold_right]. lia.
    + cbn [map snd fold_right]. rewrite IH. lia.
Qed.

Lemma resolve_loop_details (db : Store.Database) (facts : list (string * PyVal)) :
  forall acc acc',
  resolve_loop db facts acc = Ok acc' ->
  exists new,
    t_details acc' = t_details acc ++ new
    /\ t_business acc' = (t_business acc + List.length new)%nat
    /\ t_resolved acc'
       = (t_resolved acc + List.length (List.filter Resolution.resolved new))%nat
    /\ list_sum (map snd (t_by_source acc'))
       = (list_sum (map snd (t_by_source acc))
          + List.length (List.filter Resolution.resolved new))%nat
    /\ (List.length new <= List.length facts)%nat
    /\ (forall d, In d new ->
          In (fact_name d) (Dict.keys facts)
          /\ PyStr.contains ":" (fact_name d) = true
          /\ ~ In (fact_name d) structural_elements).
Proof.
  induction facts as [|[name fact_data] facts IH]; intros acc acc' H;
    cbn [resolve_loop] in H.
  - injection H as <-. exists []. rewrite List.app_nil_r. cbn [List.length List.filter].
    split; [reflexivity|]. split; [lia|]. split; [lia|]. split; [lia|].
    split; [lia|]. intros d [].
  - assert (Hskip : resolve_loop db facts acc = Ok acc' ->
              exists new,
                t_details acc' = t_details acc ++ new
                /\ t_business acc' = (t_business acc + List.length new)%nat
                /\ t_resolved acc'
                   = (t_resolved acc
                      + List.length (List.filter Resolution.resolved new))%nat
                /\ list_sum (map snd (t_by_source acc'))
                   = (list_sum (map snd (t_by_source acc))
                      + List.length (List.filter Resolution.resolved new))%nat
                /\ (List.length new <= List.length ((name, fact_data) :: facts))%nat
                /\ (forall d, In d new ->
                      In (fact_name d) (Dict.keys ((name, fact_data) :: facts))
                      /\ PyStr.contains ":" (fact_name d) = true
                      /\ ~ In (fact_name d) structural_elements)).
    { intros H'. destruct (IH _ _ H') as (new & H1 & H2 & H3 & H4 & H5 & H6).
      exists new. split; [exact H1|]. split; [exact H2|]. split; [exact H3|].
      split; [exact H4|]. split; [cbn [List.length]; lia|].
      intros d Hd. destruct (H6 d Hd) as (G1 & G2 & G3).
      split; [right; exact G1|]. split; assumption. }
    destruct (existsb (String.eqb name) structural_elements) eqn:Hstruct;
      [exact (Hskip H)|].
    destruct (is_business_concept name fact_data) as [business|e];
      cbn [bind] in H; [|discriminate].
    destruct business; cbn [negb] in H; [|exact (Hskip H)].
    destruct (PyStr.contains ":" name) eqn:Hcolon; cbn [negb] in H; [|exact (Hskip H)].
    clear Hskip.
    destruct (IH _ _ H) as (new & H1 & H2 & H3 & H4 & H5 & H6).
    assert (Hnot : ~ In name structural_elements).
    { intros Hin.
      assert (Ht : existsb (String.eqb name) structural_elements = true).
      { apply existsb_exists. exists name. split; [exact Hin|apply String.eqb_refl]. }
      congruence. }
    unfold resolve_fact in H1, H2, H3, H4.
    destruct (returned (resolve_concept_from_dmp db (t_cache acc) name)) as [c|];
      cbn [t_details t_business t_resolved t_by_source] in H1, H2, H3, H4;
      rewrite <- List.app_assoc in H1; cbn [app] in H1;
      eexists; (split; [exact H1|]);
      cbn [List.length List.filter Resolution.resolved].
    + rewrite bump_total in H4. cbn [List.length].
      split; [lia|]. split; [lia|]. split; [lia|]. split; [lia|].
      intros d [<-|Hd].
      * cbn [fact_name]. split; [left; reflexivity|]. split; assumption.
      * destruct (H6 d Hd) as (G1 & G2 & G3). split; [right; exact G1|]. split; assumption.
    + split; [lia|]. split; [lia|]. split; [lia|]. split; [lia|].
      intros d [<-|Hd].
      * cbn [fact_name]. split; [left; reflexivity|]. split; assumption.
      * destruct (H6 d Hd) as (G1 & G2 & G3). split; [right; exact G1|]. split; assumption.
Qed.

(** X19. The resolution results account for every business fact: there is one
    detail per business fact, each for a fact name of the input that has a
    prefix and is no structural element; the details marked resolved are as
    many as the resolved facts, and so are the counts by source table taken
    together; the business facts are at most the facts given. *)
Theorem resolution_details_account (db : Store.Database)
  (cache : gmap string Concept) (facts : list (string * PyVal))
  (results : Results) (cache' : gmap string Concept) :
  _resolve_concepts_in_dmp db cache facts = Ok (results, cache') ->
  total_facts results = List.length facts
  /\ List.length (resolution_details results) = business_facts results
  /\ List.length (List.filter Resolution.resolved (resolution_details results))
     = resolved_facts results
  /\ list_sum (map snd (resolution_by_source results)) = resolved_facts results
  /\ (business_facts results <= total_facts results)%nat
  /\ (forall d, In d (resolution_details results) ->
        In (fact_name d) (Dict.keys facts)
        /\ PyStr.contains ":" (fact_name d) = true
        /\ ~ In (fact_name d) structural_elements).
Proof.
  unfold _resolve_concepts_in_dmp. intros H. bind_ok H. injection H as <- <-.
  destruct (resolve_loop_details _ _ _ _ E) as (new & H1 & H2 & H3 & H4 & H5 & H6).
  cbn [t_details t_business t_resolved t_by_source app map list_sum] in H1, H2, H3, H4.
  cbn [total_facts resolution_details business_facts resolved_facts
       resolution_by_source].
  rewrite H1, H2, H3, H4.
  split; [reflexivity|]. split; [reflexivity|]. split; [reflexivity|].
  split; [reflexivity|]. split; [lia|]. exact H6.
Qed.

Lemma resolution_details_account_witness :
  exists results cache',
    _resolve_concepts_in_dmp sample_db ∅ sample_facts = Ok (results, cache')
    /\ List.length (resolution_details results) = business_facts results
    /\ list_sum (map snd (resolution_by_source results)) = resolved_facts results.
Proof.
  destruct (_resolve_concepts_in_dmp sample_db ∅ sample_facts) as [[results cache']|e]
    eqn:H.
  - exists results, cache'. split; [reflexivity|].
    destruct (resolution_details_account _ _ _ _ _ H) as (_ & H2 & _ & H4 & _).
    split; assumption.
  - vm_compute in H. discriminate.
Defined.

(** ** The adapter of the external validator *)

Lemma parse_lines_counts (re : Arelle.Patterns) (lines : list string) :
  forall acc,
  let parsed := fold_left (Arelle.parse_line re) lines acc in
  exists errs warns infos,
    Arelle.p_errors parsed = Arelle.p_errors acc ++ errs
    /\ Arelle.p_warnings parsed = Arelle.p_warnings acc ++ warns
    /\ Arelle.p_info_messages parsed = Arelle.p_info_messages acc ++ infos
    /\ (List.length errs + List.length warns + List.length infos
        <= List.length
             (List.filter (fun line => negb (String.eqb (Arelle.strip line) "")) lines))%nat
    /\ (Arelle.p_business_rules_processed parsed
        <= Arelle.p_business_rules_processed acc
           + List.length
               (List.filter (fun line => negb (String.eqb (Arelle.strip line) ""))
                  lines))%nat
    /\ Forall (fun e => Dict.get "type" e = Some (VStr "error")) errs
    /\ Forall (fun e => Dict.get "type" e = Some (VStr "warning")) warns.
Proof.
  induction lines as [|raw lines IH]; intros acc.
  - exists [], [], []. cbn [fold_left]. rewrite !List.app_nil_r.
    cbn [List.length List.filter]. repeat split; try lia; constructor.
  - cbn [fold_left List.filter].
    destruct (IH (Arelle.parse_line re acc raw))
      as (errs & warns & infos & H1 & H2 & H3 & H4 & H5 & H6 & H7).
    cbv zeta. rewrite H1, H2, H3. clear H1 H2 H3.
    revert H4 H5.
    generalize (fold_left (Arelle.parse_line re) lines (Arelle.parse_line re acc raw)).
    intros parsed H4 H5.
    clear IH. unfold Arelle.parse_line in H5 |- *. revert H5.
    destruct (String.eqb (Arelle.strip raw) "") eqn:Hblank; cbn [negb].
    + intros H5. exists errs, warns, infos. repeat split; assumption.
    + assert (Hb : ((if PyStr.any_in Arelle.business_rule_patterns
                          (PyStr.lower (Arelle.strip raw))
                     then S (Arelle.p_business_rules_processed acc)
                     else Arelle.p_business_rules_processed acc)
                    <= S (Arelle.p_business_rules_processed acc))%nat).
      { destruct (PyStr.any_in Arelle.business_rule_patterns
                    (PyStr.lower (Arelle.strip raw))); lia. }
      assert (Htype : forall t,
                 Dict.get "type"
                   (Arelle._categorize_arelle_message re (Arelle.strip raw) t)
                 = Some (VStr t)).
      { intros t. unfold Arelle._categorize_arelle_message, Arelle.set_opt.
        destruct (Arelle.re_line_number re _), (Arelle.re_fact_name re _),
          (Arelle.re_rule_code re _), (Arelle.re_element_name re _); reflexivity. }
      destruct (PyStr.any_in Arelle.error_keywords _);
        [|destruct (PyStr.any_in Arelle.warning_keywords _);
          [|destruct (PyStr.any_in Arelle.info_keywords _)]];
        cbn [Arelle.p_errors Arelle.p_warnings Arelle.p_info_messages
             Arelle.p_business_rules_processed];
        intros H5; rewrite <- ?List.app_assoc; cbn [List.length].
      * exists (Arelle._categorize_arelle_message re (Arelle.strip raw) "error" :: errs),
          warns, infos.
        split; [reflexivity|]. split; [reflexivity|]. split; [reflexivity|].
        cbn [List.length]. split; [lia|]. split; [lia|].
        split; [constructor; [apply Htype|exact H6]|exact H7].
      * exists errs,
          (Arelle._categorize_arelle_message re (Arelle.strip raw) "warning" :: warns),
          infos.
        split; [reflexivity|]. split; [reflexivity|]. split; [reflexivity|].
        cbn [List.length]. split; [lia|]. split; [lia|].
        split; [exact H6|constructor; [apply Htype|exact H7]].
      * exists errs, warns, (Arelle.strip raw :: infos).
        split; [reflexivity|]. split; [reflexivity|]. split; [reflexivity|].
        cbn [List.length]. split; [lia|]. split; [lia|]. split; assumption.
      * exists errs, warns, infos.
        split; [reflexivity|]. split; [reflexivity|]. split; [reflexivity|].
        split; [lia|]. split; [lia|]. split; assumption.
Qed.

Lemma parsed_output_lists (re : Arelle.Patterns) (stdout stderr : string)
  (return_code : Z) :
  exists errs warns,
    Dict.get "errors" (Arelle._parse_arelle_output re stdout stderr return_code)
    = Some (VList (map VDict errs))
    /\ Dict.get "warnings" (Arelle._parse_arelle_output re stdout stderr return_code)
       = Some (VList (map VDict warns)).
Proof. unfold Arelle._parse_arelle_output. eexists. eexists. split; reflexivity. Qed.

(** X20. What the adapter reads from the validator's output: every line that
    is not blank gives at most one diagnostic (an error, a warning or an
    information message); each error carries the type ['error'] and each
    warning the type ['warning']; the summary counts the errors and the
    warnings found and reports a pass exactly for exit code 0 without
    errors. *)
Theorem parsed_output_counts (re : Arelle.Patterns) (stdout stderr : string)
  (return_code : Z) :
  let out := Arelle._parse_arelle_output re stdout stderr return_code in
  exists errs warns infos summary,
    Dict.get "errors" out = Some (VList (map VDict errs))
    /\ Dict.get "warnings" out = Some (VList (map VDict warns))
    /\ Dict.get "info_messages" out = Some (VList (map VStr infos))
    /\ Dict.get "summary" out = Some (VDict summary)
    /\ Dict.get "total_errors" summary = Some (VInt (Z.of_nat (List.length errs)))
    /\ Dict.get "total_warnings" summary = Some (VInt (Z.of_nat (List.length warns)))
    /\ Dict.get "validation_passed" summary
       = Some (VBool ((return_code =? 0)%Z && (List.length errs =? 0)%nat))
    /\ (List.length errs + List.length warns + List.length infos
        <= List.length (output_lines stdout stderr))%nat
    /\ Forall (fun e => Dict.get "type" e = Some (VStr "error")) errs
    /\ Forall (fun e => Dict.get "type" e = Some (VStr "warning")) warns.
Proof.
  intros out. unfold out, Arelle._parse_arelle_output, output_lines.
  destruct (parse_lines_counts re (Arelle.split_lines (stdout ++ stderr))
              {| Arelle.p_errors := []; Arelle.p_warnings := [];
                 Arelle.p_info_messages := [];
                 Arelle.p_business_rules_processed := 0 |})
    as (errs & warns & infos & H1 & H2 & H3 & H4 & _ & H6 & H7).
  cbv zeta in H1, H2, H3.
  cbn [Arelle.p_errors Arelle.p_warnings Arelle.p_info_messages app] in H1, H2, H3.
  rewrite H1, H2, H3.
  exists errs, warns, infos. eexists.
  split; [reflexivity|]. split; [reflexivity|]. split; [reflexivity|].
  split; [reflexivity|]. split; [reflexivity|]. split; [reflexivity|].
  split; [reflexivity|]. split; [exact H4|]. split; assumption.
Qed.

(** X21. With the validator installed, the taxonomy processed and no cached
    result, the status of the adapter's result tells how the run ended:
    ['completed'], ['timeout'] or ['error'], and never ['running']; the
    result of a completed run carries the exit code, and counts as
    successful exactly when the exit code is 0. *)
Theorem adapter_status_follows_run (re : Arelle.Patterns) (w : Arelle.World)
  (xbrl_path taxonomy_path entry_point : string) :
  Arelle.arelle_available w = true ->
  Arelle.processed_taxonomy w = inl entry_point ->
  Arelle.cached_result w = None ->
  let result := Arelle.validate_with_arelle re w xbrl_path taxonomy_path in
  Dict.get "status" result = Some (VStr (run_status (Arelle.run w)))
  /\ Dict.get "status" result <> Some (VStr "running")
  /\ Dict.get "method" result = Some (VStr "arelle_fallback")
  /\ forall returncode stdout stderr,
       Arelle.run w = Arelle.Completed returncode stdout stderr ->
       Dict.get "return_code" result = Some (VInt returncode)
       /\ Dict.get "validation_successful" result = Some (VBool (returncode =? 0)%Z).
Proof.
  intros Ha Hp Hc result. unfold result, Arelle.validate_with_arelle.
  rewrite Ha, Hp, Hc. cbn [negb].
  destruct (Arelle.run w) as [rc out err| |e]; cbn [run_status].
  - split; [reflexivity|]. split; [discriminate|]. split; [reflexivity|].
    intros returncode stdout stderr E. injection E as <- <- <-. split; reflexivity.
  - split; [reflexivity|]. split; [discriminate|]. split; [reflexivity|].
    intros returncode stdout stderr E. discriminate.
  - split; [reflexivity|]. split; [discriminate|]. split; [reflexivity|].
    intros returncode stdout stderr E. discriminate.
Qed.

Lemma adapter_status_follows_run_witness :
  Dict.get "status"
    (Arelle.validate_with_arelle no_patterns failing_world "instance.xbrl" "taxonomy.zip")
  = Some (VStr "completed")
  /\ Dict.get "status"
       (Arelle.validate_with_arelle no_patterns timeout_world "instance.xbrl"
          "taxonomy.zip")
     = Some (VStr "timeout").
Proof.
  split.
  - exact (proj1 (adapter_status_follows_run no_patterns failing_world "instance.xbrl"
                    "taxonomy.zip" "taxonomy/finrep.xsd" eq_refl eq_refl eq_refl)).
  - exact (proj1 (adapter_status_follows_run no_patterns timeout_world "instance.xbrl"
                    "taxonomy.zip" "taxonomy/finrep.xsd" eq_refl eq_refl eq_refl)).
Defined.

(** X22. The validator is not consulted when it is not installed, when the
    taxonomy cannot be processed or when a cached result exists: the
    adapter's result is then the same however a run would end, with
    status ['unavailable'] in the first case and ['error'] in the
    second. *)
Theorem validator_not_consulted (re : Arelle.Patterns) (w : Arelle.World)
  (xbrl_path taxonomy_path : string) (r : Arelle.Subprocess) :
  (Arelle.arelle_available w = false ->
   Arelle.validate_with_arelle re (with_run w r) xbrl_path taxonomy_path
   = Arelle.validate_with_arelle re w xbrl_path taxonomy_path
   /\ Dict.get "status" (Arelle.validate_with_arelle re w xbrl_path taxonomy_path)
      = Some (VStr "unavailable"))
  /\ (forall error,
      Arelle.arelle_available w = true ->
      Arelle.processed_taxonomy w = inr error ->
      Arelle.validate_with_arelle re (with_run w r) xbrl_path taxonomy_path
      = Arelle.validate_with_arelle re w xbrl_path taxonomy_path
      /\ Dict.get "status" (Arelle.validate_with_arelle re w xbrl_path taxonomy_path)
         = Some (VStr "error")
      /\ Dict.get "error" (Arelle.validate_with_arelle re w xbrl_path taxonomy_path)
         = Some (VStr error))
  /\ (forall entry_point entry cached,
      Arelle.arelle_available w = true ->
      Arelle.processed_taxonomy w = inl entry_point ->
      Arelle.cached_result w = Some (entry :: cached) ->
      Arelle.validate_with_arelle re (with_run w r) xbrl_path taxonomy_path
      = Arelle.validate_with_arelle re w xbrl_path taxonomy_path
      /\ Dict.get "cache_hit"
           (Arelle.validate_with_arelle re w xbrl_path taxonomy_path)
         = Some (VBool true)).
Proof.
  unfold Arelle.validate_with_arelle, with_run.
  cbn [Arelle.arelle_available Arelle.processed_taxonomy Arelle.cached_result].
  split; [|split].
  - intros ->. split; reflexivity.
  - intros error -> ->. repeat split.
  - intros entry_point entry cached -> -> ->. cbn [negb].
    split; [reflexivity|]. apply dict_get_set_eq.
Qed.

Lemma validator_not_consulted_witness :
  Arelle.validate_with_arelle no_patterns
    (with_run {| Arelle.arelle_available := false;
                 Arelle.processed_taxonomy := inl "taxonomy/finrep.xsd";
                 Arelle.cached_result := None;
                 Arelle.run := Arelle.TimedOut |} failing_run)
    "instance.xbrl" "taxonomy.zip"
  = [("method", VStr "arelle_fallback"); ("status", VStr "unavailable");
     ("message", VStr "Arelle is not installed or accessible")].
Proof.
  rewrite (proj1 (proj1 (validator_not_consulted no_patterns
                           {| Arelle.arelle_available := false;
                              Arelle.processed_taxonomy := inl "taxonomy/finrep.xsd";
                              Arelle.cached_result := None;
                              Arelle.run := Arelle.TimedOut |}
                           "instance.xbrl" "taxonomy.zip" failing_run) eq_refl)).
  reflexivity.
Defined.

(** ** The validator's diagnostics in the report *)

Lemma arelle_issues_of_dicts (type severity default_message : string)
  (items : list (list (string * PyVal))) :
  exists issues,
    arelle_issues type severity default_message (map VDict items) = Ok issues
    /\ List.length issues = List.length items.
Proof.
  induction items as [|item items [issues [IH Hlen]]].
  - exists []. split; reflexivity.
  - cbn [map arelle_issues arelle_issue Py.get bind]. rewrite IH. cbn [bind].
    eexists. split; [reflexivity|]. cbn [List.length]. rewrite Hlen. reflexivity.
Qed.

(** X23. After a completed run of the validator, synthesis makes one error
    issue of every error the adapter read from the output and one warning
    issue of every warning, whatever the exit code: the report counts them
    with the errors and warnings of the dictionary validation. *)
Theorem completed_run_issues_merged (py_float : string -> result float)
  (re : Arelle.Patterns) (w : Arelle.World)
  (xbrl_path taxonomy_path entry_point : string)
  (returncode : Z) (stdout stderr : string)
  (stages : list (string * PyVal)) (report : Report) :
  Arelle.arelle_available w = true ->
  Arelle.processed_taxonomy w = inl entry_point ->
  Arelle.cached_result w = None ->
  Arelle.run w = Arelle.Completed returncode stdout stderr ->
  stage stages "arelle_validation"
  = VDict (Arelle.validate_with_arelle re w xbrl_path taxonomy_path) ->
  _synthesize_results py_float stages = Ok report ->
  exists errs warns dmp_results dmp_errors dmp_warnings,
    Dict.get "errors" (Arelle._parse_arelle_output re stdout stderr returncode)
    = Some (VList (map VDict errs))
    /\ Dict.get "warnings" (Arelle._parse_arelle_output re stdout stderr returncode)
       = Some (VList (map VDict warns))
    /\ extract_dmp (stage stages "dmp_validation")
       = Ok (dmp_results, dmp_errors, dmp_warnings)
    /\ total_errors report = (List.length errs + dmp_errors)%nat
    /\ total_warnings report = (List.length warns + dmp_warnings)%nat
    /\ List.length (validation_results report)
       = (List.length errs + List.length warns + List.length dmp_results)%nat
    /\ ((0 < List.length errs)%nat -> overall_status report = "VALIDATION_FAILED").
Proof.
  intros Ha Hp Hc Hr Hstage H.
  destruct (synthesize_parts _ _ _ H)
    as (ei & wi & dr & ne & nw & rate & Hea & Hd & _ & _ & Hv & He & Hw & Ho).
  destruct (parsed_output_lists re stdout stderr returncode)
    as (errs & warns & P1 & P2).
  exists errs, warns, dr, ne, nw.
  split; [exact P1|]. split; [exact P2|]. split; [exact Hd|].
  assert (Hlen : List.length ei = List.length errs
                 /\ List.length wi = List.length warns).
  { rewrite Hstage in Hea. unfold extract_arelle in Hea.
    assert (G1 : Dict.get "status"
                   (Arelle.validate_with_arelle re w xbrl_path taxonomy_path)
                 = Some (VStr "completed")).
    { unfold Arelle.validate_with_arelle. rewrite Ha, Hp, Hc, Hr. reflexivity. }
    assert (G2 : Dict.get "errors"
                   (Arelle.validate_with_arelle re w xbrl_path taxonomy_path)
                 = Some (VList (map VDict errs))).
    { rewrite <- P1. unfold Arelle.validate_with_arelle. rewrite Ha, Hp, Hc, Hr.
      reflexivity. }
    assert (G3 : Dict.get "warnings"
                   (Arelle.validate_with_arelle re w xbrl_path taxonomy_path)
                 = Some (VList (map VDict warns))).
    { rewrite <- P2. unfold Arelle.validate_with_arelle. rewrite Ha, Hp, Hc, Hr.
      reflexivity. }
    rewrite G1, G2, G3 in Hea. cbn [Py.eq_str String.eqb Ascii.eqb Bool.eqb] in Hea.
    cbn [Py.iterate bind] in Hea.
    destruct (arelle_issues_of_dicts "business_rule_violation" "error"
                "Business rule validation error" errs) as [ie [I1 I2]].
    destruct (arelle_issues_of_dicts "business_rule_warning" "warning"
                "Business rule validation warning" warns) as [iw [W1 W2]].
    rewrite I1 in Hea. cbn [bind] in Hea. rewrite W1 in Hea. cbn [bind] in Hea.
    injection Hea as <- <-. split; assumption. }
  destruct Hlen as [L1 L2].
  split; [rewrite He, L1; reflexivity|].
  split; [rewrite Hw, L2; reflexivity|].
  split; [rewrite Hv, !List.length_app, L1, L2; lia|].
  intros Hpos. rewrite Ho.
  apply (proj1 (determine_status_cases _ _ rate)). rewrite He, L1. lia.
Qed.

Lemma completed_run_issues_merged_witness :
  exists stages report,
    finish_validation PyFloatRead.float_of_decimal no_patterns true failing_world
      "instance.xbrl" "taxonomy.zip" stages_without_dictionary
    = Finished stages report
    /\ total_errors report = 1%nat
    /\ total_warnings report = 1%nat
    /\ overall_status report = "VALIDATION_FAILED".
Proof.
  unfold finish_validation.
  destruct (_synthesize_results PyFloatRead.float_of_decimal
              (Dict.set "arelle_validation"
                 (arelle_stage no_patterns true failing_world "instance.xbrl"
                    "taxonomy.zip") stages_without_dictionary))
    as [report|e] eqn:H; [|vm_compute in H; discriminate].
  eexists. exists report. split; [reflexivity|].
  destruct (completed_run_issues_merged PyFloatRead.float_of_decimal no_patterns
              failing_world "instance.xbrl" "taxonomy.zip" "taxonomy/finrep.xsd"
              1%Z _ _ _ report eq_refl eq_refl eq_refl eq_refl
              (stage_set_eq "arelle_validation" _ _) H)
    as (errs & warns & dr & ne & nw & P1 & P2 & Hd & He & Hw & _ & Hf).
  assert (L1 : List.length errs = 1%nat).
  { apply (f_equal (fun o => match o with
                             | Some (VList l) => List.length l
                             | _ => 0%nat
                             end)) in P1.
    cbv beta iota in P1. rewrite List.length_map in P1. rewrite <- P1.
    vm_compute. reflexivity. }
  assert (L2 : List.length warns = 1%nat).
  { apply (f_equal (fun o => match o with
                             | Some (VList l) => List.length l
                             | _ => 0%nat
                             end)) in P2.
    cbv beta iota in P2. rewrite List.length_map in P2. rewrite <- P2.
    vm_compute. reflexivity. }
  vm_compute in Hd. injection Hd as <- <- <-.
  rewrite He, Hw, L1, L2. split; [reflexivity|]. split; [reflexivity|].
  apply Hf. rewrite L1. lia.
Defined.

(** ** Facts by namespace *)

Lemma count_facts_get (prefix : string) (names : list string) :
  forall namespace_counts,
  Dict.get prefix (fold_left Hybrid.count_fact names namespace_counts)
  = match Dict.get prefix namespace_counts,
          List.length (List.filter (has_prefix prefix) names) with
    | None, O => None
    | None, S n => Some (S n)
    | Some m, n => Some (m + n)%nat
    end.
Proof.
  induction names as [|name names IH]; intros namespace_counts.
  - cbn [fold_left List.filter List.length].
    destruct (Dict.get prefix namespace_counts); [f_equal; lia|reflexivity].
  - cbn [fold_left List.filter]. rewrite IH. unfold Hybrid.count_fact, has_prefix.
    destruct (PyStr.contains ":" name); cbn [andb]; [|reflexivity].
    destruct (String.eqb (Hybrid.first_field name) prefix) eqn:E.
    + apply String.eqb_eq in E. rewrite E. rewrite dict_get_set_eq.
      cbn [List.length].
      destruct (Dict.get prefix namespace_counts); f_equal; lia.
    + rewrite dict_get_set_ne; [reflexivity|].
      intros Heq. rewrite Heq, String.eqb_refl in E. discriminate.
Qed.

(** X24. The count recorded for a prefix is the number of fact names that
    contain a colon and start with that prefix; a prefix with no such fact
    name is not recorded, so a recorded count is never 0. *)
Theorem namespace_counts_exact (facts : list (string * PyVal)) (prefix : string) :
  Dict.get prefix (Hybrid._count_facts_by_namespace facts)
  = match List.length (List.filter (has_prefix prefix) (Dict.keys facts)) with
    | O => None
    | S n => Some (S n)
    end.
Proof.
  unfold Hybrid._count_facts_by_namespace. rewrite count_facts_get. reflexivity.
Qed.

(** ** Version compatibility *)

Lemma compatibility_score_range (version_indicators : Compat.Indicators)
  (namespaces : list (string * bool)) :
  (0 <= Compat._calculate_compatibility_score version_indicators namespaces <= 100)%Z.
Proof. unfold Compat._calculate_compatibility_score. lia. Qed.

(** X25. An analysis that leads to the suggestion OLD_SAMPLE also leads to the
    suggestion VERSION_MISMATCH: a file name with 2020 in it is never
    detected as version 4.0.  The score of an analysis lies between 0 and
    100, and an analysis without suggestions has detected version 4.0 with
    a score of at least 50. *)
Theorem old_sample_is_version_mismatch (content xbrl_file_path : string)
  (analysis : Compat.Analysis) :
  Compat.analyze_xbrl_dmp_version_compatibility (Ok content) xbrl_file_path
  = Some analysis ->
  (In "OLD_SAMPLE" (Compat.suggest_compatibility_fixes analysis) ->
   In "VERSION_MISMATCH" (Compat.suggest_compatibility_fixes analysis))
  /\ (0 <= Compat.compatibility_score analysis <= 100)%Z
  /\ (Compat.suggest_compatibility_fixes analysis = [] ->
      Compat.detected_dmp_version analysis = "4.0"
      /\ (50 <= Compat.compatibility_score analysis)%Z).
Proof.
  unfold Compat.analyze_xbrl_dmp_version_compatibility. intros H.
  injection H as <-. unfold Compat.suggest_compatibility_fixes.
  cbn [Compat.version_mismatch Compat.compatibility_score Compat.creation_date
       Compat.detected_dmp_version Compat.eba_met_3_4 Compat.eba_met_3_0].
  set (score := Compat._calculate_compatibility_score _ _).
  assert (Hscore : (0 <= score <= 100)%Z) by apply compatibility_score_range.
  set (old := PyStr.contains "2020" (PyStr.basename xbrl_file_path)).
  clearbody score old.
  destruct (score <? 50)%Z eqn:Elow;
    [apply Z.ltb_lt in Elow|apply Z.ltb_ge in Elow];
    destruct (10 <? Compat.count "eba_met_3.4:" content)%Z,
             (10 <? Compat.count "eba_met_3.0:" content)%Z, old,
             (PyStr.contains "2019" (PyStr.basename xbrl_file_path));
    cbn [orb String.eqb Ascii.eqb Bool.eqb negb app In];
    (split; [|split; [exact Hscore|]]);
    try (intros _; left; reflexivity);
    try discriminate;
    try (intros [E|[]]; discriminate);
    try (intros [E|[E|[]]]; discriminate);
    try (intros _; split; [reflexivity|exact Elow]);
    try (intros []).
Qed.

Lemma old_sample_is_version_mismatch_witness :
  exists analysis,
    Compat.analyze_xbrl_dmp_version_compatibility (Ok "<xbrl/>")
      "samples/FINREP020400_2020-12-31.xbrl" = Some analysis
    /\ In "VERSION_MISMATCH" (Compat.suggest_compatibility_fixes analysis).
Proof.
  eexists. split; [reflexivity|].
  apply (proj1 (old_sample_is_version_mismatch "<xbrl/>"
                  "samples/FINREP020400_2020-12-31.xbrl" _ eq_refl)).
  right. left. reflexivity.
Defined.

(** X26. The score of an analysis does not depend on whether the file declares
    a 4.0 namespace: the analysis records that under the key ['dpm_4.0'],
    and the score looks for the key ['dmp_4.0'], which is never there. *)
Theorem namespace_4_0_never_counted (content xbrl_file_path : string)
  (analysis : Compat.Analysis) (declared_4_0 : bool) :
  Compat.analyze_xbrl_dmp_version_compatibility (Ok content) xbrl_file_path
  = Some analysis ->
  Dict.get "dmp_4.0" (Compat.namespaces analysis) = None
  /\ Compat.compatibility_score analysis
     = Compat._calculate_compatibility_score (Compat.version_indicators analysis)
         (Dict.set "dpm_4.0" declared_4_0 (Compat.namespaces analysis)).
Proof.
  unfold Compat.analyze_xbrl_dmp_version_compatibility. intros H.
  injection H as <-. split; reflexivity.
Qed.

Lemma namespace_4_0_never_counted_witness :
  exists analysis,
    Compat.analyze_xbrl_dmp_version_compatibility (Ok declares_4_0) "instance.xbrl"
    = Some analysis
    /\ Dict.get "dpm_4.0" (Compat.namespaces analysis) = Some true
    /\ Compat.compatibility_score analysis
       = Compat._calculate_compatibility_score (Compat.version_indicators analysis)
           (Dict.set "dpm_4.0" false (Compat.namespaces analysis)).
Proof.
  destruct (Compat.analyze_xbrl_dmp_version_compatibility (Ok declares_4_0)
              "instance.xbrl") as [analysis|] eqn:H; [|discriminate].
  exists analysis. split; [reflexivity|]. split.
  - injection H as <-. vm_compute. reflexivity.
  - exact (proj2 (namespace_4_0_never_counted _ _ _ false H)).
Defined.

(** ** Table discovery *)

Lemma first_available_found (available_tables possible_names : list string)
  (actual_name : string) :
  Queries.first_available available_tables possible_names = Some actual_name ->
  In actual_name available_tables
  /\ exists possible_name,
       In possible_name possible_names
       /\ PyStr.lower actual_name = PyStr.lower possible_name.
Proof.
  induction possible_names as [|possible_name rest IH]; cbn [Queries.first_available];
    [discriminate|].
  unfold Queries.find_table.
  destruct (List.find _ available_tables) as [table|] eqn:F.
  - intros E. injection E as <-. apply List.find_some in F as [Hin Heq].
    apply String.eqb_eq in Heq. split; [exact Hin|].
    exists possible_name. split; [left; reflexivity|exact Heq].
  - intros E. destruct (IH E) as [Hin [p [Hp Heq]]]. split; [exact Hin|].
    exists p. split; [right; exact Hp|exact Heq].
Qed.

Lemma discover_found (available_tables : list string)
  (expected : list (string * list string)) :
  forall table_mappings expected_name actual_name,
  Dict.get expected_name
    (fold_left
       (fun table_mappings entry =>
          match Queries.first_available available_tables (snd entry) with
          | Some actual_name =>
              if String.eqb actual_name "" then table_mappings
              else Dict.set (fst entry) actual_name table_mappings
          | None => table_mappings
          end) expected table_mappings) = Some actual_name ->
  Dict.get expected_name table_mappings = Some actual_name
  \/ exists possible_names,
       In (expected_name, possible_names) expected
       /\ Queries.first_available available_tables possible_names = Some actual_name
       /\ actual_name <> "".
Proof.
  induction expected as [|[name names] expected IH];
    intros table_mappings expected_name actual_name H; cbn [fold_left fst snd] in H.
  - left. exact H.
  - destruct (IH _ _ _ H) as [Hacc|[pn [Hin [Hf Hne]]]].
    + destruct (Queries.first_available available_tables names) as [found|] eqn:F;
        [|left; exact Hacc].
      destruct (String.eqb found "") eqn:Eempty; [left; exact Hacc|].
      destruct (String.eqb name expected_name) eqn:Ename.
      * apply String.eqb_eq in Ename. subst name.
        rewrite dict_get_set_eq in Hacc. injection Hacc as <-.
        right. exists names. split; [left; reflexivity|]. split; [exact F|].
        intros ->. discriminate.
      * left. rewrite dict_get_set_ne in Hacc; [exact Hacc|].
        intros ->. rewrite String.eqb_refl in Ename. discriminate.
    + right. exists pn. split; [right; exact Hin|]. split; assumption.
Qed.

Lemma expected_tables_get (expected_name : string) (possible_names : list string) :
  In (expected_name, possible_names) Queries.expected_tables ->
  Dict.get expected_name Queries.expected_tables = Some possible_names.
Proof.
  unfold Queries.expected_tables. cbn [In].
  intros H.
  repeat (destruct H as [H|H]; [injection H as <- <-; reflexivity|]).
  destruct H.
Qed.

(** X27. Every table name the discovery records exists in the database: it is
    one of the available tables, it is not empty, and it equals, letter
    case apart, one of the names expected for its key.  So the queries
    manager answers either the expected name itself or the name of an
    available table. *)
Theorem discovered_tables_exist (db : Store.Database)
  (available_tables : list string) (expected_name : string) :
  Store.table_mappings db = Queries._discover_table_mappings available_tables ->
  (forall actual_name,
     Dict.get expected_name (Store.table_mappings db) = Some actual_name ->
     In actual_name available_tables
     /\ actual_name <> ""
     /\ exists possible_names possible_name,
          Dict.get expected_name Queries.expected_tables = Some possible_names
          /\ In possible_name possible_names
          /\ PyStr.lower actual_name = PyStr.lower possible_name)
  /\ (Store.get_actual_table_name db expected_name = expected_name
      \/ In (Store.get_actual_table_name db expected_name) available_tables).
Proof.
  intros Hmap.
  assert (Hfound : forall actual_name,
     Dict.get expected_name (Store.table_mappings db) = Some actual_name ->
     In actual_name available_tables
     /\ actual_name <> ""
     /\ exists possible_names possible_name,
          Dict.get expected_name Queries.expected_tables = Some possible_names
          /\ In possible_name possible_names
          /\ PyStr.lower actual_name = PyStr.lower possible_name).
  { rewrite Hmap. unfold Queries._discover_table_mappings, Queries.discover.
    intros actual_name H.
    destruct (discover_found _ _ _ _ _ H) as [Hnil|[pn [Hin [Hf Hne]]]];
      [discriminate|].
    destruct (first_available_found _ _ _ Hf) as [Ha [p [Hp Heq]]].
    split; [exact Ha|]. split; [exact Hne|].
    exists pn, p. split; [apply expected_tables_get; exact Hin|]. split; assumption. }
  split; [exact Hfound|].
  unfold Store.get_actual_table_name.
  destruct (Dict.get expected_name (Store.table_mappings db)) as [actual|] eqn:E.
  - right. apply (Hfound actual eq_refl).
  - left. reflexivity.
Qed.

Lemma discovered_tables_exist_witness :
  Store.get_actual_table_name legacy_mapped_db "tConcept" = "tConcept"
  \/ In (Store.get_actual_table_name legacy_mapped_db "tConcept")
       ["TableItem"; "dimensionalitem"; "Axis"].
Proof.
  exact (proj2 (discovered_tables_exist legacy_mapped_db
                  ["TableItem"; "dimensionalitem"; "Axis"] "tConcept" eq_refl)).
Defined.

Example discovered_mappings :
  Queries._discover_table_mappings ["TableItem"; "dimensionalitem"; "Axis"; "item"]
  = [("tConcept", "dimensionalitem"); ("tDataPoint", "TableItem");
     ("tDimension", "Axis")].
Proof. vm_compute. reflexivity. Qed.
